(** * RepoMind: streaming task demultiplexer, retry ladder and result aggregation

    A shallow embedding of [src/utils/sdk-helper.ts] (class [SDKHelper]) and of
    the task list manager (class [TaskListManager]) of RepoMind, with the
    properties of the generation core stated and settled against it.

    Conventions of the embedding:
    - a JavaScript string is the list of its UTF-16 code units, so [length]
      is the JavaScript [.length];
    - a JavaScript number that only ever holds an index or a count is a [Z]
      (with [-1] for "not found", as [indexOf] returns it); confidences and
      timeouts are exact rationals [Q] standing for the doubles of the code;
    - [throw] is a value of the right summand of a sum type;
    - the external engine ([query] of the SDK), the file system and the
      clock are inputs: a script of messages per call, a tape of I/O
      outcomes, a timestamp. *)

From Stdlib Require Import ZArith NArith QArith Qminmax Lia Lqa Bool Ascii String.
From stdpp Require Import base option list gmap strings.

(* ===================================================================== *)
(** ** JavaScript strings                                                  *)
(* ===================================================================== *)

Module JS.

(** A string is its sequence of UTF-16 code units. *)
Abbreviation jsstring := (list N).

(** Code units of an ASCII literal. *)
Fixpoint str (s : string) : jsstring :=
  match s with
  | EmptyString => []
  | String a s' => N_of_ascii a :: str s'
  end.
#[global] Arguments str : simpl never.

(** [String.prototype.startsWith] at position 0. *)
Fixpoint startsWith (needle s : jsstring) : bool :=
  match needle, s with
  | [], _ => true
  | _ :: _, [] => false
  | n :: needle', c :: s' => (n =? c)%N && startsWith needle' s'
  end.

(** [s.indexOf(needle)]: index of the first occurrence, [-1] when there is
    none. [indexOf_from i] scans a suffix that starts at index [i]. *)
Fixpoint indexOf_from (i : Z) (s needle : jsstring) : Z :=
  if startsWith needle s then i
  else match s with
       | [] => (-1)%Z
       | _ :: s' => indexOf_from (i + 1)%Z s' needle
       end.

Definition indexOf (s needle : jsstring) : Z := indexOf_from 0%Z s needle.

(** [s.includes(needle)]. *)
Fixpoint includes (s needle : jsstring) : bool :=
  startsWith needle s ||
  match s with
  | [] => false
  | _ :: s' => includes s' needle
  end.

(** [s.substring(a, b)]: both indices are clamped to [0, length] and
    swapped when [a > b]. *)
Definition clamp (len i : Z) : Z := Z.max 0 (Z.min i len).

Definition substring (s : jsstring) (a b : Z) : jsstring :=
  let len := Z.of_nat (length s) in
  let a' := clamp len a in
  let b' := clamp len b in
  let lo := Z.min a' b' in
  let hi := Z.max a' b' in
  take (Z.to_nat (hi - lo)) (drop (Z.to_nat lo) s).

(** ECMAScript WhiteSpace and LineTerminator code units: the characters
    removed by [trim] and matched by the regular expression class [\s]. *)
Definition isWhiteSpace (c : N) : bool :=
  ((c =? 9) || (c =? 10) || (c =? 11) || (c =? 12) || (c =? 13) || (c =? 32)
   || (c =? 160) || (c =? 5760) || ((8192 <=? c) && (c <=? 8202))
   || (c =? 8232) || (c =? 8233) || (c =? 8239) || (c =? 8287)
   || (c =? 12288) || (c =? 65279))%N.

Fixpoint trimStart (s : jsstring) : jsstring :=
  match s with
  | [] => []
  | c :: s' => if isWhiteSpace c then trimStart s' else s
  end.

Definition trimEnd (s : jsstring) : jsstring := rev (trimStart (rev s)).

Definition trim (s : jsstring) : jsstring := trimEnd (trimStart s).

(** Truthiness of a string: the empty string is falsy. *)
Definition truthy (s : jsstring) : bool :=
  match s with [] => false | _ :: _ => true end.

(** An [Error] object, reduced to the two properties the code reads. *)
Record JsError : Type := mkError { err_name : jsstring; err_message : jsstring }.

(** [new Error(msg)] *)
Definition Error (msg : jsstring) : JsError :=
  {| err_name := str "Error"; err_message := msg |}.

(** A JavaScript value as far as metadata objects need it. *)
Inductive JsVal : Type :=
| JUndefined
| JNull
| JBool (b : bool)
| JNum (n : Z)
| JStr (s : jsstring)
| JObject.

Definition truthyVal (v : JsVal) : bool :=
  match v with
  | JUndefined | JNull => false
  | JBool b => b
  | JNum n => negb (n =? 0)%Z
  | JStr s => truthy s
  | JObject => true
  end.

(** A plain object with string keys; [{...a, ...b}] lets the keys of [b]
    win, which is [b ∪ a] for the left-biased union of maps. *)
Definition spread (a b : gmap string JsVal) : gmap string JsVal := b ∪ a.

(** Reading a property that may be absent ([obj?.key]). *)
Definition prop (o : gmap string JsVal) (k : string) : JsVal :=
  default JUndefined (o !! k).

End JS.

Import JS.

(* ===================================================================== *)
(** ** sdk-helper.ts: class SDKHelper                                      *)
(* ===================================================================== *)

Module SDKHelper.

(** *** String literals of the source

    Non-ASCII literals are given by their code units; the comment before
    each one shows the source text. *)

(* '分析结果内容不足' *)
Definition msg_insufficient : jsstring := [20998; 26512; 32467; 26524; 20869; 23481; 19981; 36275]%N.
(* '达到最大对话轮次限制，请简化您的分析任务或拆分为多个小任务' *)
Definition msg_max_turns : jsstring := [36798; 21040; 26368; 22823; 23545; 35805; 36718; 27425; 38480; 21046; 65292; 35831; 31616; 21270; 24744; 30340; 20998; 26512; 20219; 21153; 25110; 25286; 20998; 20026; 22810; 20010; 23567; 20219; 21153]%N.
(* '执行过程中发生错误，请检查输入参数和系统配置' *)
Definition msg_execution : jsstring := [25191; 34892; 36807; 31243; 20013; 21457; 29983; 38169; 35823; 65292; 35831; 26816; 26597; 36755; 20837; 21442; 25968; 21644; 31995; 32479; 37197; 32622]%N.
(* '查询被取消' *)
Definition msg_cancelled : jsstring := [26597; 35810; 34987; 21462; 28040]%N.
(* 'Claude查询错误: ' *)
Definition msg_query_error : jsstring := str "Claude" ++ [26597; 35810; 38169; 35823]%N ++ str ": ".
(* '未收到有效的Claude响应' *)
Definition msg_no_response : jsstring := [26410; 25910; 21040; 26377; 25928; 30340]%N ++ str "Claude" ++ [21709; 24212]%N.
(* 'Claude分析失败: ' *)
Definition msg_analysis_failed : jsstring := str "Claude" ++ [20998; 26512; 22833; 36133]%N ++ str ": ".
(* '分析执行失败' *)
Definition msg_exec_failed : jsstring := [20998; 26512; 25191; 34892; 22833; 36133]%N.
(* '达到最大对话轮次' *)
Definition needle_max_turns_reached : jsstring := [36798; 21040; 26368; 22823; 23545; 35805; 36718; 27425]%N.
(* '最大对话轮次' *)
Definition needle_max_turns : jsstring := [26368; 22823; 23545; 35805; 36718; 27425]%N.
(* '超时' *)
Definition needle_timeout : jsstring := [36229; 26102]%N.
(* '\n\n[注意：这是简化版分析结果]' *)
Definition note_simplified : jsstring := [10; 10]%N ++ str "[" ++ [27880; 24847; 65306; 36825; 26159; 31616; 21270; 29256; 20998; 26512; 32467; 26524]%N ++ str "]".
(* '\n\n[注意：分析未完全完成，这是部分结果]' *)
Definition note_partial : jsstring := [10; 10]%N ++ str "[" ++ [27880; 24847; 65306; 20998; 26512; 26410; 23436; 20840; 23436; 25104; 65292; 36825; 26159; 37096; 20998; 32467; 26524]%N ++ str "]".
(* '\n\n[注意：降级分析因达到最大轮次限制而截断]' *)
Definition note_fallback_max_turns : jsstring := [10; 10]%N ++ str "[" ++ [27880; 24847; 65306; 38477; 32423; 20998; 26512; 22240; 36798; 21040; 26368; 22823; 36718; 27425; 38480; 21046; 32780; 25130; 26029]%N ++ str "]".
(* '\n\n[注意：分析因执行错误而中断]' *)
Definition note_execution : jsstring := [10; 10]%N ++ str "[" ++ [27880; 24847; 65306; 20998; 26512; 22240; 25191; 34892; 38169; 35823; 32780; 20013; 26029]%N ++ str "]".
(* '\n\n[注意：分析被用户取消]' *)
Definition note_cancelled : jsstring := [10; 10]%N ++ str "[" ++ [27880; 24847; 65306; 20998; 26512; 34987; 29992; 25143; 21462; 28040]%N ++ str "]".
(* '\n\n[注意：分析因错误(' and ')而中断]', around the interpolated subtype *)
Definition note_error_open : jsstring := [10; 10]%N ++ str "[" ++ [27880; 24847; 65306; 20998; 26512; 22240; 38169; 35823]%N ++ str "(".
Definition note_error_close : jsstring := str ")" ++ [32780; 20013; 26029]%N ++ str "]".
(* '\n\n[注意：分析因超时而截断]' *)
Definition note_timeout : jsstring := [10; 10]%N ++ str "[" ++ [27880; 24847; 65306; 20998; 26512; 22240; 36229; 26102; 32780; 25130; 26029]%N ++ str "]".
(* '\n\n[注意：分析未完全完成]' *)
Definition note_incomplete : jsstring := [10; 10]%N ++ str "[" ++ [27880; 24847; 65306; 20998; 26512; 26410; 23436; 20840; 23436; 25104]%N ++ str "]".
(* '请对以下内容进行简要分析，专注最关键的信息：\n    \n' *)
Definition simplified_head : jsstring := [35831; 23545; 20197; 19979; 20869; 23481; 36827; 34892; 31616; 35201; 20998; 26512; 65292; 19987; 27880; 26368; 20851; 38190; 30340; 20449; 24687; 65306; 10]%N ++ str "    " ++ [10]%N.
(* '\n\n请提供精简的分析结果，限制输出长度，避免详细展开。' *)
Definition simplified_tail : jsstring := [10; 10; 35831; 25552; 20379; 31934; 31616; 30340; 20998; 26512; 32467; 26524; 65292; 38480; 21046; 36755; 20986; 38271; 24230; 65292; 36991; 20813; 35814; 32454; 23637; 24320; 12290]%N.

(** The literals stay folded under [simpl]. *)
#[global] Arguments msg_insufficient : simpl never.
#[global] Arguments msg_max_turns : simpl never.
#[global] Arguments msg_execution : simpl never.
#[global] Arguments msg_cancelled : simpl never.
#[global] Arguments msg_query_error : simpl never.
#[global] Arguments msg_no_response : simpl never.
#[global] Arguments msg_analysis_failed : simpl never.
#[global] Arguments msg_exec_failed : simpl never.
#[global] Arguments needle_max_turns_reached : simpl never.
#[global] Arguments needle_max_turns : simpl never.
#[global] Arguments needle_timeout : simpl never.
#[global] Arguments note_simplified : simpl never.
#[global] Arguments note_partial : simpl never.
#[global] Arguments note_fallback_max_turns : simpl never.
#[global] Arguments note_execution : simpl never.
#[global] Arguments note_cancelled : simpl never.
#[global] Arguments note_error_open : simpl never.
#[global] Arguments note_error_close : simpl never.
#[global] Arguments note_timeout : simpl never.
#[global] Arguments note_incomplete : simpl never.
#[global] Arguments simplified_head : simpl never.
#[global] Arguments simplified_tail : simpl never.

(** *** Configuration *)

(** [SDKConfig]: every field is optional. The progress callback is not a
    field here: the one callback with an effect, [onContentUpdate], is a
    parameter of the functions below. *)
Record SDKConfig : Type := {
  maxTurns : option Z;
  timeout : option Q;
  retryAttempts : option nat;
  retryDelay : option Q;
  enablePartialResults : option bool;
  fallbackToSimplerPrompt : option bool;
  enableDetailedLogging : option bool
}.

(** The configuration after the defaults are filled in. *)
Record MergedConfig : Type := {
  m_maxTurns : option Z;
  m_timeout : Q;
  m_retryAttempts : nat;
  m_retryDelay : Q;
  m_enablePartialResults : bool;
  m_fallbackToSimplerPrompt : bool;
  m_enableDetailedLogging : bool
}.

Definition DEFAULT_CONFIG : MergedConfig := {|
  m_maxTurns := None;
  m_timeout := 300000;
  m_retryAttempts := 3;
  m_retryDelay := 1000;
  m_enablePartialResults := true;
  m_fallbackToSimplerPrompt := true;
  m_enableDetailedLogging := true
|}.

(** [config?.field ?? DEFAULT_CONFIG.field], field by field. *)
Definition mergeConfig (config : option SDKConfig) : MergedConfig := {|
  m_maxTurns :=
    match config ≫= maxTurns with Some n => Some n | None => m_maxTurns DEFAULT_CONFIG end;
  m_timeout := default (m_timeout DEFAULT_CONFIG) (config ≫= timeout);
  m_retryAttempts := default (m_retryAttempts DEFAULT_CONFIG) (config ≫= retryAttempts);
  m_retryDelay := default (m_retryDelay DEFAULT_CONFIG) (config ≫= retryDelay);
  m_enablePartialResults :=
    default (m_enablePartialResults DEFAULT_CONFIG) (config ≫= enablePartialResults);
  m_fallbackToSimplerPrompt :=
    default (m_fallbackToSimplerPrompt DEFAULT_CONFIG) (config ≫= fallbackToSimplerPrompt);
  m_enableDetailedLogging :=
    default (m_enableDetailedLogging DEFAULT_CONFIG) (config ≫= enableDetailedLogging)
|}.

(** [QueryOptions] as [performQuery] and [performPartialQuery] build them.
    Neither sets [maxTurns]; the abort controller is represented by the
    timeout recorded with each call. *)
Record QueryOptions : Type := {
  q_maxTurns : option Z;
  disallowedTools : list jsstring;
  customSystemPrompt : jsstring;
  includePartialMessages : bool;
  isFallbackQuery : bool
}.

(** *** The message stream of one call *)

Inductive ContentBlock : Type := text_block | tool_use_block | other_block.

Inductive Delta : Type := text_delta (text : jsstring) | other_delta.

Inductive Event : Type :=
| content_block_start (content_block : option ContentBlock)
| tool_use_start
| content_block_delta (delta : Delta)
| content_block_stop
| other_event.

Inductive Message : Type :=
| stream_event (event : Event)
| result (subtype : jsstring) (result_text : jsstring)
| other_message.

(** What the engine does on one call: the messages it yields and, when the
    iteration ends by an exception, the error it throws after them. *)
Record Script : Type := {
  messages : list Message;
  thrown : option JsError
}.

(** Local variables of [runQuery]. *)
Record QueryState : Type := {
  partialContent : jsstring;
  lastValidContent : jsstring;
  isThinking : bool
}.

Inductive Flow : Type :=
| Next
| Return (value : jsstring)
| Throw (error : JsError).

Definition initialQueryState : QueryState :=
  {| partialContent := []; lastValidContent := []; isThinking := false |}.

(** Strict equality [===] of two strings. *)
Definition eqs (a b : jsstring) : bool := bool_decide (a = b).

(** A call that was issued: which step of the ladder issued it (a label of
    the model, not a value of the code), what it was given, and how it
    ended. [Delayed ms] records [await this.delay(ms)]. *)
Inductive QueryKind : Type := NormalQuery | DegradedQuery | SalvageQuery.

Inductive TraceEvent : Type :=
| Queried (kind : QueryKind) (prompt : jsstring) (options : QueryOptions)
          (config : MergedConfig) (outcome : jsstring + JsError)
| Delayed (ms : Q).

Section Calls.

(** The state the progress callback works on, and [onContentUpdate]; the
    other callbacks of [ProgressCallback] only log. The callback is run to
    completion at each text delta: the code starts it without awaiting it,
    and the interleaving of a pending callback with later deltas is outside
    this model. *)
Context {L : Type}.
Variable onContentUpdate : jsstring -> L -> L.

(** The engine as the caller sees it: the scripts of the calls still to
    come, the calls made so far, and the callback's state. *)
Record Engine : Type := {
  pending : list Script;
  trace : list TraceEvent;
  listener : L
}.

(** *** runQuery *)

(** The body of [if (message.type === 'stream_event')]. *)
Definition onStreamEvent (event : Event) (q : QueryState) (cb : L) : QueryState * L :=
  let q1 :=
    match event with
    | content_block_start (Some text_block) =>
        {| partialContent := partialContent q;
           lastValidContent := lastValidContent q;
           isThinking := true |}
    | _ => q
    end in
  let '(q2, cb2) :=
    match event with
    | content_block_delta (text_delta deltaText) =>
        let partialContent' := partialContent q1 ++ deltaText in
        ({| partialContent := partialContent';
            lastValidContent :=
              if (200 <? length partialContent')%nat then partialContent'
              else lastValidContent q1;
            isThinking := isThinking q1 |},
         onContentUpdate partialContent' cb)
    | _ => (q1, cb)
    end in
  let q3 :=
    match event with
    | content_block_stop =>
        {| partialContent := partialContent q2;
           lastValidContent := lastValidContent q2;
           isThinking := false |}
    | _ => q2
    end in
  (q3, cb2).

(** The two [if (message.type === 'result' ...)] blocks: every result
    message ends the call, by a value or by an exception. *)
Definition onResult (options : QueryOptions) (subtype result_text : jsstring)
    (q : QueryState) : Flow :=
  if eqs subtype (str "success") then Return result_text
  else if eqs subtype (str "error_max_turns") then
    if isFallbackQuery options && includePartialMessages options
       && truthy (lastValidContent q)
    then Return (lastValidContent q ++ note_fallback_max_turns)
    else Throw (Error msg_max_turns)
  else if eqs subtype (str "error_during_execution") then
    if truthy (lastValidContent q) && includePartialMessages options
    then Return (lastValidContent q ++ note_execution)
    else Throw (Error msg_execution)
  else if eqs subtype (str "cancelled") then
    if truthy (lastValidContent q) && includePartialMessages options
    then Return (lastValidContent q ++ note_cancelled)
    else Throw (Error msg_cancelled)
  else
    if truthy (lastValidContent q) && includePartialMessages options
    then Return (lastValidContent q ++ note_error_open ++ subtype ++ note_error_close)
    else Throw (Error (msg_query_error ++ subtype)).

(** The [for await] loop over the messages of one call. [Next] means the
    messages ran out without a result message. *)
Fixpoint consume (options : QueryOptions) (msgs : list Message)
    (q : QueryState) (cb : L) : Flow * QueryState * L :=
  match msgs with
  | [] => (Next, q, cb)
  | stream_event event :: rest =>
      let '(q', cb') := onStreamEvent event q cb in
      consume options rest q' cb'
  | result subtype result_text :: _ =>
      (onResult options subtype result_text q, q, cb)
  | other_message :: rest => consume options rest q cb
  end.

(** [runQuery]: the loop, the [catch] around it (which also sees the
    exceptions thrown by the loop body), and the code after the loop. *)
Definition runQuery (script : Script) (options : QueryOptions) (cb : L)
    : (jsstring + JsError) * L :=
  let '(flow, q, cb') := consume options (messages script) initialQueryState cb in
  let flow' :=
    match flow with
    | Next => match thrown script with Some e => Throw e | None => Next end
    | _ => flow
    end in
  match flow' with
  | Return value => (inl value, cb')
  | Throw error =>
      if eqs (err_name error) (str "AbortError") && truthy (lastValidContent q)
         && includePartialMessages options
      then (inl (lastValidContent q ++ note_timeout), cb')
      else (inr error, cb')
  | Next =>
      if truthy (lastValidContent q) && includePartialMessages options
      then (inl (lastValidContent q ++ note_incomplete), cb')
      else (inr (Error msg_no_response), cb')
  end.

(** *** performQuery and performPartialQuery *)

Definition DISALLOWED_TOOLS : list jsstring :=
  [str "Write"; str "Edit"; str "MultiEdit"; str "NotebookEdit";
   str "WebFetch"; str "WebSearch"].

Definition queryOptions (systemPrompt : jsstring) (config : MergedConfig)
    (fallback : bool) : QueryOptions :=
  {| q_maxTurns := None;
     disallowedTools := DISALLOWED_TOOLS;
     customSystemPrompt := systemPrompt;
     includePartialMessages := m_enablePartialResults config;
     isFallbackQuery := fallback |}.

(** One call of the engine: the next script is played through [runQuery]
    and the call is recorded. A call beyond the scripts given finds an
    engine that yields nothing. *)
Definition call (kind : QueryKind) (prompt : jsstring) (options : QueryOptions)
    (config : MergedConfig) (eng : Engine) : (jsstring + JsError) * Engine :=
  let script := default {| messages := []; thrown := None |} (head (pending eng)) in
  let '(outcome, cb') := runQuery script options (listener eng) in
  (outcome,
   {| pending := tail (pending eng);
      trace := trace eng ++ [Queried kind prompt options config outcome];
      listener := cb' |}).

Definition performQuery (kind : QueryKind) (prompt systemPrompt : jsstring)
    (config : MergedConfig) (eng : Engine) : (jsstring + JsError) * Engine :=
  call kind prompt (queryOptions systemPrompt config false) config eng.

Definition performPartialQuery (prompt systemPrompt : jsstring)
    (config : MergedConfig) (eng : Engine) : (jsstring + JsError) * Engine :=
  call SalvageQuery prompt (queryOptions systemPrompt config true) config eng.

(** *** executeAnalysis *)

Definition createSimplifiedPrompt (originalPrompt : jsstring) : jsstring :=
  simplified_head ++ originalPrompt ++ simplified_tail.

Definition isLimitError (errorMessage : jsstring) : bool :=
  includes errorMessage needle_max_turns_reached
  || includes errorMessage needle_max_turns
  || includes errorMessage needle_timeout
  || includes errorMessage (str "AbortError")
  || includes errorMessage (str "Claude Code process aborted").

Definition isTimeoutError (errorMessage : jsstring) : bool :=
  includes errorMessage needle_timeout
  || includes errorMessage (str "AbortError")
  || includes errorMessage (str "Claude Code process aborted").

(** [simplifiedConfig]: [Math.floor(maxTurns * 0.6)] is [6 * maxTurns / 10]
    rounded down. *)
Definition simplifiedConfig (mergedConfig : MergedConfig) (errorMessage : jsstring)
    : MergedConfig :=
  {| m_maxTurns :=
       match m_maxTurns mergedConfig with
       | Some n => Some (Z.max 15 (6 * n / 10))
       | None => None
       end;
     m_timeout :=
       if isTimeoutError errorMessage
       then Qmin (m_timeout mergedConfig * (3 # 2))%Q 900000%Q
       else m_timeout mergedConfig;
     m_retryAttempts := 1;
     m_retryDelay := m_retryDelay mergedConfig;
     m_enablePartialResults := false;
     m_fallbackToSimplerPrompt := false;
     m_enableDetailedLogging := m_enableDetailedLogging mergedConfig |}.

Definition partialConfig (mergedConfig : MergedConfig) : MergedConfig :=
  {| m_maxTurns := m_maxTurns mergedConfig;
     m_timeout := m_timeout mergedConfig;
     m_retryAttempts := m_retryAttempts mergedConfig;
     m_retryDelay := m_retryDelay mergedConfig;
     m_enablePartialResults := true;
     m_fallbackToSimplerPrompt := false;
     m_enableDetailedLogging := m_enableDetailedLogging mergedConfig |}.

(** The innermost [try]: the salvage call on the original prompt. [Some v]
    is [return v]; [None] falls through. *)
Definition salvage (prompt systemPrompt : jsstring) (mergedConfig : MergedConfig)
    (eng : Engine) : option jsstring * Engine :=
  let '(r, eng') := performPartialQuery prompt systemPrompt (partialConfig mergedConfig) eng in
  match r with
  | inl partialResult =>
      if truthy partialResult && (50 <? length partialResult)%nat
      then (Some (partialResult ++ note_partial), eng')
      else (None, eng')
  | inr _ => (None, eng')
  end.

(** The degradation block of the [catch]: one call with the simplified
    prompt and, when that call throws, the salvage call. *)
Definition degrade (prompt systemPrompt : jsstring) (mergedConfig : MergedConfig)
    (errorMessage : jsstring) (eng : Engine) : option jsstring * Engine :=
  let '(r, eng') :=
    performQuery DegradedQuery (createSimplifiedPrompt prompt) systemPrompt
      (simplifiedConfig mergedConfig errorMessage) eng in
  match r with
  | inl fallbackResult =>
      if truthy fallbackResult && (50 <? length fallbackResult)%nat
      then (Some (fallbackResult ++ note_simplified), eng')
      else (None, eng')
  | inr _ =>
      if m_enablePartialResults mergedConfig
      then salvage prompt systemPrompt mergedConfig eng'
      else (None, eng')
  end.

(** The [for] loop over the attempts, by the number of attempts left;
    [attempt] is the loop variable. *)
Fixpoint attempts (prompt systemPrompt : jsstring) (mergedConfig : MergedConfig)
    (remaining attempt : nat) (eng : Engine) : (jsstring + JsError) * Engine :=
  match remaining with
  | O => (inr (Error msg_exec_failed), eng)
  | S remaining' =>
      let '(r, eng1) := performQuery NormalQuery prompt systemPrompt mergedConfig eng in
      let tried :=
        match r with
        | inl result_text =>
            if truthy result_text && (100 <? length result_text)%nat
            then inl result_text
            else inr (Error msg_insufficient)
        | inr error => inr error
        end in
      match tried with
      | inl result_text => (inl result_text, eng1)
      | inr error =>
          let errorMessage := err_message error in
          let '(returned, eng2) :=
            if isLimitError errorMessage && m_fallbackToSimplerPrompt mergedConfig
               && (1 <=? attempt)%nat
            then degrade prompt systemPrompt mergedConfig errorMessage eng1
            else (None, eng1) in
          match returned with
          | Some value => (inl value, eng2)
          | None =>
              if (attempt =? m_retryAttempts mergedConfig)%nat
              then (inr (Error (msg_analysis_failed ++ errorMessage)), eng2)
              else
                let eng3 :=
                  {| pending := pending eng2;
                     trace := trace eng2
                              ++ [Delayed (m_retryDelay mergedConfig * inject_Z (Z.of_nat attempt))];
                     listener := listener eng2 |} in
                attempts prompt systemPrompt mergedConfig remaining' (S attempt) eng3
          end
      end
  end.

Definition executeAnalysis (prompt systemPrompt : jsstring) (config : option SDKConfig)
    (eng : Engine) : (jsstring + JsError) * Engine :=
  let mergedConfig := mergeConfig config in
  attempts prompt systemPrompt mergedConfig (m_retryAttempts mergedConfig) 1 eng.

End Calls.

Arguments Engine : clear implicits.

End SDKHelper.

(* ===================================================================== *)
(** ** TaskListManager                                                     *)
(* ===================================================================== *)

Module TaskListManager.

(* '项目概览' *)
Definition name_overview : jsstring := [39033; 30446; 27010; 35272]%N.
(* '系统架构与组件设计' *)
Definition name_systemArchitecture : jsstring := [31995; 32479; 26550; 26500; 19982; 32452; 20214; 35774; 35745]%N.
(* 'API接口与数据模型' *)
Definition name_apiReference : jsstring := str "API" ++ [25509; 21475; 19982; 25968; 25454; 27169; 22411]%N.
(* '业务流程' *)
Definition name_businessWorkflows : jsstring := [19994; 21153; 27969; 31243]%N.
(* the full-width colon of the last marker variant *)
Definition fullwidth_colon : jsstring := [65306]%N.
(* '*本文档由RepoMind系统自动生成于 ' *)
Definition doc_footer_generated : jsstring := str "*" ++ [26412; 25991; 26723; 30001]%N ++ str "RepoMind" ++ [31995; 32479; 33258; 21160; 29983; 25104; 20110]%N ++ str " ".
(* '*任务: ' *)
Definition doc_footer_task : jsstring := str "*" ++ [20219; 21153]%N ++ str ": ".
(* ' - 文件读取失败\n\n实时写入的文件无法读取: ' *)
Definition read_failed_title : jsstring := str " - " ++ [25991; 20214; 35835; 21462; 22833; 36133; 10; 10; 23454; 26102; 20889; 20837; 30340; 25991; 20214; 26080; 27861; 35835; 21462]%N ++ str ": ".
(* the system prompt handed to executeAnalysis *)
Definition system_prompt : jsstring := [20320; 26159; 19968; 20010; 19987; 19994; 30340; 20195; 30721; 20179; 24211; 20998; 26512; 19987; 23478; 65292; 25797; 38271; 29702; 35299; 22797; 26434; 30340; 20195; 30721; 32467; 26500; 21644; 19994; 21153; 36923; 36753; 12290; 35831; 25353; 29031; 25351; 23450; 30340; 20219; 21153; 28165; 21333; 65292; 23545; 20195; 30721; 20179; 24211; 36827; 34892; 20840; 38754; 28145; 20837; 30340; 20998; 26512; 12290]%N.
(* '```mermaid' *)
Definition needle_mermaid : jsstring := str "```mermaid".
(* '[注意：' and '分析因' *)
Definition needle_note : jsstring := str "[" ++ [27880; 24847; 65306]%N.
Definition needle_because : jsstring := [20998; 26512; 22240]%N.

(** The literals stay folded under [simpl]. *)
#[global] Arguments name_overview : simpl never.
#[global] Arguments name_systemArchitecture : simpl never.
#[global] Arguments name_apiReference : simpl never.
#[global] Arguments name_businessWorkflows : simpl never.
#[global] Arguments fullwidth_colon : simpl never.
#[global] Arguments doc_footer_generated : simpl never.
#[global] Arguments doc_footer_task : simpl never.
#[global] Arguments read_failed_title : simpl never.
#[global] Arguments system_prompt : simpl never.
#[global] Arguments needle_mermaid : simpl never.
#[global] Arguments needle_note : simpl never.
#[global] Arguments needle_because : simpl never.

(** *** Data *)

Record AnalysisTask : Type := {
  id : jsstring;
  name : jsstring;
  promptFile : jsstring;
  outputFile : jsstring;
  priority : Z
}.

Record TaskOutput : Type := {
  taskId : jsstring;
  document : jsstring;
  metadata : gmap string JsVal;
  references : list jsstring
}.

Record AnalysisConfig : Type := {
  repoPath : jsstring;
  outputPath : jsstring;
  depth : jsstring;
  includeTests : bool;
  includeDocs : bool
}.

(** [AnalysisResult] and [KnowledgeGenerationResult] of types/index.ts. *)
(** The values 'success', 'error' and 'partial' of a status field. *)
Inductive Status : Type := status_success | status_error | status_partial.

Record AnalysisResult : Type := {
  agentName : jsstring;
  status : Status;
  output : TaskOutput;
  executionTime : Z;
  confidence : Q
}.

Record ResultMetadata : Type := {
  totalTasks : nat;
  successfulTasks : nat;
  averageExecutionTime : Z;
  timestamp : jsstring
}.

Record KnowledgeGenerationResult : Type := {
  k_status : Status;
  results : list AnalysisResult;
  overallConfidence : Q;
  generatedFiles : list jsstring;
  k_metadata : ResultMetadata
}.

(** What [SDKHelper.extractStructuredData] returns. *)
Record StructuredData : Type := {
  techStack : list jsstring;
  sd_references : list jsstring;
  sd_metadata : gmap string JsVal
}.

(** The declared tasks (the description field, used only to build the
    prompt, is left out). *)
Definition ANALYSIS_TASKS : list AnalysisTask := [
  {| id := str "overview"; name := name_overview;
     promptFile := str "overview-analysis.md";
     outputFile := str "docs/overview.md"; priority := 1 |};
  {| id := str "systemArchitecture"; name := name_systemArchitecture;
     promptFile := str "system-architecture-analysis.md";
     outputFile := str "docs/system-architecture.md"; priority := 2 |};
  {| id := str "apiReference"; name := name_apiReference;
     promptFile := str "api-reference-analysis.md";
     outputFile := str "docs/api-reference.md"; priority := 3 |};
  {| id := str "businessWorkflows"; name := name_businessWorkflows;
     promptFile := str "business-workflows-analysis.md";
     outputFile := str "docs/business-workflows.md"; priority := 4 |}
].

(** *** The manager's state and the file system

    [realtimeWrittenTasks] is the [Set<string>] of the instance, in
    insertion order; [taskBuffer] the [Map] owned by one
    [executeUnifiedAnalysis]. [files] is the content of the files written;
    [tape] gives the outcome of each file-system operation still to come
    ([true]: it succeeds; an empty tape: all succeed). [io] is a record of
    what happened: each call of [writeTaskImmediately] and each
    [fs.writeFile] that succeeded. *)
Inductive IOEvent : Type :=
| Handed (taskId content : jsstring)
| Wrote (path content : jsstring).

Record World : Type := {
  realtimeWrittenTasks : list jsstring;
  taskBuffer : gmap (list N) (jsstring * Z);
  files : gmap (list N) jsstring;
  io : list IOEvent;
  tape : list bool
}.

Definition set_realtimeWrittenTasks (v : list jsstring) (w : World) : World :=
  {| realtimeWrittenTasks := v; taskBuffer := taskBuffer w; files := files w;
     io := io w; tape := tape w |}.
Definition set_taskBuffer (v : gmap (list N) (jsstring * Z)) (w : World) : World :=
  {| realtimeWrittenTasks := realtimeWrittenTasks w; taskBuffer := v; files := files w;
     io := io w; tape := tape w |}.
Definition set_files (v : gmap (list N) jsstring) (w : World) : World :=
  {| realtimeWrittenTasks := realtimeWrittenTasks w; taskBuffer := taskBuffer w; files := v;
     io := io w; tape := tape w |}.
Definition log (e : IOEvent) (w : World) : World :=
  {| realtimeWrittenTasks := realtimeWrittenTasks w; taskBuffer := taskBuffer w;
     files := files w; io := io w ++ [e]; tape := tape w |}.

(** The outcome of the next file-system operation. *)
Definition pop (w : World) : bool * World :=
  (default true (head (tape w)),
   {| realtimeWrittenTasks := realtimeWrittenTasks w; taskBuffer := taskBuffer w;
      files := files w; io := io w; tape := tail (tape w) |}).

(** [Set.prototype.has] and [Set.prototype.add]. *)
Definition has (x : jsstring) (s : list jsstring) : bool := bool_decide (x ∈ s).
Definition add (x : jsstring) (s : list jsstring) : list jsstring :=
  if has x s then s else s ++ [x].

(** [fs.mkdir(dir, { recursive: true })]; [false] when it throws. *)
Definition fs_mkdir (w : World) : bool * World := pop w.

(** [fs.writeFile(path, content)]; [false] when it throws. *)
Definition fs_writeFile (path content : jsstring) (w : World) : bool * World :=
  let '(ok, w1) := pop w in
  if ok then (true, log (Wrote path content) (set_files (<[path := content]> (files w1)) w1))
  else (false, w1).

(** [fs.readFile(path)] *)
Definition fs_readFile (path : jsstring) (w : World) : (jsstring + JsError) * World :=
  let '(ok, w1) := pop w in
  if ok then
    match files w1 !! path with
    | Some content => (inl content, w1)
    | None => (inr (Error (str "ENOENT: no such file or directory")), w1)
    end
  else (inr (Error (str "EIO: i/o error")), w1).

(** *** Paths

    [path.join] and [path.basename] of Node on a POSIX system.
    [segments] is [s.split('/')] and [joinWith] is [parts.join('/')]. *)
Definition isSeparator (c : N) : bool := (c =? 47)%N.

Fixpoint segments (s : jsstring) : list jsstring :=
  match s with
  | [] => [[]]
  | c :: s' =>
      if isSeparator c then [] :: segments s'
      else match segments s' with
           | segment :: rest => (c :: segment) :: rest
           | [] => [[c]]
           end
  end.

Fixpoint joinWith (parts : list jsstring) : jsstring :=
  match parts with
  | [] => []
  | [part] => part
  | part :: rest => part ++ str "/" ++ joinWith rest
  end.

(** One segment in the normalisation of a path; [kept] holds the segments
    kept so far, the last one first. An empty segment and [.] are dropped;
    [..] removes the segment before it, unless there is none or it is
    [..] itself, and then stays in a relative path and is dropped in an
    absolute one. *)
Definition keepSegment (allowAboveRoot : bool) (kept : list jsstring) (segment : jsstring)
    : list jsstring :=
  if bool_decide (segment = []) || bool_decide (segment = str ".") then kept
  else if bool_decide (segment = str "..") then
    match kept with
    | top :: below =>
        if bool_decide (top = str "..")
        then (if allowAboveRoot then segment :: kept else kept)
        else below
    | [] => if allowAboveRoot then [segment] else []
    end
  else segment :: kept.

(** [path.normalize] *)
Definition normalize (path : jsstring) : jsstring :=
  match path with
  | [] => str "."
  | first :: _ =>
      let isAbsolute := isSeparator first in
      let trailingSeparator :=
        match last path with Some c => isSeparator c | None => false end in
      let kept := rev (foldl (keepSegment (negb isAbsolute)) [] (segments path)) in
      match kept with
      | [] => if isAbsolute then str "/" else if trailingSeparator then str "./" else str "."
      | _ :: _ =>
          (if isAbsolute then str "/" else []) ++ joinWith kept
          ++ (if trailingSeparator then str "/" else [])
      end
  end.

(** [path.join(a, b, c)]: the arguments that are not empty, joined by
    separators and normalised. *)
Definition path_join (a b c : jsstring) : jsstring :=
  match List.filter truthy [a; b; c] with
  | [] => str "."
  | parts => normalize (joinWith parts)
  end.

(** What [path.join] puts before segments that need no normalisation
    when they are joined to [a]: nothing for an empty [a], and otherwise
    the normalised [a] with one separator after it. *)
Definition joinedUnder (a : jsstring) : jsstring :=
  match a with
  | [] => []
  | first :: _ =>
      (if isSeparator first then str "/" else [])
      ++ match rev (foldl (keepSegment (negb (isSeparator first))) [] (segments a)) with
         | [] => []
         | kept => joinWith kept ++ str "/"
         end
  end.

(** [path.basename(p)]: the trailing separators are passed over, and the
    result is what stands between them and the separator before. *)
Fixpoint dropSeparators (s : jsstring) : jsstring :=
  match s with
  | [] => []
  | c :: s' => if isSeparator c then dropSeparators s' else s
  end.

Fixpoint upToSeparator (s : jsstring) : jsstring :=
  match s with
  | [] => []
  | c :: s' => if isSeparator c then [] else c :: upToSeparator s'
  end.

Definition basename (p : jsstring) : jsstring :=
  rev (upToSeparator (dropSeparators (rev p))).

Definition filePathOf (config : AnalysisConfig) (task : AnalysisTask) : jsstring :=
  path_join (outputPath config) (str ".repomind") (outputFile task).

(** *** Regular expressions of tryFuzzyMatching

    The four patterns are built from a task name, with flag [i] only:
    [#\s*NAME([\s\S]*?)(?=#\s*[^#\s]|$)] with one, two and three [#], and
    [---\s*NAME\s*---([\s\S]*?)(?=---.*?---|$)]. The functions below are
    their matchers. They are exact for names without regular expression
    metacharacters that do not begin with white space, as the declared
    names are. *)

(** Canonicalisation of the [i] flag (without [u]): a code unit is compared
    by its upper case, and no non-ASCII unit is identified with an ASCII
    one. The literal characters of the patterns are ASCII or have no case,
    so only the ASCII letters matter. *)
Definition canonicalize (c : N) : N :=
  if ((97 <=? c) && (c <=? 122))%N then (c - 32)%N else c.

(** Match a literal at the start of [s]; the rest of [s] after it. *)
Fixpoint matchLiteral (pat s : jsstring) : option jsstring :=
  match pat, s with
  | [], _ => Some s
  | _ :: _, [] => None
  | p :: pat', c :: s' =>
      if (canonicalize p =? canonicalize c)%N then matchLiteral pat' s' else None
  end.

Definition hashes (k : nat) : jsstring := replicate k 35%N.

(** [#{k}\s*NAME] at the start of [s]. *)
Definition matchHeading (k : nat) (taskName s : jsstring) : option jsstring :=
  rest ← matchLiteral (hashes k) s;
  matchLiteral taskName (trimStart rest).

(** The lookahead [#{k}\s*[^#\s]] at the start of [s]. *)
Definition nextHeading (k : nat) (s : jsstring) : bool :=
  match matchLiteral (hashes k) s with
  | Some rest =>
      match trimStart rest with
      | c :: _ => negb (c =? 35)%N
      | [] => false
      end
  | None => false
  end.

(** [---\s*NAME\s*---] at the start of [s]. *)
Definition matchRule (taskName s : jsstring) : option jsstring :=
  r1 ← matchLiteral (str "---") s;
  r2 ← matchLiteral taskName (trimStart r1);
  matchLiteral (str "---") (trimStart r2).

(** Line terminators, which [.] does not match. *)
Definition isLineTerminator (c : N) : bool :=
  ((c =? 10) || (c =? 13) || (c =? 8232) || (c =? 8233))%N.

(** [.*?---] at the start of [s]. *)
Fixpoint dashesAhead (s : jsstring) : bool :=
  startsWith (str "---") s ||
  match s with
  | [] => false
  | c :: s' => if isLineTerminator c then false else dashesAhead s'
  end.

(** The lookahead [---.*?---] at the start of [s]. *)
Definition nextRule (s : jsstring) : bool :=
  match matchLiteral (str "---") s with
  | Some rest => dashesAhead rest
  | None => false
  end.

(** The lazy group [([\s\S]*?)] followed by [(?=stop|$)]: the shortest
    prefix after which the lookahead holds or the input ends. *)
Fixpoint lazyGroup (stop : jsstring -> bool) (s : jsstring) : jsstring :=
  match s with
  | [] => []
  | c :: s' => if stop s then [] else c :: lazyGroup stop s'
  end.

(** [s.match(pattern)], reduced to [match[1]] of the leftmost match;
    [None] when the pattern matches nowhere. *)
Fixpoint regexMatch (head : jsstring -> option jsstring) (stop : jsstring -> bool)
    (s : jsstring) : option jsstring :=
  match head s with
  | Some rest => Some (lazyGroup stop rest)
  | None =>
      match s with
      | [] => None
      | _ :: s' => regexMatch head stop s'
      end
  end.

(** *** Fallback extraction *)

Definition startMarker (task : AnalysisTask) : jsstring :=
  str "=== TASK_START: " ++ id task ++ str " ===".
Definition endMarker (task : AnalysisTask) : jsstring :=
  str "=== TASK_END: " ++ id task ++ str " ===".

(** The text between a start and an end marker, trimmed; [None] is [null]. *)
Definition between (analysisResult startMarker endMarker : jsstring) : option jsstring :=
  let startIndex := indexOf analysisResult startMarker in
  let endIndex := indexOf analysisResult endMarker in
  if negb (startIndex =? -1)%Z && negb (endIndex =? -1)%Z && (endIndex >? startIndex)%Z
  then Some (trim (substring analysisResult
                     (startIndex + Z.of_nat (length startMarker)) endIndex))
  else None.

Definition tryStandardFormat (analysisResult : jsstring) (task : AnalysisTask)
    : option jsstring :=
  between analysisResult (startMarker task) (endMarker task).

Definition variants (task : AnalysisTask) : list (jsstring * jsstring) := [
  (str "=== TASK_START:" ++ id task ++ str " ===", str "=== TASK_END:" ++ id task ++ str " ===");
  (str "=== TASK_START: " ++ id task ++ str "===", str "=== TASK_END: " ++ id task ++ str "===");
  (str "===TASK_START: " ++ id task ++ str " ===", str "===TASK_END: " ++ id task ++ str " ===");
  (str "== TASK_START: " ++ id task ++ str " ==", str "== TASK_END: " ++ id task ++ str " ==");
  (str "==== TASK_START: " ++ id task ++ str " ====", str "==== TASK_END: " ++ id task ++ str " ====");
  (str "=== TASK_START" ++ fullwidth_colon ++ id task ++ str " ===",
   str "=== TASK_END" ++ fullwidth_colon ++ id task ++ str " ===")
].

(** The first element of a list on which [f] returns a value. *)
Fixpoint firstSome {A B : Type} (f : A -> option B) (l : list A) : option B :=
  match l with
  | [] => None
  | x :: l' => match f x with Some y => Some y | None => firstSome f l' end
  end.

Definition tryVariantFormats (analysisResult : jsstring) (task : AnalysisTask)
    : option jsstring :=
  firstSome (fun v => between analysisResult v.1 v.2) (variants task).

Definition patterns (task : AnalysisTask) : list (jsstring -> option jsstring) := [
  regexMatch (matchHeading 1 (name task)) (nextHeading 1);
  regexMatch (matchHeading 2 (name task)) (nextHeading 2);
  regexMatch (matchHeading 3 (name task)) (nextHeading 3);
  regexMatch (matchRule (name task)) nextRule
].

Definition tryFuzzyMatching (analysisResult : jsstring) (task : AnalysisTask)
    : option jsstring :=
  firstSome
    (fun pattern =>
       match pattern analysisResult with
       | Some group =>
           if truthy group && (100 <? length (trim group))%nat
           then Some (trim group) else None
       | None => None
       end)
    (patterns task).

(** A strategy's result passes [if (result)] when it is a non-empty
    string. *)
Definition hit (r : option jsstring) : bool :=
  match r with Some s => truthy s | None => false end.

Definition extractTaskContentForFallback (analysisResult : jsstring) (task : AnalysisTask)
    : option jsstring :=
  let standardResult := tryStandardFormat analysisResult task in
  if hit standardResult then standardResult
  else
    let variantResult := tryVariantFormats analysisResult task in
    if hit variantResult then variantResult
    else
      let fuzzyResult := tryFuzzyMatching analysisResult task in
      if hit fuzzyResult then fuzzyResult
      else None.

Section Manager.

(** Inputs from outside the two classes:
    - [extractStructuredData]: [SDKHelper.extractStructuredData], which
      hands the first fenced yaml or json block of a document to js-yaml or
      [JSON.parse] and never throws;
    - [now]: the text [formatTimestamp()] returns;
    - [dumpIndex]: [yaml.dump] of the index [generateKnowledgeIndex] builds;
    - [buildUnifiedPrompt]: the prompt built from the template files, or
      the exception of a template that cannot be loaded. *)
Variable extractStructuredData : jsstring -> StructuredData.
Variable now : jsstring.
Variable dumpIndex : KnowledgeGenerationResult -> AnalysisConfig -> jsstring.
Variable buildUnifiedPrompt : AnalysisConfig -> jsstring + JsError.

Definition formatDocument (content : jsstring) (task : AnalysisTask)
    (projectName : jsstring) : jsstring :=
  str "# " ++ name task ++ str " - " ++ projectName ++ [10; 10]%N
  ++ content ++ [10; 10]%N ++ str "---" ++ [10]%N
  ++ doc_footer_generated ++ now ++ str "*  " ++ [10]%N
  ++ doc_footer_task ++ name task ++ str "*" ++ [10]%N.

(** Three [fs.mkdir] whose exceptions are swallowed. *)
Definition ensureDirectoryStructure (w : World) : World :=
  (fs_mkdir (fs_mkdir (fs_mkdir w).2).2).2.

(** [writeTaskImmediately]; [false] when it throws. *)
Definition writeTaskImmediately (task : AnalysisTask) (taskContent : jsstring)
    (config : AnalysisConfig) (w : World) : bool * World :=
  let w0 := log (Handed (id task) taskContent) w in
  let w1 := ensureDirectoryStructure w0 in
  let formattedDocument := formatDocument taskContent task (basename (repoPath config)) in
  let '(ok, w2) := fs_mkdir w1 in
  if ok then fs_writeFile (filePathOf config task) formattedDocument w2
  else (false, w2).

(** The body of the loop of [detectAndWriteCompletedTasks] for one task. *)
Definition detectTask (content : jsstring) (config : AnalysisConfig)
    (w : World) (task : AnalysisTask) : World :=
  if has (id task) (realtimeWrittenTasks w) then w
  else
    let startIndex := indexOf content (startMarker task) in
    let endIndex := indexOf content (endMarker task) in
    let w1 :=
      if negb (startIndex =? -1)%Z && negb (bool_decide (is_Some (taskBuffer w !! id task)))
      then set_taskBuffer (<[id task := ([], startIndex)]> (taskBuffer w)) w
      else w in
    if negb (startIndex =? -1)%Z && negb (endIndex =? -1)%Z && (endIndex >? startIndex)%Z
    then
      let taskContent :=
        trim (substring content (startIndex + Z.of_nat (length (startMarker task))) endIndex) in
      if (100 <? length taskContent)%nat then
        let '(ok, w2) := writeTaskImmediately task taskContent config w1 in
        if ok
        then set_taskBuffer (delete (id task) (taskBuffer w2))
               (set_realtimeWrittenTasks (add (id task) (realtimeWrittenTasks w2)) w2)
        else w2
      else w1
    else w1.

Definition detectAndWriteCompletedTasks (content : jsstring) (config : AnalysisConfig)
    (w : World) : World :=
  foldl (detectTask content config) w ANALYSIS_TASKS.

(** [executeUnifiedAnalysis]: the written-set is cleared, the call runs
    with [onContentUpdate] scanning the text received so far, and the
    result is scanned once more. [scripts] is what the engine will do. *)
Definition unifiedConfig : SDKHelper.SDKConfig :=
  {| SDKHelper.maxTurns := None;
     SDKHelper.timeout := Some (inject_Z (1000 * 60 * 60 * 2));
     SDKHelper.retryAttempts := Some 2%nat;
     SDKHelper.retryDelay := None;
     SDKHelper.enablePartialResults := Some true;
     SDKHelper.fallbackToSimplerPrompt := Some true;
     SDKHelper.enableDetailedLogging := Some true |}.

(** The callback of the session. [runQuery] starts it at every text delta
    and does not wait for it; here the scan it starts has ended when the
    next message is handled, which is the order of the code whenever the
    scan does not write (it then ends before the callback returns), and
    one of the orders the code allows when it does. *)
Definition onContentUpdate (config : AnalysisConfig) (partialContent : jsstring)
    (w : World) : World :=
  detectAndWriteCompletedTasks partialContent config w.

Definition executeUnifiedAnalysis (prompt : jsstring) (config : AnalysisConfig)
    (scripts : list SDKHelper.Script) (w : World)
    : (jsstring + JsError) * list SDKHelper.TraceEvent * World :=
  let w0 := set_taskBuffer ∅ (set_realtimeWrittenTasks [] w) in
  let eng := {| SDKHelper.pending := scripts; SDKHelper.trace := [];
                SDKHelper.listener := w0 |} in
  let '(r, eng') :=
    SDKHelper.executeAnalysis (onContentUpdate config) prompt system_prompt
      (Some unifiedConfig) eng in
  match r with
  | inl result_text =>
      (inl result_text, SDKHelper.trace eng',
       detectAndWriteCompletedTasks result_text config (SDKHelper.listener eng'))
  | inr e => (inr e, SDKHelper.trace eng', SDKHelper.listener eng')
  end.

(** *** parseTaskOutputs *)

(** The output for a task written while the stream was open: the file is
    read back. *)
Definition realtimeOutput (config : AnalysisConfig) (task : AnalysisTask) (w : World)
    : TaskOutput * World :=
  let '(r, w1) := fs_readFile (filePathOf config task) w in
  match r with
  | inl actualContent =>
      let structuredData := extractStructuredData actualContent in
      ({| taskId := id task;
          document := actualContent;
          metadata :=
            spread {[ "taskName" := JStr (name task);
                      "outputFile" := JStr (outputFile task);
                      "realtimeWritten" := JBool true ]}
                   (sd_metadata structuredData);
          references := sd_references structuredData |}, w1)
  | inr e =>
      ({| taskId := id task;
          document := str "# " ++ name task ++ read_failed_title ++ err_message e;
          metadata :=
            {[ "taskName" := JStr (name task);
               "outputFile" := JStr (outputFile task);
               "realtimeWritten" := JBool true;
               "readError" := JBool true ]};
          references := [] |}, w1)
  end.

(** The first loop: over the written-set, in insertion order. *)
Fixpoint realtimeOutputs (config : AnalysisConfig) (ids : list jsstring) (w : World)
    : list TaskOutput * World :=
  match ids with
  | [] => ([], w)
  | taskId :: ids' =>
      match find (fun t => bool_decide (id t = taskId)) ANALYSIS_TASKS with
      | Some task =>
          let '(o, w1) := realtimeOutput config task w in
          let '(os, w2) := realtimeOutputs config ids' w1 in
          (o :: os, w2)
      | None => realtimeOutputs config ids' w
      end
  end.

(** The body of the second loop: the fallback for one remaining task. *)
Definition fallbackOutput (analysisResult : jsstring) (config : AnalysisConfig)
    (task : AnalysisTask) : option TaskOutput :=
  match extractTaskContentForFallback analysisResult task with
  | Some taskContent =>
      if truthy taskContent && (100 <? length taskContent)%nat then
        let structuredData := extractStructuredData taskContent in
        Some {| taskId := id task;
                document := formatDocument taskContent task (basename (repoPath config));
                metadata :=
                  spread {[ "taskName" := JStr (name task);
                            "outputFile" := JStr (outputFile task);
                            "fallbackParsed" := JBool true ]}
                         (sd_metadata structuredData);
                references := sd_references structuredData |}
      else None
  | None => None
  end.

Definition remainingTasks (w : World) : list AnalysisTask :=
  filter (fun task => negb (has (id task) (realtimeWrittenTasks w)) = true) ANALYSIS_TASKS.

Definition parseTaskOutputs (analysisResult : jsstring) (config : AnalysisConfig)
    (w : World) : list TaskOutput * World :=
  let '(written, w1) := realtimeOutputs config (realtimeWrittenTasks w) w in
  (written ++ omap (fallbackOutput analysisResult config) (remainingTasks w), w1).

(** *** validateAndPackageResults *)

(** [calculateTaskConfidence], in exact arithmetic. *)
Definition calculateTaskConfidence (output : TaskOutput) : Q :=
  let document := document output in
  let c0 := (Qmin (inject_Z (Z.of_nat (length document)) / 2000) 1 * (4 # 10))%Q in
  let c1 := if includes document (str "#") && includes document (str "##")
            then (c0 + (2 # 10))%Q else c0 in
  let c2 := if includes document needle_mermaid then (c1 + (1 # 10))%Q else c1 in
  let c3 := if includes document (str "|") && includes document (str "---")
            then (c2 + (1 # 10))%Q else c2 in
  let c4 := if (0 <? length (references output))%nat then (c3 + (1 # 10))%Q else c3 in
  let c5 := if includes document needle_note || includes document needle_because
            then (c4 * (7 # 10))%Q else c4 in
  Qmin c5 1.

Definition toResult (output : TaskOutput) : AnalysisResult :=
  {| agentName := taskId output;
     status := status_success;
     output := output;
     executionTime := 0;
     confidence := calculateTaskConfidence output |}.

Definition validateAndPackageResults (taskOutputs : list TaskOutput)
    (_config : AnalysisConfig) : KnowledgeGenerationResult :=
  let results := map toResult taskOutputs in
  let overallConfidence :=
    if (0 <? length results)%nat
    then (foldl (fun sum r => sum + confidence r) 0 results
          / inject_Z (Z.of_nat (length results)))%Q
    else 0%Q in
  let generatedFiles := map outputFile ANALYSIS_TASKS in
  {| k_status := if (0 <? length results)%nat then status_success else status_error;
     results := results;
     overallConfidence := overallConfidence;
     generatedFiles := generatedFiles;
     k_metadata :=
       {| totalTasks := length ANALYSIS_TASKS;
          successfulTasks := length results;
          averageExecutionTime := 0;
          timestamp := now |} |}.

(** *** updateKnowledgeBase *)

(** [writeYamlFile] and [writeTaskOutput]; [false] when they throw. *)
Definition writeYamlFile (path content : jsstring) (w : World) : bool * World :=
  let '(ok, w1) := fs_mkdir w in
  if ok then fs_writeFile path content w1 else (false, w1).

Definition writeTaskOutput (r : AnalysisResult) (config : AnalysisConfig) (w : World)
    : bool * World :=
  match find (fun t => bool_decide (id t = agentName r)) ANALYSIS_TASKS with
  | None => (true, w)
  | Some task =>
      let '(ok, w1) := fs_mkdir w in
      if ok then fs_writeFile (filePathOf config task) (document (output r)) w1
      else (false, w1)
  end.

(** The loop over [result.results]: a result whose metadata says
    [realtimeWritten] is skipped, any other is written. *)
Fixpoint writeResults (config : AnalysisConfig) (rs : list AnalysisResult) (w : World)
    : bool * World :=
  match rs with
  | [] => (true, w)
  | r :: rs' =>
      match status r with
      | status_success =>
          if truthyVal (prop (metadata (output r)) "realtimeWritten")
          then writeResults config rs' w
          else
            let '(ok, w1) := writeTaskOutput r config w in
            if ok then writeResults config rs' w1 else (false, w1)
      | _ => writeResults config rs' w
      end
  end.

Definition updateKnowledgeBase (result : KnowledgeGenerationResult)
    (config : AnalysisConfig) (w : World) : bool * World :=
  let w1 := ensureDirectoryStructure w in
  let indexPath := path_join (outputPath config) (str ".repomind") (str "knowledge.yaml") in
  let '(ok, w2) := writeYamlFile indexPath (dumpIndex result config) w1 in
  if ok then writeResults config (results result) w2 else (false, w2).

(** *** executeKnowledgeGeneration *)

Definition executeKnowledgeGeneration (config : AnalysisConfig)
    (scripts : list SDKHelper.Script) (w : World)
    : (KnowledgeGenerationResult + JsError) * list SDKHelper.TraceEvent * World :=
  match buildUnifiedPrompt config with
  | inr e => (inr e, [], w)
  | inl unifiedPrompt =>
      let '(r, tr, w1) := executeUnifiedAnalysis unifiedPrompt config scripts w in
      match r with
      | inr e => (inr e, tr, w1)
      | inl analysisResult =>
          let '(taskOutputs, w2) := parseTaskOutputs analysisResult config w1 in
          let result := validateAndPackageResults taskOutputs config in
          let '(ok, w3) := updateKnowledgeBase result config w2 in
          if ok then (inl result, tr, w3)
          else (inr (Error (str "EIO: i/o error")), tr, w3)
      end
  end.

End Manager.

End TaskListManager.

Import SDKHelper TaskListManager.

(* ===================================================================== *)
(** ** Vocabulary of the statements                                        *)
(* ===================================================================== *)

(** The text buffered by [runQuery] when a call ends: the text deltas that
    come before the first result message. *)
Fixpoint buffered (msgs : list Message) : jsstring :=
  match msgs with
  | [] => []
  | stream_event (content_block_delta (text_delta deltaText)) :: rest =>
      deltaText ++ buffered rest
  | result _ _ :: _ => []
  | _ :: rest => buffered rest
  end.

(** How a call ends: by its first result message, by an exception of the
    stream, or by the stream running out. *)
Inductive Terminal : Type :=
| EndResult (subtype result_text : jsstring)
| EndThrown (e : JsError)
| EndSilent.

Fixpoint firstResult (msgs : list Message) : option (jsstring * jsstring) :=
  match msgs with
  | [] => None
  | result subtype result_text :: _ => Some (subtype, result_text)
  | _ :: rest => firstResult rest
  end.

Definition terminal (script : Script) : Terminal :=
  match firstResult (messages script) with
  | Some (subtype, result_text) => EndResult subtype result_text
  | None =>
      match thrown script with
      | Some e => EndThrown e
      | None => EndSilent
      end
  end.

(** The terminal outcomes on which [runQuery] can hand back the buffered
    text, and the annotation it appends. A turn limit is among them only
    for a fallback query; an exception only when it is an [AbortError]. *)
Definition salvageable (options : QueryOptions) (t : Terminal) : bool :=
  match t with
  | EndResult subtype _ =>
      negb (eqs subtype (str "success"))
      && (negb (eqs subtype (str "error_max_turns")) || isFallbackQuery options)
  | EndThrown e => eqs (err_name e) (str "AbortError")
  | EndSilent => true
  end.

Definition annotation (t : Terminal) : jsstring :=
  match t with
  | EndResult subtype _ =>
      if eqs subtype (str "error_max_turns") then note_fallback_max_turns
      else if eqs subtype (str "error_during_execution") then note_execution
      else if eqs subtype (str "cancelled") then note_cancelled
      else note_error_open ++ subtype ++ note_error_close
  | EndThrown _ => note_timeout
  | EndSilent => note_incomplete
  end.

(** Invariant of the loop of [runQuery]: the last valid content is the
    whole buffer once the buffer is longer than 200, and empty before. *)
Definition lastValidInv (q : QueryState) : Prop :=
  lastValidContent q =
    if (200 <? length (partialContent q))%nat then partialContent q else [].

(** *** Traces of executeAnalysis *)

Definition isNormal (ev : TraceEvent) : bool :=
  match ev with Queried NormalQuery _ _ _ _ => true | _ => false end.

Definition isDegraded (ev : TraceEvent) : bool :=
  match ev with Queried DegradedQuery _ _ _ _ => true | _ => false end.

(** The content test each kind of call has to pass for [executeAnalysis]
    to return its result: more than 100 characters for a normal attempt,
    more than 50 for the degraded and the salvage call. *)
Definition enough (ev : TraceEvent) : bool :=
  match ev with
  | Queried NormalQuery _ _ _ (inl r) => (100 <? length r)%nat
  | Queried _ _ _ _ (inl r) => (50 <? length r)%nat
  | _ => false
  end.

(** The error message of a normal attempt that did not pass. *)
Definition errorOf (outcome : jsstring + JsError) : jsstring :=
  match outcome with
  | inl _ => msg_insufficient
  | inr e => err_message e
  end.

(** The error message of the last normal attempt of a trace. *)
Fixpoint lastError (tr : list TraceEvent) : option jsstring :=
  match tr with
  | [] => None
  | ev :: tr' =>
      match lastError tr' with
      | Some m => Some m
      | None =>
          match ev with
          | Queried NormalQuery _ _ _ outcome => Some (errorOf outcome)
          | _ => None
          end
      end
  end.

(** *** Persistence *)

(** Whether the next [writeTaskImmediately] gets its file written: after
    the three swallowed [mkdir] come the [mkdir] of the file's directory
    and the [writeFile], the fourth and fifth operations on the tape. *)
Definition writeSucceeds (w : World) : bool :=
  nth 3 (tape w) true && nth 4 (tape w) true.

Definition isWriteTo (path : jsstring) (e : IOEvent) : bool :=
  match e with
  | Wrote p _ => eqs p path
  | Handed _ _ => false
  end.

Fixpoint count {A : Type} (p : A -> bool) (l : list A) : nat :=
  match l with
  | [] => 0
  | x :: l' => (if p x then 1 else 0) + count p l'
  end.

(** The number of physical writes of a file in a record of events. *)
Definition writesTo (path : jsstring) (events : list IOEvent) : nat :=
  count (isWriteTo path) events.

(** The written-set holds declared ids, each once. *)
Definition writtenSetOk (w : World) : Prop :=
  NoDup (realtimeWrittenTasks w)
  /\ forall x, x ∈ realtimeWrittenTasks w -> x ∈ map id ANALYSIS_TASKS.

(** Every declared task's file was written once if the task is in the
    written-set and never otherwise. *)
Definition gateOk (config : AnalysisConfig) (w : World) : Prop :=
  forall task, task ∈ ANALYSIS_TASKS ->
    writesTo (filePathOf config task) (io w) =
      if has (id task) (realtimeWrittenTasks w) then 1%nat else 0%nat.

(** *** Fallback and confidence *)

(** The tasks the fallback pass recovers from the text of the analysis. *)
Definition recovered (extractStructuredData : jsstring -> StructuredData)
    (now : jsstring) (config : AnalysisConfig) (analysisResult : jsstring)
    (tasks : list AnalysisTask) : list AnalysisTask :=
  filter (fun t => is_Some (fallbackOutput extractStructuredData now analysisResult config t))
    tasks.

(** The fixed annotations [SDKHelper] appends to a degraded, salvaged or
    truncated result. *)
Definition annotations : list jsstring :=
  [note_simplified; note_partial; note_fallback_max_turns; note_execution;
   note_cancelled; note_timeout; note_incomplete].

(** The texts whose presence [calculateTaskConfidence] rewards. *)
Definition structureNeedles : list jsstring :=
  [str "#"; str "##"; needle_mermaid; str "|"; str "---"].

(** No character of [ann] occurs in [needle]. *)
Definition avoids (ann needle : jsstring) : bool :=
  forallb (fun c => negb (existsb (N.eqb c) needle)) ann.

(** An output with a given document and references. *)
Definition outputOf (document : jsstring) (references : list jsstring) : TaskOutput :=
  {| taskId := []; document := document; metadata := ∅; references := references |}.

(** Whether the final pass writes the result [r] to the file [path]: the
    metadata of [r] do not say [realtimeWritten] and [path] is the file of
    the task [r] names. *)
Definition targets (config : AnalysisConfig) (path : jsstring) (r : AnalysisResult) : bool :=
  negb (truthyVal (prop (metadata (output r)) "realtimeWritten"))
  && match find (fun t => bool_decide (id t = agentName r)) ANALYSIS_TASKS with
     | Some task => eqs (filePathOf config task) path
     | None => false
     end.

(** *** Concrete inputs *)

Module Inputs.

(** [n] times the letter x. *)
Definition chars (n : nat) : jsstring := replicate n 120%N.

(** A listener without state. *)
Definition noListener (_ : jsstring) (u : unit) : unit := u.

(** A call that streams [n] characters and ends by a result message of the
    given subtype, and a call that succeeds with a text. *)
Definition stream (n : nat) (subtype : jsstring) : Script :=
  {| messages := [stream_event (content_block_delta (text_delta (chars n)));
                  result subtype []];
     thrown := None |}.

Definition answer (text : jsstring) : Script :=
  {| messages := [stream_event (content_block_delta (text_delta text));
                  result (str "success") text];
     thrown := None |}.

(** A call that succeeds with a text of which it has streamed nothing. *)
Definition resultOnly (text : jsstring) : Script :=
  {| messages := [result (str "success") text]; thrown := None |}.

Definition engine (scripts : list Script) : Engine unit :=
  {| pending := scripts; trace := []; listener := tt |}.

(** Options of a first, non-fallback query with partial messages on. *)
Definition partialOptions : QueryOptions :=
  queryOptions (str "system") DEFAULT_CONFIG false.

(** The defaults, with partial results switched off. *)
Definition strictConfig : SDKConfig :=
  {| maxTurns := None; timeout := None; retryAttempts := None; retryDelay := None;
     enablePartialResults := Some false; fallbackToSimplerPrompt := None;
     enableDetailedLogging := None |}.

Definition config : AnalysisConfig :=
  {| repoPath := str "/work/demo"; outputPath := str "/work/demo";
     depth := str "normal"; includeTests := true; includeDocs := true |}.

(** The same repository, given with separators at the end. *)
Definition slashConfig : AnalysisConfig :=
  {| repoPath := str "/work/demo//"; outputPath := str "/work/demo/";
     depth := str "normal"; includeTests := true; includeDocs := true |}.

Definition clock : jsstring := str "[2025-01-01T00:00:00.000Z]".

(** An extractor for documents without a fenced yaml or json block. *)
Definition noStructuredData (_ : jsstring) : StructuredData :=
  {| techStack := []; sd_references := []; sd_metadata := ∅ |}.

Definition noIndex (_ : KnowledgeGenerationResult) (_ : AnalysisConfig) : jsstring :=
  str "version: 1.0.0".

Definition promptOk (_ : AnalysisConfig) : jsstring + JsError := inl (str "PROMPT").

(** A world at the start of a session: nothing written, every file-system
    operation succeeds. *)
Definition fresh : World :=
  {| realtimeWrittenTasks := []; taskBuffer := ∅; files := ∅; io := []; tape := [] |}.

(** A world at the start of a session in which the first write of a
    document is refused: the [writeFile], the fifth operation, fails. *)
Definition refusedWrite : World :=
  {| realtimeWrittenTasks := []; taskBuffer := ∅; files := ∅; io := [];
     tape := [true; true; true; true; false] |}.

(** A delimited segment of [n] characters for a task id. *)
Definition segment (taskId : jsstring) (n : nat) : jsstring :=
  str "=== TASK_START: " ++ taskId ++ str " ===" ++ [10]%N ++ chars n ++ [10]%N
  ++ str "=== TASK_END: " ++ taskId ++ str " ===".

(** A segment for [overview] whose content carries a fenced json block
    with [{"metadata":{"realtimeWritten":false}}] in it. *)
Definition jsonBlock : jsstring :=
  str "```json" ++ [10]%N
  ++ str "{" ++ [34]%N ++ str "metadata" ++ [34]%N ++ str ":{" ++ [34]%N
  ++ str "realtimeWritten" ++ [34]%N ++ str ":false}}" ++ [10]%N ++ str "```".

Definition segmentWithJson : jsstring :=
  str "=== TASK_START: overview ===" ++ [10]%N ++ jsonBlock ++ [10]%N ++ chars 120
  ++ [10]%N ++ str "=== TASK_END: overview ===".

(** A heading with the display name of [overview] and [n] characters
    under it, and no marker of any kind. *)
Definition headingOnly (n : nat) : jsstring :=
  str "## " ++ name_overview ++ [10; 10]%N ++ chars n.

(** The exact markers of [overview] with nothing between them, then the
    heading with [n] characters under it. *)
Definition blankThenHeading (n : nat) : jsstring :=
  segment (str "overview") 0 ++ [10]%N ++ headingOnly n.

(** A complete segment for [systemArchitecture], then the heading of
    [overview] with 140 characters under it. *)
Definition segmentThenHeading : jsstring :=
  segment (str "systemArchitecture") 140 ++ [10]%N ++ headingOnly 140.

(** The first declared task. *)
Definition overviewTask : AnalysisTask :=
  {| id := str "overview"; name := name_overview;
     promptFile := str "overview-analysis.md";
     outputFile := str "docs/overview.md"; priority := 1 |}.

(** A session in which the engine answers with one complete segment, for
    [overview], and nothing for the other three tasks. *)
Definition oneOfFour
    : (KnowledgeGenerationResult + JsError) * list TraceEvent * World :=
  executeKnowledgeGeneration noStructuredData clock noIndex promptOk config
    [answer (segment (str "overview") 140)] fresh.

(** The document written for [overview] from [segmentWithJson], and what
    [extractStructuredData] returns for it: no yaml block, a json block
    that parses to an object with [metadata] alone. *)
Definition jsonDocument : jsstring :=
  formatDocument clock (jsonBlock ++ [10]%N ++ chars 120) overviewTask (str "demo").

Definition parsedJson : StructuredData :=
  {| techStack := []; sd_references := [];
     sd_metadata := {[ "realtimeWritten" := JBool false ]} |}.

(** An extractor that does on [jsonDocument] what the code does, and
    anything elsewhere. *)
Definition extractorWith (other : jsstring -> StructuredData) (doc : jsstring)
    : StructuredData :=
  if eqs doc jsonDocument then parsedJson else other doc.

(** A session in which the engine answers with [segmentWithJson]. *)
Definition jsonSession (other : jsstring -> StructuredData)
    : (KnowledgeGenerationResult + JsError) * list TraceEvent * World :=
  executeKnowledgeGeneration (extractorWith other) clock noIndex promptOk config
    [answer segmentWithJson] fresh.

(** A turn limit after 60 streamed characters, then a degraded call that
    succeeds with [n] characters; partial results are off. *)
Definition turnLimitThenShort (n : nat) : (jsstring + JsError) * Engine unit :=
  executeAnalysis noListener (str "PROMPT") (str "system") (Some strictConfig)
    (engine [stream 60 (str "error_max_turns"); answer (chars n)]).

End Inputs.

(* ===================================================================== *)
(** ** Vocabulary of the further properties                                *)
(* ===================================================================== *)

(** *** runQuery *)

(** The exception [runQuery] ends with when it does not hand back the
    buffered text: the message of each result subtype, the exception of
    the stream itself, or the message of a stream that ran out. *)
Definition failure (t : Terminal) : JsError :=
  match t with
  | EndResult subtype _ =>
      if eqs subtype (str "error_max_turns") then Error msg_max_turns
      else if eqs subtype (str "error_during_execution") then Error msg_execution
      else if eqs subtype (str "cancelled") then Error msg_cancelled
      else Error (msg_query_error ++ subtype)
  | EndThrown e => e
  | EndSilent => Error msg_no_response
  end.

(** The text deltas that come before the first result message. *)
Fixpoint deltas (msgs : list Message) : list jsstring :=
  match msgs with
  | [] => []
  | stream_event (content_block_delta (text_delta deltaText)) :: rest =>
      deltaText :: deltas rest
  | result _ _ :: _ => []
  | _ :: rest => deltas rest
  end.

(** The text received so far after each delta of a list, [acc] being the
    text received before the list. *)
Fixpoint cumulative (acc : jsstring) (ds : list jsstring) : list jsstring :=
  match ds with
  | [] => []
  | d :: ds' => (acc ++ d) :: cumulative (acc ++ d) ds'
  end.

(** *** The ladder of executeAnalysis

    The three calls a run can make, as they appear in the trace, and the
    shape of a run: what one attempt adds to the trace and how it ends. *)

Section Ladder.

Variables (prompt systemPrompt : jsstring) (mergedConfig : MergedConfig).

Definition normalCall (outcome : jsstring + JsError) : TraceEvent :=
  Queried NormalQuery prompt (queryOptions systemPrompt mergedConfig false)
    mergedConfig outcome.

Definition degradedCall (errorMessage : jsstring) (outcome : jsstring + JsError)
    : TraceEvent :=
  Queried DegradedQuery (createSimplifiedPrompt prompt)
    (queryOptions systemPrompt (simplifiedConfig mergedConfig errorMessage) false)
    (simplifiedConfig mergedConfig errorMessage) outcome.

Definition salvageCall (outcome : jsstring + JsError) : TraceEvent :=
  Queried SalvageQuery prompt
    (queryOptions systemPrompt (partialConfig mergedConfig) true)
    (partialConfig mergedConfig) outcome.

(** The degradation block after a failure with message [errorMessage]:
    the calls it makes and the value it returns, if any. *)
Inductive degradation (errorMessage : jsstring)
    : list TraceEvent -> option jsstring -> Prop :=
| degraded_enough (r : jsstring) :
    (50 < length r)%nat ->
    degradation errorMessage [degradedCall errorMessage (inl r)]
      (Some (r ++ note_simplified))
| degraded_short (r : jsstring) :
    (length r <= 50)%nat ->
    degradation errorMessage [degradedCall errorMessage (inl r)] None
| degraded_throws (e : JsError) :
    m_enablePartialResults mergedConfig = false ->
    degradation errorMessage [degradedCall errorMessage (inr e)] None
| salvaged_enough (e : JsError) (r : jsstring) :
    m_enablePartialResults mergedConfig = true ->
    (50 < length r)%nat ->
    degradation errorMessage
      [degradedCall errorMessage (inr e); salvageCall (inl r)]
      (Some (r ++ note_partial))
| salvaged_short (e : JsError) (r : jsstring) :
    m_enablePartialResults mergedConfig = true ->
    (length r <= 50)%nat ->
    degradation errorMessage
      [degradedCall errorMessage (inr e); salvageCall (inl r)] None
| salvage_throws (e e' : JsError) :
    m_enablePartialResults mergedConfig = true ->
    degradation errorMessage
      [degradedCall errorMessage (inr e); salvageCall (inr e')] None.

(** What follows a normal attempt that did not pass: the degradation
    block when the failure is of the limit class and degradation is on,
    nothing otherwise. *)
Definition afterFailure (outcome : jsstring + JsError)
    (mid : list TraceEvent) (returned : option jsstring) : Prop :=
  if isLimitError (errorOf outcome) && m_fallbackToSimplerPrompt mergedConfig
  then degradation (errorOf outcome) mid returned
  else mid = [] /\ returned = None.

(** A run from attempt number [attempt] on: the events it adds to the
    trace and its result. *)
Inductive ladder : nat -> list TraceEvent -> jsstring + JsError -> Prop :=
| ladder_passes (attempt : nat) (r : jsstring) :
    (100 < length r)%nat ->
    ladder attempt [normalCall (inl r)] (inl r)
| ladder_recovers (attempt : nat) (outcome : jsstring + JsError)
    (mid : list TraceEvent) (v : jsstring) :
    enough (normalCall outcome) = false ->
    afterFailure outcome mid (Some v) ->
    ladder attempt (normalCall outcome :: mid) (inl v)
| ladder_gives_up (attempt : nat) (outcome : jsstring + JsError)
    (mid : list TraceEvent) :
    enough (normalCall outcome) = false ->
    afterFailure outcome mid None ->
    attempt = m_retryAttempts mergedConfig ->
    ladder attempt (normalCall outcome :: mid)
      (inr (Error (msg_analysis_failed ++ errorOf outcome)))
| ladder_retries (attempt : nat) (outcome : jsstring + JsError)
    (mid rest : list TraceEvent) (res : jsstring + JsError) :
    enough (normalCall outcome) = false ->
    afterFailure outcome mid None ->
    attempt <> m_retryAttempts mergedConfig ->
    ladder (S attempt) rest res ->
    ladder attempt
      (normalCall outcome :: mid
       ++ Delayed (m_retryDelay mergedConfig * inject_Z (Z.of_nat attempt)) :: rest)
      res.

End Ladder.

(** An event of a run is one of the three calls or a delay. *)
Definition madeBy (prompt systemPrompt : jsstring) (mergedConfig : MergedConfig)
    (ev : TraceEvent) : Prop :=
  (exists o, ev = normalCall prompt systemPrompt mergedConfig o)
  \/ (exists m o, ev = degradedCall prompt systemPrompt mergedConfig m o)
  \/ (exists o, ev = salvageCall prompt systemPrompt mergedConfig o)
  \/ (exists ms, ev = Delayed ms).

(** The events a run added to the trace of the engine it started with. *)
Definition added {L : Type} (before after : Engine L) : list TraceEvent :=
  drop (length (trace before)) (trace after).

Definition isSalvage (ev : TraceEvent) : bool :=
  match ev with Queried SalvageQuery _ _ _ _ => true | _ => false end.

Definition isQuery (ev : TraceEvent) : bool :=
  match ev with Queried _ _ _ _ _ => true | Delayed _ => false end.

(** The delays of a trace, in order. *)
Definition delaysOf (tr : list TraceEvent) : list Q :=
  omap (fun ev => match ev with Delayed ms => Some ms | _ => None end) tr.

(** What [executeAnalysis] returns when a call passes its content test:
    the result of a normal attempt as it is, the result of the degraded
    and of the salvage call with their notes appended. *)
Definition returnedFor (ev : TraceEvent) : jsstring :=
  match ev with
  | Queried NormalQuery _ _ _ (inl r) => r
  | Queried DegradedQuery _ _ _ (inl r) => r ++ note_simplified
  | Queried SalvageQuery _ _ _ (inl r) => r ++ note_partial
  | _ => []
  end.

(** Whether [ev] may come directly after [prev] in a trace. *)
Definition follows (prev ev : TraceEvent) : bool :=
  match ev, prev with
  | Queried NormalQuery _ _ _ _, Delayed _ => true
  | Queried DegradedQuery _ _ _ _, Queried NormalQuery _ _ _ outcome =>
      negb (enough prev) && isLimitError (errorOf outcome)
  | Queried SalvageQuery _ _ _ _, Queried DegradedQuery _ _ _ (inr _) => true
  | Delayed _, Queried _ _ _ _ _ => negb (enough prev)
  | _, _ => false
  end.

Fixpoint ordered (tr : list TraceEvent) : bool :=
  match tr with
  | prev :: (ev :: _) as rest => follows prev ev && ordered rest
  | _ => true
  end.

(** What every call of a run is made with: the six disallowed tools, no
    turn limit and the caller's system prompt; the caller's prompt and
    configuration for a normal attempt; the simplified prompt, partial
    messages off and a single attempt without further degradation for the
    degraded call; the caller's prompt, partial messages on and the mark
    of a fallback query for the salvage call. *)
Definition wellFormedCall (prompt systemPrompt : jsstring) (mergedConfig : MergedConfig)
    (ev : TraceEvent) : Prop :=
  match ev with
  | Delayed _ => True
  | Queried kind p options config _ =>
      disallowedTools options = DISALLOWED_TOOLS
      /\ q_maxTurns options = None
      /\ customSystemPrompt options = systemPrompt
      /\ includePartialMessages options = m_enablePartialResults config
      /\ match kind with
         | NormalQuery =>
             p = prompt /\ config = mergedConfig /\ isFallbackQuery options = false
         | DegradedQuery =>
             p = createSimplifiedPrompt prompt
             /\ isFallbackQuery options = false
             /\ includePartialMessages options = false
             /\ m_retryAttempts config = 1%nat
             /\ m_fallbackToSimplerPrompt config = false
         | SalvageQuery =>
             p = prompt
             /\ isFallbackQuery options = true
             /\ includePartialMessages options = true
         end
  end.

(** *** The live scan *)

(** Every file-system operation still to come succeeds. *)
Definition allSucceed (w : World) : bool := forallb (fun ok => ok) (tape w).

(** The buffer holds a complete segment for the task that passes the
    length test of the scan. *)
Definition ready (content : jsstring) (task : AnalysisTask) : bool :=
  match between content (startMarker task) (endMarker task) with
  | Some taskContent => (100 <? length taskContent)%nat
  | None => false
  end.

(** No scan that a stream starts has anything to write: in every call the
    engine makes, the text received so far never holds a complete segment
    of more than 100 characters for a declared task. [runQuery] does not
    wait for the scans it starts; one that writes nothing has ended when
    the callback returns, so that on such a session the scans run one
    after the other as [onContentUpdate] has them, and the one scan that
    writes is that of the returned text, for which
    [executeUnifiedAnalysis] waits. *)
Definition quiet (scripts : list Script) : bool :=
  forallb
    (fun script =>
       forallb
         (fun partialContent =>
            forallb (fun task => negb (ready partialContent task)) ANALYSIS_TASKS)
         (cumulative [] (deltas (messages script))))
    scripts.

(** What a scan of [content] leaves behind for a task when no write
    fails: a task with a segment that is ready is in the written-set, and
    any other task whose start marker is present is recorded as opened. *)
Definition settled (content : jsstring) (w : World) (task : AnalysisTask) : Prop :=
  if ready content task then has (id task) (realtimeWrittenTasks w) = true
  else has (id task) (realtimeWrittenTasks w) = true
       \/ indexOf content (startMarker task) = (-1)%Z
       \/ is_Some (taskBuffer w !! id task).

(** *** Persistence *)

(** The file of a task holds the document formatted from [content]. *)
Definition onDisk (now : jsstring) (config : AnalysisConfig) (w : World)
    (task : AnalysisTask) (content : jsstring) : Prop :=
  files w !! filePathOf config task
  = Some (formatDocument now content task (basename (repoPath config))).

(** The file of every task in the written-set holds the document
    formatted from a content of more than 100 characters. *)
Definition liveFilesOk (now : jsstring) (config : AnalysisConfig) (w : World) : Prop :=
  forall task, task ∈ ANALYSIS_TASKS ->
    has (id task) (realtimeWrittenTasks w) = true ->
    exists content, (100 < length content)%nat /\ onDisk now config w task content.

(** The path of the index file. *)
Definition indexPath (config : AnalysisConfig) : jsstring :=
  path_join (outputPath config) (str ".repomind") (str "knowledge.yaml").

(** A write goes to a file of the session: knowledge.yaml or the output
    file of a declared task, under [.repomind] of the output path. *)
Definition writesWithin (config : AnalysisConfig) (e : IOEvent) : Prop :=
  match e with
  | Wrote path _ =>
      exists file,
        file ∈ str "knowledge.yaml" :: map outputFile ANALYSIS_TASKS
        /\ path = path_join (outputPath config) (str ".repomind") file
  | Handed _ _ => True
  end.

(** The record of events holds writes to files of the session only, and
    [indexWrites] of them to knowledge.yaml. *)
Definition tidy (config : AnalysisConfig) (indexWrites : nat) (w : World) : Prop :=
  Forall (writesWithin config) (io w)
  /\ writesTo (indexPath config) (io w) = indexWrites.

From Stdlib Require Import DecimalZ.

(* ===================================================================== *)
(** ** Around the generation core                                          *)
(* ===================================================================== *)

(** The functions the session calls on its way in and out: the prompt
    builder, the reader of structured data, the timestamp, the index of
    the knowledge base, the entry point [generateKnowledgeBase], and the
    result check and the retry helper of the utilities. *)

(** *** More of the JavaScript string library *)

Module Text.

(** The decimal digits of [String(n)] for an integer [n] (below 10^21 in
    absolute value, where JavaScript does not yet switch to an exponent). *)
Fixpoint digits (d : Decimal.uint) : jsstring :=
  match d with
  | Decimal.Nil => []
  | Decimal.D0 d' => 48%N :: digits d'
  | Decimal.D1 d' => 49%N :: digits d'
  | Decimal.D2 d' => 50%N :: digits d'
  | Decimal.D3 d' => 51%N :: digits d'
  | Decimal.D4 d' => 52%N :: digits d'
  | Decimal.D5 d' => 53%N :: digits d'
  | Decimal.D6 d' => 54%N :: digits d'
  | Decimal.D7 d' => 55%N :: digits d'
  | Decimal.D8 d' => 56%N :: digits d'
  | Decimal.D9 d' => 57%N :: digits d'
  end.

Definition numberToString (n : Z) : jsstring :=
  match Z.to_int n with
  | Decimal.Pos d => digits d
  | Decimal.Neg d => 45%N :: digits d
  end.

(** [s.padStart(targetLength, fill)] for a filler of one code unit. *)
Definition padStart (targetLength : nat) (fill : N) (s : jsstring) : jsstring :=
  replicate (targetLength - length s) fill ++ s.

(** [b.toString()] of a boolean. *)
Definition booleanToString (b : bool) : jsstring :=
  if b then str "true" else str "false".

(** GetSubstitution of ECMAScript for a pattern without capture groups:
    in the replacement text [$$] stands for a dollar sign, [$&] for the
    matched text, [$`] for the text before the match and [$'] for the text
    after it; every other code unit, a dollar sign included, stands for
    itself. *)
Fixpoint getSubstitution (matched before after template : jsstring) : jsstring :=
  match template with
  | [] => []
  | c :: rest =>
      if (c =? 36)%N then
        match rest with
        | [] => [c]
        | d :: rest' =>
            if (d =? 36)%N then 36%N :: getSubstitution matched before after rest'
            else if (d =? 38)%N then matched ++ getSubstitution matched before after rest'
            else if (d =? 96)%N then before ++ getSubstitution matched before after rest'
            else if (d =? 39)%N then after ++ getSubstitution matched before after rest'
            else c :: getSubstitution matched before after rest
        end
      else c :: getSubstitution matched before after rest
  end.

(** [s.replace(/pattern/g, replaceValue)] for a regular expression that is
    one non-empty literal. The matches are found from left to right in the
    original string and do not overlap; [before] is the text already
    passed, [skip] the number of code units of the current match still to
    pass. *)
Fixpoint replaceAt (pattern replaceValue before s : jsstring) (skip : nat) : jsstring :=
  match s with
  | [] => []
  | c :: rest =>
      match skip with
      | S skip' => replaceAt pattern replaceValue (before ++ [c]) rest skip'
      | O =>
          if startsWith pattern s
          then getSubstitution pattern before (drop (length pattern) s) replaceValue
               ++ replaceAt pattern replaceValue (before ++ [c]) rest (length pattern - 1)
          else c :: replaceAt pattern replaceValue (before ++ [c]) rest 0
      end
  end.

Definition replaceAll (pattern replaceValue s : jsstring) : jsstring :=
  replaceAt pattern replaceValue [] s 0.

(** [(.*?)] with flag [s] followed by a literal, at the start of [s]: the
    shortest prefix after which the literal comes; [None] when the literal
    does not come. *)
Fixpoint lazyUntil (closing s : jsstring) : option jsstring :=
  if startsWith closing s then Some []
  else match s with
       | [] => None
       | c :: s' => option_map (cons c) (lazyUntil closing s')
       end.

(** [/word/i.test(s)] for a literal [word]: the literal matches somewhere,
    letter case apart. *)
Fixpoint test (word s : jsstring) : bool :=
  match matchLiteral word s with
  | Some _ => true
  | None =>
      match s with
      | [] => false
      | _ :: s' => test word s'
      end
  end.

End Text.

(** *** The prompt builder of TaskListManager *)

Module Prompts.

Import Text.

Definition msg_prompt_file : jsstring := [26080; 27861; 21152; 36733]%N ++ str "prompt" ++ [25991; 20214]%N ++ str ": ".
Definition section_task : jsstring := [10]%N ++ str "### " ++ [20219; 21153]%N ++ str " ".
Definition section_id : jsstring := [10]%N ++ str "**" ++ [20219; 21153]%N ++ str "ID**: ".
Definition section_file : jsstring := [10]%N ++ str "**" ++ [36755; 20986; 25991; 20214]%N ++ str "**: ".
Definition section_description : jsstring := [10]%N ++ str "**" ++ [25551; 36848]%N ++ str "**: ".
Definition section_end : jsstring := [10; 10]%N ++ str "---" ++ [10]%N.
Definition description_overview : jsstring := [20998; 26512; 39033; 30446; 25972; 20307; 29305; 24449; 65292; 25552; 20379; 24555; 36895; 29702; 35299; 39033; 30446; 30340; 27010; 35272; 20449; 24687]%N.
Definition description_systemArchitecture : jsstring := [20998; 26512; 39033; 30446; 30340; 25972; 20307; 26550; 26500; 35774; 35745; 12289; 26680; 24515; 27169; 24335; 21450; 32452; 20214; 32467; 26500]%N.
Definition description_apiReference : jsstring := [20998; 26512; 39033; 30446; 30340]%N ++ str "API" ++ [35774; 35745; 12289; 25509; 21475; 35268; 33539; 21450; 25968; 25454; 32467; 26500; 27169; 22411]%N.
Definition description_businessWorkflows : jsstring := [20998; 26512; 39033; 30446; 30340; 26680; 24515; 19994; 21153; 27969; 31243; 21644; 22788; 29702; 36923; 36753]%N.
Definition prompt_separator : jsstring := [10; 10]%N ++ str "---" ++ [10; 10]%N.

#[global] Arguments msg_prompt_file : simpl never.
#[global] Arguments section_task : simpl never.
#[global] Arguments section_id : simpl never.
#[global] Arguments section_file : simpl never.
#[global] Arguments section_description : simpl never.
#[global] Arguments section_end : simpl never.
#[global] Arguments description_overview : simpl never.
#[global] Arguments description_systemArchitecture : simpl never.
#[global] Arguments description_apiReference : simpl never.
#[global] Arguments description_businessWorkflows : simpl never.
#[global] Arguments prompt_separator : simpl never.

(** The declared tasks with the description field of each. *)
Definition DESCRIPTIONS : list jsstring :=
  [description_overview; description_systemArchitecture;
   description_apiReference; description_businessWorkflows].

Definition describedTasks : list (AnalysisTask * jsstring) :=
  zip ANALYSIS_TASKS DESCRIPTIONS.

(** The names of the two files every prompt needs. *)
Definition templateFile : jsstring := str "unified-analysis-tasks.md".
Definition guideFile : jsstring := str "common-analysis-guide.md".

(** [promptCache] is the [Map] of the instance; [reads] records, in order,
    the names handed to [fs.readFile]. *)
Record PromptStore : Type := {
  promptCache : gmap (list N) jsstring;
  reads : list jsstring
}.

(** The store of a new instance. *)
Definition newStore : PromptStore := {| promptCache := ∅; reads := [] |}.

Section Disk.

(** The prompts directory: the content [fs.readFile] returns for the file
    of a name, [None] when it throws. *)
Variable disk : jsstring -> option jsstring.

(** [loadPromptFile]: the cached text, or the text read, which is then
    cached; a read that fails throws the message of the function. *)
Definition loadPromptFile (filename : jsstring) (st : PromptStore)
    : (jsstring + JsError) * PromptStore :=
  match promptCache st !! filename with
  | Some content => (inl content, st)
  | None =>
      match disk filename with
      | Some content =>
          (inl content,
           {| promptCache := <[filename := content]> (promptCache st);
              reads := reads st ++ [filename] |})
      | None =>
          (inr (Error (msg_prompt_file ++ filename)),
           {| promptCache := promptCache st; reads := reads st ++ [filename] |})
      end
  end.

Definition combinePrompts (commonGuide specificPrompt : jsstring)
    (config : AnalysisConfig) : jsstring :=
  let customizedPrompt :=
    replaceAll (str "{{OUTPUT_PATH}}") (outputPath config)
      (replaceAll (str "{{INCLUDE_DOCS}}") (booleanToString (includeDocs config))
        (replaceAll (str "{{INCLUDE_TESTS}}") (booleanToString (includeTests config))
          (replaceAll (str "{{ANALYSIS_DEPTH}}") (depth config)
            (replaceAll (str "{{REPO_PATH}}") (repoPath config) specificPrompt)))) in
  commonGuide ++ prompt_separator ++ customizedPrompt.

(** The section of one task in the task list; [index] counts from 0. *)
Definition taskSection (index : nat) (task : AnalysisTask)
    (description fullPrompt : jsstring) : jsstring :=
  section_task ++ numberToString (Z.of_nat index + 1) ++ str ": " ++ name task
  ++ section_id ++ id task
  ++ section_file ++ outputFile task
  ++ section_description ++ description
  ++ [10; 10]%N ++ fullPrompt ++ section_end.

(** The loop of [buildTaskListContent]: a task whose prompt cannot be
    loaded is skipped. *)
Fixpoint loadTasks (commonGuide : jsstring) (config : AnalysisConfig) (index : nat)
    (tasks : list (AnalysisTask * jsstring)) (st : PromptStore)
    : list jsstring * PromptStore :=
  match tasks with
  | [] => ([], st)
  | (task, description) :: rest =>
      let '(r, st1) := loadPromptFile (promptFile task) st in
      let '(taskPrompts, st2) := loadTasks commonGuide config (S index) rest st1 in
      match r with
      | inl specificPrompt =>
          (taskSection index task description
             (combinePrompts commonGuide specificPrompt config) :: taskPrompts, st2)
      | inr _ => (taskPrompts, st2)
      end
  end.

Definition buildTaskListContent (config : AnalysisConfig) (st : PromptStore)
    : (jsstring + JsError) * PromptStore :=
  let '(r, st1) := loadPromptFile guideFile st in
  match r with
  | inr e => (inr e, st1)
  | inl commonGuide =>
      let '(taskPrompts, st2) := loadTasks commonGuide config 0 describedTasks st1 in
      (inl (concat taskPrompts), st2)
  end.

Definition buildUnifiedPrompt (config : AnalysisConfig) (st : PromptStore)
    : (jsstring + JsError) * PromptStore :=
  let '(r, st1) := loadPromptFile templateFile st in
  match r with
  | inr e => (inr e, st1)
  | inl unifiedTemplate =>
      let '(r2, st2) := buildTaskListContent config st1 in
      match r2 with
      | inr e => (inr e, st2)
      | inl taskListContent =>
          (inl (replaceAll (str "{{TASK_LIST}}") taskListContent
                 (replaceAll (str "{{INCLUDE_DOCS}}") (booleanToString (includeDocs config))
                   (replaceAll (str "{{INCLUDE_TESTS}}") (booleanToString (includeTests config))
                     (replaceAll (str "{{ANALYSIS_DEPTH}}") (depth config)
                       (replaceAll (str "{{REPO_PATH}}") (repoPath config)
                          unifiedTemplate))))),
           st2)
      end
  end.

(** What a load of [filename] gives in a store: the cached text, or else
    the text on the disk. *)
Definition available (st : PromptStore) (filename : jsstring) : option jsstring :=
  match promptCache st !! filename with
  | Some content => Some content
  | None => disk filename
  end.

(** The section of a task, when its prompt can be loaded. *)
Definition sectionOf (st : PromptStore) (commonGuide : jsstring) (config : AnalysisConfig)
    (index : nat) (entry : AnalysisTask * jsstring) : option jsstring :=
  specificPrompt ← available st (promptFile entry.1);
  Some (taskSection index entry.1 entry.2
          (combinePrompts commonGuide specificPrompt config)).

(** The sections of the tasks whose prompt can be loaded, each under its
    declared position, one after the other. *)
Definition taskList (st : PromptStore) (commonGuide : jsstring) (config : AnalysisConfig)
    : jsstring :=
  concat (omap (fun s => s) (imap (sectionOf st commonGuide config) describedTasks)).

End Disk.

(** The template with its five placeholders replaced, in the order of
    [buildUnifiedPrompt]. *)
Definition fillTemplate (config : AnalysisConfig) (unifiedTemplate taskListContent : jsstring)
    : jsstring :=
  replaceAll (str "{{TASK_LIST}}") taskListContent
    (replaceAll (str "{{INCLUDE_DOCS}}") (booleanToString (includeDocs config))
      (replaceAll (str "{{INCLUDE_TESTS}}") (booleanToString (includeTests config))
        (replaceAll (str "{{ANALYSIS_DEPTH}}") (depth config)
          (replaceAll (str "{{REPO_PATH}}") (repoPath config) unifiedTemplate)))).

(** The cache holds a text for a name. *)
Definition cached (st : PromptStore) (filename : jsstring) : Prop :=
  is_Some (promptCache st !! filename).

(** The six files a build loads. *)
Definition promptFiles : list jsstring :=
  templateFile :: guideFile :: map promptFile ANALYSIS_TASKS.

Definition allAvailable (disk : jsstring -> option jsstring) (st : PromptStore) : bool :=
  forallb (fun filename => bool_decide (is_Some (available disk st filename))) promptFiles.

End Prompts.

(** *** validateResult and extractStructuredData of SDKHelper *)

Module Validation.

Import Text.

Definition word_error : jsstring := [38169; 35823]%N.
Definition word_failed : jsstring := [22833; 36133]%N.
Definition word_cannot : jsstring := [26080; 27861]%N.
Definition word_missing : jsstring := [19981; 23384; 22312]%N.

(** The three regular expressions, each the list of its alternatives. *)
Definition errorPatterns : list (list jsstring) :=
  [ [word_error; str "Error"; word_failed; str "Failed"];
    [word_cannot; str "Cannot"; str "Unable"];
    [word_missing; str "Not found"; str "Does not exist"] ].

(** [validateResult]; [minLength] is [None] when the argument is left out. *)
Definition validateResult (result : jsstring) (minLength : option Z) : bool :=
  let minLength := default 500%Z minLength in
  if negb (truthy result) || (Z.of_nat (length (trim result)) <? minLength)%Z
  then false
  else
    let hasErrors :=
      existsb (fun pattern => existsb (fun word => test word result) pattern)
              errorPatterns in
    negb hasErrors.

(** A value that [yaml.load] or [JSON.parse] builds: a scalar, an array
    or a plain object. *)
#[warnings="-register-all"]
Inductive Value : Type :=
| VUndefined
| VNull
| VBool (b : bool)
| VNumber (q : Q)
| VNaN
| VInfinity (negative : bool)
| VString (s : jsstring)
| VArray (items : list Value)
| VObject (fields : list (jsstring * Value)).

Definition truthyValue (v : Value) : bool :=
  match v with
  | VUndefined | VNull | VNaN => false
  | VBool b => b
  | VNumber q => negb (Qeq_bool q 0)
  | VInfinity _ => true
  | VString s => truthy s
  | VArray _ | VObject _ => true
  end.

(** The value of a key in the fields of an object, which are in the order
    of insertion and have distinct keys. *)
Fixpoint lookupField (key : jsstring) (fields : list (jsstring * Value)) : option Value :=
  match fields with
  | [] => None
  | (k, v) :: rest => if eqs k key then Some v else lookupField key rest
  end.

(** [parsed.key] for a key that no prototype defines; reading a property
    of [undefined] or [null] throws a [TypeError]. *)
Definition get (parsed : Value) (key : jsstring) : option Value :=
  match parsed with
  | VUndefined | VNull => None
  | VObject fields => Some (default VUndefined (lookupField key fields))
  | _ => Some VUndefined
  end.

(** [parsed?.key] *)
Definition optionalGet (parsed : Value) (key : jsstring) : Value :=
  default VUndefined (get parsed key).

(** [a || b] *)
Definition orElse (a b : Value) : Value := if truthyValue a then a else b.

Record Extracted : Type := {
  e_techStack : Value;
  e_references : Value;
  e_metadata : Value
}.

Definition defaults : Extracted :=
  {| e_techStack := VArray []; e_references := VArray []; e_metadata := VObject [] |}.

Definition fenceOpen (language : jsstring) : jsstring :=
  str "```" ++ language ++ [10]%N.
Definition fenceClose : jsstring := [10]%N ++ str "```".

(** The leftmost match of [/```LANGUAGE\n(.*?)\n```/s], reduced to its
    group: at each position the opening is tried and then the shortest
    body that the closing follows. *)
Fixpoint fenceMatch (language s : jsstring) : option jsstring :=
  let here :=
    if startsWith (fenceOpen language) s
    then lazyUntil fenceClose (drop (length (fenceOpen language)) s)
    else None in
  match here with
  | Some body => Some body
  | None =>
      match s with
      | [] => None
      | _ :: s' => fenceMatch language s'
      end
  end.

(** The object the yaml branch returns, read with [?.]. *)
Definition fromYaml (parsed : Value) : Extracted :=
  {| e_techStack := orElse (optionalGet parsed (str "techStack")) (VArray []);
     e_references := orElse (optionalGet parsed (str "references")) (VArray []);
     e_metadata := orElse (optionalGet parsed (str "metadata")) (VObject []) |}.

(** The object the json branch returns; [None] when reading a property
    throws. *)
Definition fromJson (parsed : Value) : option Extracted :=
  techStack ← get parsed (str "techStack");
  references ← get parsed (str "references");
  metadata ← get parsed (str "metadata");
  Some {| e_techStack := orElse techStack (VArray []);
          e_references := orElse references (VArray []);
          e_metadata := orElse metadata (VObject []) |}.

Section Parsers.

(** [yaml.load] and [JSON.parse]: the value, or the exception. *)
Variable yamlLoad : jsstring -> Value + JsError.
Variable jsonParse : jsstring -> Value + JsError.

(** Every exception ends in the defaults. *)
Definition extractStructuredData (content : jsstring) : Extracted :=
  match fenceMatch (str "yaml") content with
  | Some body =>
      match yamlLoad body with
      | inl parsed => fromYaml parsed
      | inr _ => defaults
      end
  | None =>
      match fenceMatch (str "json") content with
      | Some body =>
          match jsonParse body with
          | inl parsed => default defaults (fromJson parsed)
          | inr _ => defaults
          end
      | None => defaults
      end
  end.

End Parsers.

(** A text mentions a word: the word occurs in it, letter case apart. *)
Definition mentions (word s : jsstring) : Prop :=
  exists pre w post,
    s = pre ++ w ++ post /\ map canonicalize w = map canonicalize word.

End Validation.

(** *** formatTimestamp *)

Module Timestamp.

Import Text.

(** What the getters of a [Date] return, in local time. *)
Record Date : Type := {
  getFullYear : Z;
  getMonth : Z;
  getDate : Z;
  getHours : Z;
  getMinutes : Z;
  getSeconds : Z;
  getMilliseconds : Z
}.

Definition formatTimestamp (date : Date) : jsstring :=
  let year := getFullYear date in
  let month := padStart 2 48 (numberToString (getMonth date + 1)) in
  let day := padStart 2 48 (numberToString (getDate date)) in
  let hours := padStart 2 48 (numberToString (getHours date)) in
  let minutes := padStart 2 48 (numberToString (getMinutes date)) in
  let seconds := padStart 2 48 (numberToString (getSeconds date)) in
  let milliseconds := padStart 3 48 (numberToString (getMilliseconds date)) in
  str "[" ++ numberToString year ++ str "-" ++ month ++ str "-" ++ day
  ++ str "T" ++ hours ++ str ":" ++ minutes ++ str ":" ++ seconds
  ++ str "." ++ milliseconds ++ str "Z]".

(** The ranges of the getters of a valid date. *)
Definition inRange (date : Date) : Prop :=
  (0 <= getMonth date <= 11 /\ 1 <= getDate date <= 31
   /\ 0 <= getHours date <= 23 /\ 0 <= getMinutes date <= 59
   /\ 0 <= getSeconds date <= 59 /\ 0 <= getMilliseconds date <= 999)%Z.

End Timestamp.

(** *** generateKnowledgeIndex *)

Module Index.

Record Repository : Type := {
  r_name : jsstring;
  r_path : jsstring;
  r_language : jsstring;
  r_analysisDepth : jsstring;
  r_includeTests : bool
}.

Record ContentIndex : Type := {
  c_overview : jsstring;
  c_systemArchitecture : jsstring;
  c_apiReference : jsstring;
  c_businessWorkflows : jsstring
}.

Record QualityMetrics : Type := {
  q_overallConfidence : Q;
  q_successfulTasks : nat;
  q_totalTasks : nat
}.

Record KnowledgeIndex : Type := {
  version : jsstring;
  repository : Repository;
  generatedAt : jsstring;
  analysisConfig : AnalysisConfig;
  contentIndex : ContentIndex;
  i_metadata : ResultMetadata;
  qualityMetrics : QualityMetrics
}.

Definition isSuccess (r : AnalysisResult) : bool :=
  match status r with status_success => true | _ => false end.

(** [now] is the text [formatTimestamp()] returns when the index is built. *)
Definition generateKnowledgeIndex (now : jsstring) (result : KnowledgeGenerationResult)
    (config : AnalysisConfig) : KnowledgeIndex :=
  {| version := str "1.0.0";
     repository :=
       {| r_name := basename (repoPath config);
          r_path := repoPath config;
          r_language := str "unknown";
          r_analysisDepth := depth config;
          r_includeTests := includeTests config |};
     generatedAt := now;
     analysisConfig := config;
     contentIndex :=
       {| c_overview := str "./docs/overview.md";
          c_systemArchitecture := str "./docs/system-architecture.md";
          c_apiReference := str "./docs/api-reference.md";
          c_businessWorkflows := str "./docs/business-workflows.md" |};
     i_metadata := k_metadata result;
     qualityMetrics :=
       {| q_overallConfidence := overallConfidence result;
          q_successfulTasks := length (filter (fun r => isSuccess r = true) (results result));
          q_totalTasks := length (results result) |} |}.

End Index.

(** *** generateKnowledgeBase of the package entry *)

Module EntryPoint.

Definition msg_generation_failed : jsstring := [30693; 35782; 24211; 29983; 25104; 22833; 36133]%N ++ str ": ".
#[global] Arguments msg_generation_failed : simpl never.

(** The argument of [generateKnowledgeBase]: only the repository path is
    required. The optional [customPatterns], which is copied when present
    and which the session never reads, is left out as in
    [AnalysisConfig]. *)
Record PartialConfig : Type := {
  p_repoPath : jsstring;
  p_outputPath : option jsstring;
  p_depth : option jsstring;
  p_includeTests : option bool;
  p_includeDocs : option bool
}.

(** [a || b] for an optional string. *)
Definition orString (a : option jsstring) (b : jsstring) : jsstring :=
  match a with
  | Some s => if truthy s then s else b
  | None => b
  end.

Definition fullConfig (config : PartialConfig) : AnalysisConfig :=
  {| repoPath := p_repoPath config;
     outputPath := orString (p_outputPath config) (p_repoPath config);
     depth := orString (p_depth config) (str "normal");
     includeTests := default true (p_includeTests config);
     includeDocs := default true (p_includeDocs config) |}.

(** The text of a status in a template literal. *)
Definition statusText (s : Status) : jsstring :=
  match s with
  | status_success => str "success"
  | status_error => str "error"
  | status_partial => str "partial"
  end.

Section Run.

Variable extractStructuredData : jsstring -> StructuredData.
Variable now : jsstring.
Variable dumpIndex : KnowledgeGenerationResult -> AnalysisConfig -> jsstring.
Variable disk : jsstring -> option jsstring.

(** The scheduler and its manager are new: the written-set and the prompt
    cache are empty. *)
Definition generateKnowledgeBase (config : PartialConfig)
    (scripts : list SDKHelper.Script) (w : World)
    : (unit + JsError) * list SDKHelper.TraceEvent * World :=
  let '(r, tr, w1) :=
    executeKnowledgeGeneration extractStructuredData now dumpIndex
      (fun c => (Prompts.buildUnifiedPrompt disk c Prompts.newStore).1)
      (fullConfig config) scripts (set_realtimeWrittenTasks [] w) in
  match r with
  | inr e => (inr e, tr, w1)
  | inl generated =>
      match k_status generated with
      | status_success => (inl tt, tr, w1)
      | status_partial => (inl tt, tr, w1)
      | status_error =>
          (inr (Error (msg_generation_failed ++ statusText (k_status generated))), tr, w1)
      end
  end.

End Run.

End EntryPoint.

(** *** retry of the utilities *)

Module Utils.

Import Text.

Definition msg_all_attempts_open : jsstring := [25152; 26377]%N ++ str " ".
Definition msg_all_attempts_close : jsstring := str " " ++ [27425; 23581; 35797; 37117; 22833; 36133; 20102; 12290; 26368; 21518; 38169; 35823]%N ++ str ": ".
Definition msg_unknown_error : jsstring := [26410; 30693; 38169; 35823]%N.
#[global] Arguments msg_all_attempts_open : simpl never.
#[global] Arguments msg_all_attempts_close : simpl never.
#[global] Arguments msg_unknown_error : simpl never.

(** [lastError?.message || '未知错误'] *)
Definition lastMessage (lastError : option JsError) : jsstring :=
  match lastError with
  | Some e => if truthy (err_message e) then err_message e else msg_unknown_error
  | None => msg_unknown_error
  end.

(** What a run of [retry] did: how often it called [fn] and the delays it
    waited for, in order. *)
Record Effort : Type := {
  calls : nat;
  waits : list Z
}.

Section Retry.

Context {T : Type}.

(** [fn], by the number of calls made before: what the call returns or
    throws. *)
Variable fn : nat -> T + JsError.

(** The loop from [attempt] on, with [remaining] rounds to go. *)
Fixpoint attemptsFrom (remaining : nat) (attempt maxRetries delayMs : Z)
    (lastError : option JsError) (done : Effort) : (T + JsError) * Effort :=
  match remaining with
  | O =>
      (inr (Error (msg_all_attempts_open ++ numberToString maxRetries
                   ++ msg_all_attempts_close ++ lastMessage lastError)), done)
  | S remaining' =>
      let called := {| calls := S (calls done); waits := waits done |} in
      match fn (calls done) with
      | inl v => (inl v, called)
      | inr error =>
          let waited :=
            if (attempt <? maxRetries)%Z
            then {| calls := calls called; waits := waits called ++ [delayMs * attempt]%Z |}
            else called in
          attemptsFrom remaining' (attempt + 1)%Z maxRetries delayMs (Some error) waited
      end
  end.

(** [retry(fn, maxRetries, delayMs)] for integer arguments; [None] is an
    argument left out. *)
Definition retry (maxRetries delayMs : option Z) : (T + JsError) * Effort :=
  let maxRetries := default 3%Z maxRetries in
  let delayMs := default 1000%Z delayMs in
  attemptsFrom (Z.to_nat maxRetries) 1%Z maxRetries delayMs None
               {| calls := 0; waits := [] |}.

End Retry.

End Utils.

(** *** Concrete inputs of the further properties *)

Module Scenarios.

Import Inputs.

(** A prompts directory in which every file holds the same short text, and
    one without any file. *)
Definition everyFile (_ : jsstring) : option jsstring :=
  Some (str "Repository {{REPO_PATH}}: {{TASK_LIST}}").

Definition noFile (_ : jsstring) : option jsstring := None.

(** A yaml parser that rejects every text and a json parser that accepts
    every text as an empty object. *)
Definition yamlRejects (_ : jsstring) : Validation.Value + JsError :=
  inr (Error (str "bad indentation")).

Definition jsonAccepts (_ : jsstring) : Validation.Value + JsError :=
  inl (Validation.VObject []).

(** Two instants one millisecond apart. *)
Definition newYear : Timestamp.Date :=
  {| Timestamp.getFullYear := 2025; Timestamp.getMonth := 0; Timestamp.getDate := 1;
     Timestamp.getHours := 0; Timestamp.getMinutes := 0; Timestamp.getSeconds := 0;
     Timestamp.getMilliseconds := 0 |}.

Definition justAfter : Timestamp.Date :=
  {| Timestamp.getFullYear := 2025; Timestamp.getMonth := 0; Timestamp.getDate := 1;
     Timestamp.getHours := 0; Timestamp.getMinutes := 0; Timestamp.getSeconds := 0;
     Timestamp.getMilliseconds := 1 |}.

(** The argument of [generateKnowledgeBase] with the repository path
    alone. *)
Definition pathOnly : EntryPoint.PartialConfig :=
  {| EntryPoint.p_repoPath := str "/work/demo"; EntryPoint.p_outputPath := None;
     EntryPoint.p_depth := None; EntryPoint.p_includeTests := None;
     EntryPoint.p_includeDocs := None |}.

(** A function that fails twice and then returns 7, and one that always
    fails. *)
Definition thirdTime (made : nat) : Z + JsError :=
  if (made <? 2)%nat then inr (Error (str "busy")) else inl 7%Z.

Definition never (_ : nat) : Z + JsError := inr (Error (str "busy")).

(** What follows an end marker of [overview] that comes first: the start
    marker and 140 characters. *)
Definition afterEnd : jsstring :=
  [10]%N ++ startMarker overviewTask ++ [10]%N ++ chars 140.

End Scenarios.

(* ===================================================================== *)
(** ** Paths                                                               *)
(* ===================================================================== *)

Lemma segments_nonempty (s : jsstring) : segments s <> [].
Proof.
  induction s as [|c s IH]; [done|]. cbn [segments].
  destruct (isSeparator c); [done|]. by destruct (segments s).
Qed.

Lemma segments_app (a r : jsstring) :
  segments (a ++ str "/" ++ r) = segments a ++ segments r.
Proof.
  induction a as [|c a IH]; [done|].
  cbn [app segments]. rewrite IH.
  destruct (isSeparator c); [done|].
  pose proof (segments_nonempty a). by destruct (segments a).
Qed.

Lemma joinWith_cons (part : jsstring) (rest : list jsstring) :
  rest <> [] -> joinWith (part :: rest) = part ++ str "/" ++ joinWith rest.
Proof. by destruct rest. Qed.

Lemma joinWith_segments (s : jsstring) : joinWith (segments s) = s.
Proof.
  induction s as [|c s IH]; [done|]. cbn [segments].
  pose proof (segments_nonempty s) as Hne.
  destruct (isSeparator c) eqn:Hc.
  - rewrite joinWith_cons by done. rewrite IH.
    apply N.eqb_eq in Hc. by subst c.
  - destruct (segments s) as [|segment rest]; [done|].
    destruct rest as [|next rest].
    + cbn [joinWith] in *. by rewrite IH.
    + rewrite joinWith_cons in IH by done. rewrite joinWith_cons by done.
      by rewrite <- IH.
Qed.

Lemma joinWith_app (l k : list jsstring) :
  l <> [] -> k <> [] -> joinWith (l ++ k) = joinWith l ++ str "/" ++ joinWith k.
Proof.
  intros Hl Hk. induction l as [|x l IH]; [done|].
  destruct l as [|y l].
  - cbn [app]. by rewrite joinWith_cons.
  - cbn [app] in *. rewrite joinWith_cons by done. rewrite IH by done.
    rewrite (joinWith_cons x (y :: l)) by done. by rewrite <- !app_assoc.
Qed.

(** Segments that normalisation keeps as they are. *)
Lemma keepSegment_plain (allowAboveRoot : bool) (kept segs : list jsstring) :
  Forall (fun segment => segment <> [] /\ segment <> str "." /\ segment <> str "..") segs ->
  foldl (keepSegment allowAboveRoot) kept segs = rev segs ++ kept.
Proof.
  revert kept. induction segs as [|segment segs IH]; intros kept H; [done|].
  apply Forall_cons in H as [(H1 & H2 & H3) H].
  cbn [foldl rev]. unfold keepSegment at 2.
  rewrite !bool_decide_eq_false_2 by done. cbn [orb].
  rewrite IH by done. by rewrite <- app_assoc.
Qed.

Lemma normalize_under (a t : jsstring) :
  Forall (fun segment => segment <> [] /\ segment <> str "." /\ segment <> str "..")
    (segments t) ->
  (exists c, last t = Some c /\ isSeparator c = false) ->
  normalize (match a with [] => t | _ => a ++ str "/" ++ t end) = joinedUnder a ++ t.
Proof.
  intros Hplain (c & Hlast & Hc).
  assert (Hsegs : segments t <> []) by apply segments_nonempty.
  assert (Ht : t <> []) by (intros ->; discriminate Hlast).
  destruct a as [|first a'].
  - destruct t as [|x t'] eqn:Et; [done|]. rewrite <- Et in *.
    unfold normalize. rewrite Et at 1. rewrite Hlast, Hc.
    assert (Hx : isSeparator x = false).
    { rewrite Et in Hplain. cbn [segments] in Hplain.
      destruct (isSeparator x); [|done]. by apply Forall_cons in Hplain as [[? _] _]. }
    rewrite Hx. cbn [negb]. rewrite keepSegment_plain by done.
    rewrite app_nil_r, rev_involutive.
    destruct (segments t) as [|s0 rest] eqn:Es; [done|]. rewrite <- Es.
    rewrite joinWith_segments. cbn [joinedUnder]. by rewrite app_nil_r.
  - set (path := (first :: a') ++ str "/" ++ t).
    assert (Hl : last path = Some c).
    { unfold path. rewrite !last_app. rewrite Hlast. done. }
    unfold normalize. change path with (first :: (a' ++ str "/" ++ t)) at 1.
    rewrite Hl, Hc. unfold path. rewrite segments_app, foldl_app.
    rewrite keepSegment_plain by done. rewrite rev_app_distr, rev_involutive.
    unfold joinedUnder.
    destruct (rev (foldl (keepSegment (negb (isSeparator first))) [] (segments (first :: a'))))
      as [|k kept] eqn:Ek.
    + rewrite app_nil_l. destruct (segments t) as [|s0 rest] eqn:Es; [done|]. rewrite <- Es.
      rewrite joinWith_segments. by rewrite !app_nil_r.
    + change ((k :: kept) ++ segments t) with (k :: (kept ++ segments t)). cbv iota.
      change (k :: (kept ++ segments t)) with ((k :: kept) ++ segments t).
      rewrite joinWith_app by done. rewrite joinWith_segments.
      rewrite app_nil_r. by rewrite <- !app_assoc.
Qed.

(** The five paths of a session: each is the output path, normalised,
    with [.repomind] and the name of the file after it. *)
Lemma path_join_repomind (a file : jsstring) :
  file ∈ str "knowledge.yaml" :: map outputFile ANALYSIS_TASKS ->
  path_join a (str ".repomind") file
  = joinedUnder a ++ str ".repomind" ++ str "/" ++ file.
Proof.
  intros Hfile.
  assert (Hjoin : path_join a (str ".repomind") file
                  = normalize (match a with
                               | [] => str ".repomind" ++ str "/" ++ file
                               | _ => a ++ str "/" ++ str ".repomind" ++ str "/" ++ file
                               end)).
  { unfold path_join. cbn [List.filter].
    replace (truthy (str ".repomind")) with true by done.
    replace (truthy file) with true.
    - destruct a as [|first a']; cbn [truthy]; [|done].
      cbn [joinWith]. done.
    - unfold ANALYSIS_TASKS in Hfile. cbn [map outputFile] in Hfile.
      rewrite !elem_of_cons, elem_of_nil in Hfile.
      destruct Hfile as [->|[->|[->|[->|[->|[]]]]]]; done. }
  rewrite Hjoin. apply normalize_under.
  - unfold ANALYSIS_TASKS in Hfile. cbn [map outputFile] in Hfile.
    rewrite !elem_of_cons, elem_of_nil in Hfile.
    destruct Hfile as [->|[->|[->|[->|[->|[]]]]]];
      vm_compute; repeat (constructor; [repeat split; discriminate|]); constructor.
  - unfold ANALYSIS_TASKS in Hfile. cbn [map outputFile] in Hfile.
    rewrite !elem_of_cons, elem_of_nil in Hfile.
    destruct Hfile as [->|[->|[->|[->|[->|[]]]]]];
      eexists; (split; [vm_compute; reflexivity|reflexivity]).
Qed.

Lemma declared_file_of_task (task : AnalysisTask) :
  task ∈ ANALYSIS_TASKS ->
  outputFile task ∈ str "knowledge.yaml" :: map outputFile ANALYSIS_TASKS.
Proof. intros H. right. by apply list_elem_of_fmap_2. Qed.

(** [path.join] and [path.basename] at paths with separators at the end
    or doubled, at the empty path and at a path with dots. *)
Lemma path_examples :
  path_join (str "/work/demo/") (str ".repomind") (str "docs/overview.md")
    = str "/work/demo/.repomind/docs/overview.md"
  /\ path_join (str "/work//demo") (str ".repomind") (str "knowledge.yaml")
     = str "/work/demo/.repomind/knowledge.yaml"
  /\ path_join [] (str ".repomind") (str "knowledge.yaml") = str ".repomind/knowledge.yaml"
  /\ path_join (str "../x/./y/..") (str ".repomind") (str "knowledge.yaml")
     = str "../x/.repomind/knowledge.yaml"
  /\ basename (str "/work/demo//") = str "demo"
  /\ basename (str "/work/demo") = str "demo"
  /\ basename (str "/") = [].
Proof. vm_compute. repeat split. Qed.

(* ===================================================================== *)
(** ** The loop of runQuery                                                *)
(* ===================================================================== *)

Section RunQueryFacts.

Context {L : Type} (onContentUpdate : jsstring -> L -> L).

Lemma onStreamEvent_partial (event : Event) (q : QueryState) (cb : L) :
  partialContent (onStreamEvent onContentUpdate event q cb).1 =
    partialContent q ++ buffered [stream_event event].
Proof.
  destruct event as [[[| |]|]| |[t|]| |]; simpl; rewrite ?app_nil_r; reflexivity.
Qed.

Lemma onStreamEvent_inv (event : Event) (q : QueryState) (cb : L) :
  lastValidInv q -> lastValidInv (onStreamEvent onContentUpdate event q cb).1.
Proof.
  unfold lastValidInv.
  destruct event as [[[| |]|]| |[t|]| |]; simpl; try done.
  intros Hq. rewrite Hq.
  destruct (200 <? length (partialContent q ++ t))%nat eqn:Hnew; [done|].
  destruct (200 <? length (partialContent q))%nat eqn:Hold; [|done].
  apply Nat.ltb_lt in Hold. apply Nat.ltb_ge in Hnew.
  rewrite length_app in Hnew. lia.
Qed.

(** What the loop computes: the buffer grows by the deltas before the first
    result message, and that message, if any, decides the flow. *)
Lemma consume_spec (options : QueryOptions) (msgs : list Message)
    (q : QueryState) (cb : L) :
  lastValidInv q ->
  let '(flow, q', _) := consume onContentUpdate options msgs q cb in
  lastValidInv q'
  /\ partialContent q' = partialContent q ++ buffered msgs
  /\ flow = match firstResult msgs with
            | Some (subtype, result_text) => onResult options subtype result_text q'
            | None => Next
            end.
Proof.
  revert q cb. induction msgs as [|m msgs IH]; intros q cb Hq.
  - simpl. by rewrite app_nil_r.
  - destruct m as [event|subtype result_text|].
    + cbn [consume].
      pose proof (onStreamEvent_partial event q cb) as Hp.
      pose proof (onStreamEvent_inv event q cb Hq) as Hi.
      destruct (onStreamEvent onContentUpdate event q cb) as [q1 cb1]. simpl in Hp, Hi.
      specialize (IH q1 cb1 Hi).
      destruct (consume onContentUpdate options msgs q1 cb1) as [[flow q'] cb'].
      destruct IH as (Hi' & Hp' & Hf). split; [done|]. split.
      * rewrite Hp', Hp. rewrite <- app_assoc. f_equal.
        destruct event as [[[| |]|]| |[t|]| |]; simpl; rewrite ?app_nil_r; reflexivity.
      * rewrite Hf. by destruct event.
    + simpl. by rewrite app_nil_r.
    + cbn [consume]. specialize (IH q cb Hq).
      destruct (consume onContentUpdate options msgs q cb) as [[flow q'] cb']. done.
Qed.

Lemma truthy_long (s : jsstring) (n : nat) : (n < length s)%nat -> truthy s = true.
Proof. destruct s; simpl; [lia|done]. Qed.

Lemma eqs_true (a b : jsstring) : eqs a b = true <-> a = b.
Proof. unfold eqs. apply bool_decide_eq_true. Qed.

(** C3, as amended. When a call ends with more than 200 characters
    buffered and partial messages enabled, [runQuery] returns the buffered
    text with the annotation of the outcome appended, for every terminal
    outcome but three: success, a turn limit on a query that is not a
    fallback query, and an exception that is not an [AbortError]. *)
Theorem runQuery_salvage (script : Script) (options : QueryOptions) (cb : L) :
  (200 < length (buffered (messages script)))%nat ->
  includePartialMessages options = true ->
  salvageable options (terminal script) = true ->
  (runQuery onContentUpdate script options cb).1 =
    inl (buffered (messages script) ++ annotation (terminal script)).
Proof.
  intros Hlen Hpart Hsalv. unfold runQuery.
  assert (Hq0 : lastValidInv initialQueryState) by done.
  pose proof (consume_spec options (messages script) initialQueryState cb Hq0) as Hc.
  destruct (consume onContentUpdate options (messages script) initialQueryState cb)
    as [[flow q] cb'].
  destruct Hc as (Hinv & Hpc & Hflow). simpl in Hpc.
  assert (Hlv : lastValidContent q = buffered (messages script)).
  { rewrite Hinv, Hpc. apply Nat.ltb_lt in Hlen. by rewrite Hlen. }
  assert (Ht : truthy (lastValidContent q) = true).
  { rewrite Hlv. by eapply truthy_long. }
  unfold terminal in *. subst flow.
  destruct (firstResult (messages script)) as [[subtype result_text]|].
  - simpl in Hsalv. apply andb_true_iff in Hsalv as [Hns Hmt].
    apply negb_true_iff in Hns.
    unfold onResult, annotation. rewrite Hns, Ht, Hpart, Hlv.
    destruct (eqs subtype (str "error_max_turns")) eqn:E1.
    { simpl in Hmt. rewrite Hmt. done. }
    destruct (eqs subtype (str "error_during_execution")) eqn:E2; [done|].
    destruct (eqs subtype (str "cancelled")) eqn:E3; done.
  - destruct (thrown script) as [e|]; simpl in Hsalv |- *.
    + rewrite Hsalv, Ht, Hpart, Hlv. done.
    + rewrite Ht, Hpart, Hlv. done.
Qed.

(** Below the threshold nothing is kept: any terminal outcome other than
    success ends in an exception. *)
Lemma runQuery_short_throws (script : Script) (options : QueryOptions) (cb : L) :
  (length (buffered (messages script)) <= 200)%nat ->
  (forall t, terminal script <> EndResult (str "success") t) ->
  exists e, (runQuery onContentUpdate script options cb).1 = inr e.
Proof.
  intros Hlen Hns. unfold runQuery.
  assert (Hq0 : lastValidInv initialQueryState) by done.
  pose proof (consume_spec options (messages script) initialQueryState cb Hq0) as Hc.
  destruct (consume onContentUpdate options (messages script) initialQueryState cb)
    as [[flow q] cb'].
  destruct Hc as (Hinv & Hpc & Hflow). simpl in Hpc.
  assert (Hlv : lastValidContent q = []).
  { rewrite Hinv, Hpc. apply Nat.ltb_ge in Hlen. by rewrite Hlen. }
  unfold terminal in *. subst flow.
  destruct (firstResult (messages script)) as [[subtype result_text]|].
  - unfold onResult. rewrite Hlv. simpl. rewrite !andb_false_r.
    destruct (eqs subtype (str "success")) eqn:E0.
    { apply eqs_true in E0. subst. by destruct (Hns result_text). }
    destruct (eqs subtype (str "error_max_turns")); [eauto|].
    destruct (eqs subtype (str "error_during_execution")); [eauto|].
    destruct (eqs subtype (str "cancelled")); eauto.
  - destruct (thrown script) as [e|]; simpl; rewrite Hlv; simpl;
      rewrite ?andb_false_r; eauto.
Qed.

(** A turn limit on a query that is not a fallback query always throws,
    whatever was buffered. *)
Lemma runQuery_turn_limit_throws (script : Script) (options : QueryOptions) (cb : L)
    (result_text : jsstring) :
  terminal script = EndResult (str "error_max_turns") result_text ->
  isFallbackQuery options = false ->
  (runQuery onContentUpdate script options cb).1 = inr (Error msg_max_turns).
Proof.
  intros Hterm Hfb. unfold runQuery.
  assert (Hq0 : lastValidInv initialQueryState) by done.
  pose proof (consume_spec options (messages script) initialQueryState cb Hq0) as Hc.
  destruct (consume onContentUpdate options (messages script) initialQueryState cb)
    as [[flow q] cb'].
  destruct Hc as (Hinv & Hpc & Hflow).
  unfold terminal in Hterm. subst flow.
  destruct (firstResult (messages script)) as [[subtype rt]|].
  - inversion Hterm; subst. unfold onResult. rewrite Hfb. simpl. done.
  - by destruct (thrown script).
Qed.

End RunQueryFacts.

(* ===================================================================== *)
(** ** The retry ladder of executeAnalysis                                 *)
(* ===================================================================== *)

Section LadderFacts.

Context {L : Type} (onContentUpdate : jsstring -> L -> L).

Lemma call_trace kind prompt options config (eng : Engine L) :
  trace (call onContentUpdate kind prompt options config eng).2 =
    trace eng
    ++ [Queried kind prompt options config
          (call onContentUpdate kind prompt options config eng).1].
Proof.
  unfold call.
  destruct (runQuery onContentUpdate _ options (listener eng)) as [outcome cb']. done.
Qed.

(** The salvage call adds one event; a value is returned only when that
    event passes the content test. *)
Lemma salvage_spec prompt systemPrompt mergedConfig (eng : Engine L) :
  exists outcome,
    trace (salvage onContentUpdate prompt systemPrompt mergedConfig eng).2 =
      trace eng
      ++ [Queried SalvageQuery prompt
            (queryOptions systemPrompt (partialConfig mergedConfig) true)
            (partialConfig mergedConfig) outcome]
    /\ (is_Some (salvage onContentUpdate prompt systemPrompt mergedConfig eng).1 ->
        enough (Queried SalvageQuery prompt
                  (queryOptions systemPrompt (partialConfig mergedConfig) true)
                  (partialConfig mergedConfig) outcome) = true).
Proof.
  unfold salvage, performPartialQuery.
  pose proof (call_trace SalvageQuery prompt
                (queryOptions systemPrompt (partialConfig mergedConfig) true)
                (partialConfig mergedConfig) eng) as Ht.
  destruct (call onContentUpdate SalvageQuery prompt _ _ eng) as [r eng']. simpl in Ht.
  exists r. destruct r as [partialResult|e]; simpl.
  - destruct (truthy partialResult && (50 <? length partialResult)%nat) eqn:E; simpl.
    + split; [done|]. intros _. by apply andb_true_iff in E as [_ ?].
    + split; [done|]. by intros [? ?].
  - split; [done|]. by intros [? ?].
Qed.

(** The degradation block: exactly one degraded call, with the simplified
    prompt and the simplified configuration, then at most the salvage
    call. *)
Lemma degrade_spec prompt systemPrompt mergedConfig errorMessage (eng : Engine L) :
  let dc := simplifiedConfig mergedConfig errorMessage in
  exists outcome rest,
    trace (degrade onContentUpdate prompt systemPrompt mergedConfig errorMessage eng).2 =
      trace eng
      ++ Queried DegradedQuery (createSimplifiedPrompt prompt)
           (queryOptions systemPrompt dc false) dc outcome :: rest
    /\ Forall (fun ev => isNormal ev = false /\ isDegraded ev = false) rest
    /\ (is_Some (degrade onContentUpdate prompt systemPrompt mergedConfig errorMessage eng).1 ->
        Exists (fun ev => enough ev = true)
          (Queried DegradedQuery (createSimplifiedPrompt prompt)
             (queryOptions systemPrompt dc false) dc outcome :: rest)).
Proof.
  intros dc. unfold degrade, performQuery. fold dc.
  pose proof (call_trace DegradedQuery (createSimplifiedPrompt prompt)
                (queryOptions systemPrompt dc false) dc eng) as Ht.
  destruct (call onContentUpdate DegradedQuery _ _ dc eng) as [r eng1]. simpl in Ht.
  exists r. destruct r as [fallbackResult|e].
  - exists []. destruct (truthy fallbackResult && (50 <? length fallbackResult)%nat) eqn:E;
      simpl; (split; [done|]); (split; [done|]).
    + intros _. apply Exists_cons_hd. simpl. by apply andb_true_iff in E as [_ ?].
    + by intros [? ?].
  - destruct (m_enablePartialResults mergedConfig).
    + destruct (salvage_spec prompt systemPrompt mergedConfig eng1) as (o & Hs & He).
      eexists. split; [|split].
      * rewrite Hs, Ht. rewrite <- app_assoc. reflexivity.
      * by repeat constructor.
      * intros H. apply Exists_cons_tl, Exists_cons_hd. by apply He.
    + exists []. simpl. split; [done|]. split; [done|]. by intros [? ?].
Qed.

End LadderFacts.

Section AttemptsFacts.

Context {L : Type} (onContentUpdate : jsstring -> L -> L).

Lemma lastError_app (a b : list TraceEvent) :
  lastError (a ++ b) =
    match lastError b with Some m => Some m | None => lastError a end.
Proof.
  induction a as [|ev a IH]; simpl.
  - by destruct (lastError b).
  - rewrite IH. by destruct (lastError b).
Qed.

Lemma lastError_no_normal (tr : list TraceEvent) :
  Forall (fun ev => isNormal ev = false /\ isDegraded ev = false) tr ->
  lastError tr = None /\ filter (fun ev => isNormal ev) tr = [].
Proof.
  induction 1 as [|ev tr [Hn _] _ [IH1 IH2]]; [done|].
  simpl. rewrite IH1. rewrite filter_cons, IH2.
  destruct ev as [[| |] ? ? ? ?|]; simpl in *; try done.
Qed.

Lemma not_enough_exists (tr : list TraceEvent) :
  Forall (fun ev => enough ev = false) tr ->
  Exists (fun ev => enough ev = true) tr -> False.
Proof. induction 1; inversion 1; subst; [congruence|auto]. Qed.

(** The normal attempt passes its test exactly when its trace event is
    enough. *)
Lemma normal_enough prompt options config (r : jsstring + JsError) :
  enough (Queried NormalQuery prompt options config r) =
    match r with
    | inl result_text => truthy result_text && (100 <? length result_text)%nat
    | inr _ => false
    end.
Proof.
  destruct r as [s|]; [|done]. simpl.
  destruct (100 <? length s)%nat eqn:E; [|by rewrite andb_false_r].
  apply Nat.ltb_lt in E. by rewrite (truthy_long s 100).
Qed.

(** One iteration of the loop, as the trace shows it. [new] is what the
    whole loop adds to the trace. When no call of [new] passes its content
    test, the loop throws after [remaining] normal attempts, with the
    message of the last one. *)
Lemma attempts_exhausted prompt systemPrompt mergedConfig :
  forall (remaining attempt : nat) (eng : Engine L),
    (1 <= remaining)%nat ->
    (attempt + remaining = S (m_retryAttempts mergedConfig))%nat ->
    exists new,
      trace (attempts onContentUpdate prompt systemPrompt mergedConfig
               remaining attempt eng).2 = trace eng ++ new
      /\ (Forall (fun ev => enough ev = false) new ->
          exists msg,
            (attempts onContentUpdate prompt systemPrompt mergedConfig
               remaining attempt eng).1 = inr (Error (msg_analysis_failed ++ msg))
            /\ lastError new = Some msg
            /\ length (filter (fun ev => isNormal ev) new) = remaining).
Proof.
  induction remaining as [|remaining IH]; intros attempt eng Hrem Hsum; [lia|].
  destruct (attempts onContentUpdate prompt systemPrompt mergedConfig
              (S remaining) attempt eng) as [res eng'] eqn:Hrun.
  cbn [attempts] in Hrun. unfold performQuery in Hrun.
  pose proof (call_trace onContentUpdate NormalQuery prompt
                (queryOptions systemPrompt mergedConfig false) mergedConfig eng) as Ht.
  destruct (call onContentUpdate NormalQuery prompt _ mergedConfig eng) as [r eng1].
  cbn [fst snd] in Ht |- *.
  set (ev0 := Queried NormalQuery prompt (queryOptions systemPrompt mergedConfig false)
                mergedConfig r) in *.
  pose proof (normal_enough prompt (queryOptions systemPrompt mergedConfig false)
                mergedConfig r) as Hen. fold ev0 in Hen.
  set (tried := match r with
                | inl result_text =>
                    if truthy result_text && (100 <? length result_text)%nat
                    then inl result_text else inr (Error msg_insufficient)
                | inr err => inr err
                end) in Hrun.
  assert (Htried : (enough ev0 = true /\ exists v, tried = inl v)
                   \/ (enough ev0 = false
                       /\ exists e, tried = inr e /\ err_message e = errorOf r)).
  { subst tried. rewrite Hen. destruct r as [s|e]; cbn [errorOf].
    - destruct (truthy s && (100 <? length s)%nat); [left|right]; eauto.
    - right; eauto. }
  clearbody tried.
  destruct Htried as [[He [v ->]]|[He [e [-> Hmsg]]]].
  { inversion Hrun; subst. exists [ev0]. split; [done|].
    intros HF. inversion HF; congruence. }
  rewrite Hmsg in Hrun.
  set (deg := if isLimitError (errorOf r) && m_fallbackToSimplerPrompt mergedConfig
                 && (1 <=? attempt)%nat
              then degrade onContentUpdate prompt systemPrompt mergedConfig (errorOf r) eng1
              else (None, eng1)) in Hrun.
  assert (Hdeg : exists mid,
             trace deg.2 = trace eng1 ++ mid
             /\ Forall (fun ev => isNormal ev = false) mid
             /\ (is_Some deg.1 -> Exists (fun ev => enough ev = true) mid)).
  { subst deg. destruct (_ && _ && _).
    - destruct (degrade_spec onContentUpdate prompt systemPrompt mergedConfig
                  (errorOf r) eng1) as (o & rest & H1 & H2 & H3).
      eexists. split; [exact H1|]. split; [|exact H3].
      constructor; [done|]. eapply Forall_impl; [exact H2|]. by intros ? [? _].
    - exists []. cbn [fst snd]. rewrite app_nil_r. split; [done|]. split; [done|].
      by intros [? ?]. }
  clearbody deg.
  destruct deg as [returned eng2]. destruct Hdeg as (mid & Hmid & Hnn & Hsome).
  cbn [fst snd] in Hmid, Hsome.
  assert (Hmid_last : lastError mid = None /\ filter (fun ev => isNormal ev) mid = []).
  { clear -Hnn. induction Hnn as [|ev tr Hn _ [IH1 IH2]]; [done|].
    cbn [lastError]. rewrite IH1, filter_cons, IH2.
    destruct ev as [[| |] ? ? ? ?|]; cbn in *; done. }
  destruct Hmid_last as [Hml Hmf].
  destruct returned as [value|].
  { inversion Hrun; subst. exists (ev0 :: mid). split.
    - rewrite Hmid, Ht. by rewrite <- app_assoc.
    - intros HF. inversion HF as [|? ? _ HF']; subst.
      exfalso. eapply not_enough_exists; [exact HF'|]. apply Hsome. eauto. }
  destruct (attempt =? m_retryAttempts mergedConfig)%nat eqn:Hlast.
  { apply Nat.eqb_eq in Hlast. inversion Hrun; subst res eng'.
    exists (ev0 :: mid). split.
    - rewrite Hmid, Ht. by rewrite <- app_assoc.
    - intros _. eexists. split; [reflexivity|]. split.
      + cbn [lastError]. rewrite Hml. reflexivity.
      + rewrite filter_cons. cbn [isNormal ev0]. rewrite decide_True by done.
        rewrite Hmf. cbn [length]. lia. }
  apply Nat.eqb_neq in Hlast.
  set (eng3 := {| pending := pending eng2;
                  trace := trace eng2
                           ++ [Delayed (m_retryDelay mergedConfig
                                        * inject_Z (Z.of_nat attempt))];
                  listener := listener eng2 |}) in Hrun.
  destruct (IH (S attempt) eng3) as (new & Hnew & Hres); [lia|lia|].
  rewrite Hrun in Hnew, Hres. cbn [fst snd] in Hnew, Hres.
  exists (ev0 :: mid ++ Delayed (m_retryDelay mergedConfig * inject_Z (Z.of_nat attempt))
            :: new).
  split.
  - rewrite Hnew. subst eng3. cbn [trace]. rewrite Hmid, Ht.
    rewrite <- !app_assoc. reflexivity.
  - intros HF. inversion HF as [|? ? _ HF']; subst.
    apply Forall_app in HF' as [_ HF']. inversion HF' as [|? ? _ HF'']; subst.
    destruct (Hres HF'') as (msg & Hr & Hle & Hcount).
    exists msg. split; [done|]. split.
    + change (ev0 :: mid ++ ?d :: new) with ([ev0] ++ mid ++ [d] ++ new).
      rewrite !lastError_app, Hle. done.
    + rewrite filter_cons. cbn [isNormal ev0]. rewrite decide_True by done.
      rewrite filter_app, Hmf, filter_cons. cbn [isNormal].
      rewrite decide_False by (cbn; tauto). cbn [app length]. rewrite Hcount. done.
Qed.

End AttemptsFacts.

Section LadderClaims.

Context {L : Type} (onContentUpdate : jsstring -> L -> L).

(** The loop only ever adds to the trace. *)
Lemma attempts_extends prompt systemPrompt mergedConfig :
  forall (remaining attempt : nat) (eng : Engine L),
    exists new,
      trace (attempts onContentUpdate prompt systemPrompt mergedConfig
               remaining attempt eng).2 = trace eng ++ new.
Proof.
  induction remaining as [|remaining IH]; intros attempt eng.
  { exists []. cbn. by rewrite app_nil_r. }
  cbn [attempts]. unfold performQuery.
  pose proof (call_trace onContentUpdate NormalQuery prompt
                (queryOptions systemPrompt mergedConfig false) mergedConfig eng) as Ht.
  destruct (call onContentUpdate NormalQuery prompt _ mergedConfig eng) as [r eng1].
  cbn [fst snd] in Ht.
  match goal with |- context [match ?t with inl _ => _ | inr _ => _ end] =>
    destruct t as [v|e] end.
  { eexists. cbn [snd]. exact Ht. }
  match goal with |- context [let '(_, _) := ?d in _] =>
    assert (Hd : exists mid, trace d.2 = trace eng1 ++ mid);
    [|destruct d as [returned eng2]] end.
  { destruct (_ && _ && _).
    - destruct (degrade_spec onContentUpdate prompt systemPrompt mergedConfig
                  (err_message e) eng1) as (o & rest & H1 & _). eauto.
    - exists []. cbn. by rewrite app_nil_r. }
  destruct Hd as [mid Hmid]. cbn [snd] in Hmid.
  destruct returned as [value|].
  { eexists. cbn [snd]. rewrite Hmid, Ht, <- app_assoc. reflexivity. }
  destruct (attempt =? m_retryAttempts mergedConfig)%nat.
  { eexists. cbn [snd]. rewrite Hmid, Ht, <- app_assoc. reflexivity. }
  match goal with |- context [attempts _ _ _ _ _ _ ?e3] =>
    destruct (IH (S attempt) e3) as [new Hnew] end.
  eexists. rewrite Hnew. cbn [trace]. rewrite Hmid, Ht, <- !app_assoc. reflexivity.
Qed.

(** The degradation block, call by call: the degraded call, and after it
    the salvage call exactly when the degraded call threw and partial
    results are enabled. *)
Lemma degrade_calls prompt systemPrompt mergedConfig errorMessage (eng : Engine L) :
  let dc := simplifiedConfig mergedConfig errorMessage in
  exists outcome rest,
    trace (degrade onContentUpdate prompt systemPrompt mergedConfig errorMessage eng).2 =
      trace eng
      ++ Queried DegradedQuery (createSimplifiedPrompt prompt)
           (queryOptions systemPrompt dc false) dc outcome :: rest
    /\ match outcome with
       | inl _ => rest = []
       | inr _ =>
           if m_enablePartialResults mergedConfig
           then exists salvaged,
                  rest = [Queried SalvageQuery prompt
                            (queryOptions systemPrompt (partialConfig mergedConfig) true)
                            (partialConfig mergedConfig) salvaged]
           else rest = []
       end.
Proof.
  intros dc. unfold degrade, performQuery. fold dc.
  pose proof (call_trace onContentUpdate DegradedQuery (createSimplifiedPrompt prompt)
                (queryOptions systemPrompt dc false) dc eng) as Ht.
  destruct (call onContentUpdate DegradedQuery _ _ dc eng) as [r eng1]. simpl in Ht.
  exists r. destruct r as [fallbackResult|e].
  - exists []. by destruct (truthy fallbackResult && (50 <? length fallbackResult)%nat).
  - destruct (m_enablePartialResults mergedConfig).
    + destruct (salvage_spec onContentUpdate prompt systemPrompt mergedConfig eng1)
        as (o & Hs & _).
      eexists. split; [|by exists o].
      rewrite Hs, Ht. rewrite <- app_assoc. reflexivity.
    + exists []. by simpl.
Qed.

(** C6, as amended. A normal attempt that fails with a limit-class message
    is followed at once, whatever the attempt number, by one degraded call:
    simplified prompt, no turn limit in the query options, one attempt,
    degradation off, and a timeout that is [min (1.5 * timeout) 900000]
    for a timeout or abort message and the unchanged timeout for a turn
    limit. The degraded call is followed by one salvage call, with the
    prompt of the caller, when it threw and partial results are enabled,
    and by no call otherwise; then the run ends or waits for the next
    attempt: there is no second degraded call for this attempt. *)
Theorem limit_failure_degrades_at_once prompt systemPrompt mergedConfig
    (n attempt : nat) (eng : Engine L) :
  let first := performQuery onContentUpdate NormalQuery prompt systemPrompt mergedConfig eng in
  let errorMessage := errorOf first.1 in
  let dc := simplifiedConfig mergedConfig errorMessage in
  enough (Queried NormalQuery prompt (queryOptions systemPrompt mergedConfig false)
            mergedConfig first.1) = false ->
  isLimitError errorMessage = true ->
  m_fallbackToSimplerPrompt mergedConfig = true ->
  (1 <= attempt)%nat ->
  exists outcome mid tl,
    trace (attempts onContentUpdate prompt systemPrompt mergedConfig
             (S n) attempt eng).2 =
      trace first.2
      ++ Queried DegradedQuery (createSimplifiedPrompt prompt)
           (queryOptions systemPrompt dc false) dc outcome :: mid ++ tl
    /\ match outcome with
       | inl _ => mid = []
       | inr _ =>
           if m_enablePartialResults mergedConfig
           then exists salvaged,
                  mid = [Queried SalvageQuery prompt
                           (queryOptions systemPrompt (partialConfig mergedConfig) true)
                           (partialConfig mergedConfig) salvaged]
           else mid = []
       end
    /\ (tl = [] \/ exists ms tl', tl = Delayed ms :: tl')
    /\ q_maxTurns (queryOptions systemPrompt dc false) = None
    /\ m_retryAttempts dc = 1%nat
    /\ m_fallbackToSimplerPrompt dc = false
    /\ m_timeout dc =
         if isTimeoutError errorMessage
         then Qmin (m_timeout mergedConfig * (3 # 2)) 900000
         else m_timeout mergedConfig.
Proof.
  intros first errorMessage dc Hfail Hlimit Hfb Hatt.
  assert (Hrest : exists outcome mid tl,
    trace (attempts onContentUpdate prompt systemPrompt mergedConfig
             (S n) attempt eng).2 =
      trace first.2
      ++ Queried DegradedQuery (createSimplifiedPrompt prompt)
           (queryOptions systemPrompt dc false) dc outcome :: mid ++ tl
    /\ match outcome with
       | inl _ => mid = []
       | inr _ =>
           if m_enablePartialResults mergedConfig
           then exists salvaged,
                  mid = [Queried SalvageQuery prompt
                           (queryOptions systemPrompt (partialConfig mergedConfig) true)
                           (partialConfig mergedConfig) salvaged]
           else mid = []
       end
    /\ (tl = [] \/ exists ms tl', tl = Delayed ms :: tl')).
  2: { destruct Hrest as (o & mid & tl & H1 & H2 & H3). exists o, mid, tl.
       repeat split; done. }
  cbn [attempts]. subst dc errorMessage first.
  destruct (performQuery onContentUpdate NormalQuery prompt systemPrompt mergedConfig eng)
    as [r eng1].
  cbn [fst snd] in *.
  rewrite normal_enough in Hfail.
  assert (Htried : exists e,
    match r with
    | inl result_text =>
        if truthy result_text && (100 <? length result_text)%nat
        then inl result_text else inr (Error msg_insufficient)
    | inr err => inr err
    end = inr e /\ err_message e = errorOf r).
  { destruct r as [s|e]; [rewrite Hfail|]; eauto. }
  destruct Htried as (e & -> & Hmsg). rewrite Hmsg, Hlimit, Hfb.
  apply Nat.leb_le in Hatt. rewrite Hatt. cbn [andb].
  destruct (degrade_calls prompt systemPrompt mergedConfig (errorOf r) eng1)
    as (o & rest & H1 & H2).
  destruct (degrade onContentUpdate prompt systemPrompt mergedConfig (errorOf r) eng1)
    as [returned eng2]. cbn [snd] in H1.
  exists o, rest.
  destruct returned as [value|].
  { exists []. cbn [snd]. rewrite app_nil_r. auto. }
  destruct (attempt =? m_retryAttempts mergedConfig)%nat.
  { exists []. cbn [snd]. rewrite app_nil_r. auto. }
  match goal with |- context [attempts _ _ _ _ _ _ ?e3] =>
    destruct (attempts_extends prompt systemPrompt mergedConfig n (S attempt) e3)
      as [new Hnew] end.
  eexists. rewrite Hnew. cbn [trace]. rewrite H1. split; [|split; [exact H2|]].
  - rewrite <- !app_assoc. cbn [app]. reflexivity.
  - right. eauto.
Qed.

(** C7, as amended. When no call of a run passes its content test (more
    than 100 characters for a normal attempt, more than 50 for a degraded
    or salvage call), all [retryAttempts] normal attempts are made and the
    run throws 'Claude分析失败: ' followed by the message of the last
    attempt's error. *)
Theorem exhausted_attempts_fail prompt systemPrompt config (eng : Engine L) :
  let run := executeAnalysis onContentUpdate prompt systemPrompt config eng in
  let new := drop (length (trace eng)) (trace run.2) in
  (1 <= m_retryAttempts (mergeConfig config))%nat ->
  forallb (fun ev => negb (enough ev)) new = true ->
  exists msg,
    run.1 = inr (Error (msg_analysis_failed ++ msg))
    /\ lastError new = Some msg
    /\ length (filter (fun ev => isNormal ev) new) = m_retryAttempts (mergeConfig config).
Proof.
  intros run new Hone Hall. subst run new. unfold executeAnalysis in *.
  destruct (attempts_exhausted onContentUpdate prompt systemPrompt (mergeConfig config)
              (m_retryAttempts (mergeConfig config)) 1 eng) as (new & Hnew & Hres);
    [lia|lia|].
  rewrite Hnew, drop_app_length in Hall |- *.
  apply Hres. apply Forall_forall. intros ev Hev.
  rewrite forallb_forall in Hall. apply negb_true_iff, Hall.
  by apply list_elem_of_In.
Qed.

End LadderClaims.

(* ===================================================================== *)
(** ** Scanning the buffer: detectAndWriteCompletedTasks                   *)
(* ===================================================================== *)

Section ScanFacts.

Variable now : jsstring.
Variable config : AnalysisConfig.

(** What one [writeTaskImmediately] does to the world. *)
Lemma writeTaskImmediately_spec (task : AnalysisTask) (taskContent : jsstring) (w : World) :
  let r := writeTaskImmediately now task taskContent config w in
  r.1 = writeSucceeds w
  /\ realtimeWrittenTasks r.2 = realtimeWrittenTasks w
  /\ taskBuffer r.2 = taskBuffer w
  /\ io r.2 =
       io w ++ Handed (id task) taskContent
         :: (if writeSucceeds w
             then [Wrote (filePathOf config task)
                     (formatDocument now taskContent task (basename (repoPath config)))]
             else [])
  /\ files r.2 =
       if writeSucceeds w
       then <[filePathOf config task :=
                formatDocument now taskContent task (basename (repoPath config))]> (files w)
       else files w.
Proof.
  destruct w as [rtw tb fs events tp].
  destruct tp as [|b1 [|b2 [|b3 [|[] [|[] tp]]]]]; cbv [writeSucceeds nth tape andb];
    repeat split; try reflexivity;
    cbv [writeTaskImmediately ensureDirectoryStructure fs_mkdir fs_writeFile pop log
         set_files fst snd io tape files realtimeWrittenTasks taskBuffer head tail
         default from_option];
    rewrite <- app_assoc; reflexivity.
Qed.

Lemma has_add (x y : jsstring) (s : list jsstring) :
  has x (add y s) = has x s || eqs x y.
Proof.
  unfold add, has, eqs. destruct (bool_decide (y ∈ s)) eqn:Hy.
  - apply bool_decide_eq_true in Hy.
    destruct (bool_decide (x = y)) eqn:Hxy; [|by rewrite orb_false_r].
    apply bool_decide_eq_true in Hxy. subst. rewrite orb_true_r.
    by apply bool_decide_eq_true.
  - apply eq_true_iff_eq. rewrite orb_true_iff, !bool_decide_eq_true.
    rewrite elem_of_app, list_elem_of_singleton. done.
Qed.

(** The scan of one task that is already in the written-set changes
    nothing. *)
Lemma detectTask_written (content : jsstring) (w : World) (task : AnalysisTask) :
  has (id task) (realtimeWrittenTasks w) = true ->
  detectTask now content config w task = w.
Proof. intros H. unfold detectTask. by rewrite H. Qed.

(** The scan of one task, case by case. [opened] is the world after the
    bookkeeping of an opened task, which touches the task buffer only. *)
Lemma detectTask_cases (content : jsstring) (w : World) (task : AnalysisTask) :
  has (id task) (realtimeWrittenTasks w) = false ->
  exists opened,
    realtimeWrittenTasks opened = realtimeWrittenTasks w
    /\ io opened = io w /\ files opened = files w /\ tape opened = tape w
    /\ match between content (startMarker task) (endMarker task) with
       | Some taskContent =>
           if (100 <? length taskContent)%nat then
             let r := writeTaskImmediately now task taskContent config opened in
             detectTask now content config w task =
               if r.1
               then set_taskBuffer (delete (id task) (taskBuffer r.2))
                      (set_realtimeWrittenTasks
                         (add (id task) (realtimeWrittenTasks r.2)) r.2)
               else r.2
           else detectTask now content config w task = opened
       | None => detectTask now content config w task = opened
       end.
Proof.
  intros Hnot. unfold detectTask, between. rewrite Hnot.
  set (startIndex := indexOf content (startMarker task)).
  set (endIndex := indexOf content (endMarker task)).
  match goal with |- context [if ?c then set_taskBuffer ?b w else w] =>
    exists (if c then set_taskBuffer b w else w) end.
  split; [by destruct (_ && _)|]. split; [by destruct (_ && _)|].
  split; [by destruct (_ && _)|]. split; [by destruct (_ && _)|].
  destruct (negb (startIndex =? -1)%Z && negb (endIndex =? -1)%Z
            && (endIndex >? startIndex)%Z); [|done].
  destruct (100 <? _)%nat; [|done].
  cbv zeta. by destruct (writeTaskImmediately _ _ _ _ _) as [[] ?].
Qed.

End ScanFacts.

(** The declared tasks are told apart by their id and by their file. *)
Lemma declared_id_inj (t t' : AnalysisTask) :
  t ∈ ANALYSIS_TASKS -> t' ∈ ANALYSIS_TASKS -> id t = id t' -> t = t'.
Proof.
  intros Ht Ht'. unfold ANALYSIS_TASKS in *.
  repeat (apply elem_of_cons in Ht as [->|Ht]);
    repeat (apply elem_of_cons in Ht' as [->|Ht']);
    try (by apply elem_of_nil in Ht); try (by apply elem_of_nil in Ht');
    intros H; try reflexivity; vm_compute in H; discriminate H.
Qed.

Lemma declared_outputFile_inj (t t' : AnalysisTask) :
  t ∈ ANALYSIS_TASKS -> t' ∈ ANALYSIS_TASKS -> outputFile t = outputFile t' -> t = t'.
Proof.
  intros Ht Ht'. unfold ANALYSIS_TASKS in *.
  repeat (apply elem_of_cons in Ht as [->|Ht]);
    repeat (apply elem_of_cons in Ht' as [->|Ht']);
    try (by apply elem_of_nil in Ht); try (by apply elem_of_nil in Ht');
    intros H; try reflexivity; vm_compute in H; discriminate H.
Qed.

Lemma declared_ids_NoDup : NoDup (map id ANALYSIS_TASKS).
Proof. apply (bool_decide_unpack _). vm_compute. exact I. Qed.

Lemma filePathOf_inj (config : AnalysisConfig) (t t' : AnalysisTask) :
  t ∈ ANALYSIS_TASKS -> t' ∈ ANALYSIS_TASKS ->
  filePathOf config t = filePathOf config t' -> t = t'.
Proof.
  intros Ht Ht' H. apply declared_outputFile_inj; [done..|].
  unfold filePathOf in H.
  rewrite !path_join_repomind in H by (by apply declared_file_of_task).
  by repeat apply app_inv_head in H.
Qed.

Lemma count_app {A : Type} (p : A -> bool) (a b : list A) :
  count p (a ++ b) = (count p a + count p b)%nat.
Proof. induction a as [|x a IH]; simpl; [done|]. rewrite IH. lia. Qed.

Lemma has_true (x : jsstring) (s : list jsstring) : has x s = true <-> x ∈ s.
Proof. unfold has. apply bool_decide_eq_true. Qed.

Lemma has_false (x : jsstring) (s : list jsstring) : has x s = false <-> x ∉ s.
Proof. unfold has. apply bool_decide_eq_false. Qed.

Lemma add_NoDup (x : jsstring) (s : list jsstring) : NoDup s -> NoDup (add x s).
Proof.
  intros Hs. unfold add. destruct (has x s) eqn:Hx; [done|].
  apply has_false in Hx. apply NoDup_app. split; [done|]. split.
  - intros y Hy Hy'. apply list_elem_of_singleton in Hy'. by subst.
  - apply NoDup_singleton.
Qed.

Lemma elem_of_add (x y : jsstring) (s : list jsstring) : y ∈ add x s <-> y ∈ s \/ y = x.
Proof.
  unfold add. destruct (has x s) eqn:Hx.
  - apply has_true in Hx. split; [auto|]. by intros [?| ->].
  - by rewrite elem_of_app, list_elem_of_singleton.
Qed.

Section ScanInvariants.

Variable now : jsstring.
Variable config : AnalysisConfig.

(** How one scan step changes what the invariants speak about. *)
Lemma detectTask_effect (content : jsstring) (w : World) (task : AnalysisTask) :
  has (id task) (realtimeWrittenTasks w) = false ->
  let w' := detectTask now content config w task in
  (realtimeWrittenTasks w' = realtimeWrittenTasks w
   /\ writesTo (filePathOf config task) (io w') = writesTo (filePathOf config task) (io w)
   \/ realtimeWrittenTasks w' = add (id task) (realtimeWrittenTasks w)
      /\ writesTo (filePathOf config task) (io w')
         = S (writesTo (filePathOf config task) (io w)))
  /\ forall path, path <> filePathOf config task ->
       writesTo path (io w') = writesTo path (io w).
Proof.
  intros Hnot w'. subst w'.
  destruct (detectTask_cases now config content w task Hnot)
    as (opened & Hrtw & Hio & _ & Htape & Hcase).
  assert (Hself : eqs (filePathOf config task) (filePathOf config task) = true)
    by by apply eqs_true.
  destruct (between content (startMarker task) (endMarker task)) as [taskContent|];
    [destruct (100 <? length taskContent)%nat|].
  2,3: rewrite Hcase, Hrtw, Hio; split; [by left|done].
  destruct (writeTaskImmediately_spec now config task taskContent opened)
    as (Hok & Hr & _ & Hi & _).
  cbv zeta in Hcase. rewrite Hcase, Hok.
  destruct (writeSucceeds opened); cbn [realtimeWrittenTasks io set_taskBuffer
    set_realtimeWrittenTasks]; rewrite ?Hr, Hi, Hrtw, Hio; unfold writesTo;
    rewrite count_app; cbn [count isWriteTo]; rewrite ?Hself.
  - split; [right; split; [done|lia]|]. intros path Hp.
    rewrite count_app. cbn [count isWriteTo].
    destruct (eqs (filePathOf config task) path) eqn:E;
      [apply eqs_true in E; congruence|lia].
  - split; [left; split; [done|lia]|]. intros path Hp.
    rewrite count_app. cbn [count isWriteTo]. lia.
Qed.

Lemma detectTask_writtenSetOk (content : jsstring) (w : World) (task : AnalysisTask) :
  task ∈ ANALYSIS_TASKS ->
  writtenSetOk w -> writtenSetOk (detectTask now content config w task).
Proof.
  intros Htask [Hnd Hsub].
  destruct (has (id task) (realtimeWrittenTasks w)) eqn:Hhas.
  { rewrite detectTask_written by done. done. }
  destruct (detectTask_effect content w task Hhas) as [[[Hr _]|[Hr _]] _];
    unfold writtenSetOk; rewrite Hr; [done|]. split.
  - by apply add_NoDup.
  - intros x. rewrite elem_of_add. intros [?| ->]; [auto|].
    by apply list_elem_of_fmap_2.
Qed.

Lemma detectTask_gateOk (content : jsstring) (w : World) (task : AnalysisTask) :
  task ∈ ANALYSIS_TASKS ->
  gateOk config w -> gateOk config (detectTask now content config w task).
Proof.
  intros Htask Hgate.
  destruct (has (id task) (realtimeWrittenTasks w)) eqn:Hhas.
  { rewrite detectTask_written by done. done. }
  destruct (detectTask_effect content w task Hhas) as [Hself Hother].
  set (w' := detectTask now content config w task) in *.
  assert (Hmine := Hgate task Htask). rewrite Hhas in Hmine.
  intros t Ht.
  destruct (decide (id t = id task)) as [He|Hne].
  - apply declared_id_inj in He; [|done..]. subst t.
    destruct Hself as [[Hr Hc]|[Hr Hc]]; rewrite Hr, Hc, Hmine, ?Hhas; [done|].
    rewrite has_add, Hhas. cbn. by rewrite (proj2 (eqs_true _ _) eq_refl).
  - rewrite Hother; [|intros Hp; apply Hne; f_equal; by eapply filePathOf_inj].
    rewrite (Hgate t Ht).
    destruct Hself as [[Hr _]|[Hr _]]; rewrite Hr; [done|].
    rewrite has_add.
    destruct (eqs (id t) (id task)) eqn:E; [|by rewrite orb_false_r].
    by apply eqs_true in E.
Qed.

(** A whole scan keeps the written-set well formed and the gate exact. *)
Lemma detectAndWriteCompletedTasks_writtenSetOk (content : jsstring) (w : World) :
  writtenSetOk w -> writtenSetOk (detectAndWriteCompletedTasks now content config w).
Proof.
  unfold detectAndWriteCompletedTasks.
  assert (Hall : Forall (fun t => t ∈ ANALYSIS_TASKS) ANALYSIS_TASKS)
    by by apply Forall_forall.
  revert w. induction Hall as [|t ts Ht _ IH]; intros w Hw; [done|].
  cbn [foldl]. apply IH. by apply detectTask_writtenSetOk.
Qed.

Lemma detectAndWriteCompletedTasks_gateOk (content : jsstring) (w : World) :
  gateOk config w -> gateOk config (detectAndWriteCompletedTasks now content config w).
Proof.
  unfold detectAndWriteCompletedTasks.
  assert (Hall : Forall (fun t => t ∈ ANALYSIS_TASKS) ANALYSIS_TASKS)
    by by apply Forall_forall.
  revert w. induction Hall as [|t ts Ht _ IH]; intros w Hw; [done|].
  cbn [foldl]. apply IH. by apply detectTask_gateOk.
Qed.

End ScanInvariants.

(* ===================================================================== *)
(** ** What holds of the callback's state holds after the run             *)
(* ===================================================================== *)

Section ListenerInvariant.

Context {L : Type} (onContentUpdate : jsstring -> L -> L).
Variable P : L -> Prop.
Hypothesis P_step : forall partialContent l, P l -> P (onContentUpdate partialContent l).

Lemma consume_listener options msgs q cb :
  P cb -> P (consume onContentUpdate options msgs q cb).2.
Proof.
  revert q cb. induction msgs as [|m msgs IH]; intros q cb Hcb; [done|].
  destruct m as [event| |]; cbn [consume]; [|done|by apply IH].
  destruct (onStreamEvent onContentUpdate event q cb) as [q1 cb1] eqn:E.
  apply IH. unfold onStreamEvent in E.
  destruct event as [[[| |]|]| |[t|]| |]; inversion E; subst; auto.
Qed.

Lemma runQuery_listener script options cb :
  P cb -> P (runQuery onContentUpdate script options cb).2.
Proof.
  intros Hcb. unfold runQuery.
  pose proof (consume_listener options (messages script) initialQueryState cb Hcb) as H.
  destruct (consume onContentUpdate options (messages script) initialQueryState cb)
    as [[flow q] cb']. cbn [snd] in H.
  destruct flow as [|v|e]; [destruct (thrown script)|..];
    repeat match goal with |- context [if ?c then _ else _] => destruct c end; done.
Qed.

Lemma call_listener kind prompt options config (eng : Engine L) :
  P (listener eng) ->
  P (listener (call onContentUpdate kind prompt options config eng).2).
Proof.
  intros H. unfold call.
  pose proof (runQuery_listener
                (default {| messages := []; thrown := None |} (head (pending eng)))
                options (listener eng) H) as Hr.
  by destruct (runQuery onContentUpdate _ options (listener eng)).
Qed.

Lemma degrade_listener prompt systemPrompt mergedConfig errorMessage (eng : Engine L) :
  P (listener eng) ->
  P (listener (degrade onContentUpdate prompt systemPrompt mergedConfig errorMessage eng).2).
Proof.
  intros H. unfold degrade, performQuery.
  pose proof (call_listener DegradedQuery (createSimplifiedPrompt prompt)
                (queryOptions systemPrompt (simplifiedConfig mergedConfig errorMessage) false)
                (simplifiedConfig mergedConfig errorMessage) eng H) as H1.
  destruct (call onContentUpdate DegradedQuery _ _ _ eng) as [r eng1]. cbn [snd] in H1.
  destruct r as [s|e]; [by destruct (_ && _)|].
  destruct (m_enablePartialResults mergedConfig); [|done].
  unfold salvage, performPartialQuery.
  pose proof (call_listener SalvageQuery prompt
                (queryOptions systemPrompt (partialConfig mergedConfig) true)
                (partialConfig mergedConfig) eng1 H1) as H2.
  destruct (call onContentUpdate SalvageQuery _ _ _ eng1) as [r2 eng2]. cbn [snd] in H2.
  destruct r2 as [s|e']; [by destruct (_ && _)|done].
Qed.

Lemma attempts_listener prompt systemPrompt mergedConfig :
  forall (remaining attempt : nat) (eng : Engine L),
    P (listener eng) ->
    P (listener (attempts onContentUpdate prompt systemPrompt mergedConfig
                   remaining attempt eng).2).
Proof.
  induction remaining as [|remaining IH]; intros attempt eng H; [done|].
  cbn [attempts]. unfold performQuery.
  pose proof (call_listener NormalQuery prompt
                (queryOptions systemPrompt mergedConfig false) mergedConfig eng H) as H1.
  destruct (call onContentUpdate NormalQuery _ _ _ eng) as [r eng1]. cbn [snd] in H1.
  match goal with |- context [match ?t with inl _ => _ | inr _ => _ end] =>
    destruct t as [v|e] end; [done|].
  match goal with |- context [let '(_, _) := ?d in _] =>
    assert (Hd : P (listener d.2)); [|destruct d as [returned eng2]] end.
  { destruct (_ && _ && _); [by apply degrade_listener|done]. }
  cbn [snd] in Hd. destruct returned; [done|].
  destruct (attempt =? _)%nat; [done|]. by apply IH.
Qed.

Lemma executeAnalysis_listener prompt systemPrompt config (eng : Engine L) :
  P (listener eng) ->
  P (listener (executeAnalysis onContentUpdate prompt systemPrompt config eng).2).
Proof. apply attempts_listener. Qed.

End ListenerInvariant.

(* ===================================================================== *)
(** ** executeUnifiedAnalysis                                              *)
(* ===================================================================== *)

Section UnifiedFacts.

Variable now : jsstring.
Variable config : AnalysisConfig.

(** After the unified analysis, whether it returns or throws, the
    written-set holds declared ids, each once. *)
Lemma executeUnifiedAnalysis_writtenSetOk prompt scripts (w : World) :
  writtenSetOk (executeUnifiedAnalysis now prompt config scripts w).2.
Proof.
  unfold executeUnifiedAnalysis.
  set (w0 := set_taskBuffer ∅ (set_realtimeWrittenTasks [] w)).
  assert (H0 : writtenSetOk w0).
  { split; [apply NoDup_nil_2|by intros ? ?%elem_of_nil]. }
  pose proof (executeAnalysis_listener (onContentUpdate now config) writtenSetOk
                (fun c l H => detectAndWriteCompletedTasks_writtenSetOk now config c l H)
                prompt system_prompt (Some unifiedConfig)
                {| pending := scripts; trace := []; listener := w0 |} H0) as H1.
  destruct (executeAnalysis (onContentUpdate now config) prompt system_prompt
              (Some unifiedConfig) _) as [r eng'].
  cbn [snd] in H1. destruct r as [result_text|e]; cbn [snd]; [|done].
  by apply detectAndWriteCompletedTasks_writtenSetOk.
Qed.

(** And the gate is exact, for a session whose record of events starts
    empty: while the stream is open and in the final scan, the file of a
    task is written once when the task enters the written-set and never
    again, however often the buffer is scanned. *)
Lemma executeUnifiedAnalysis_gateOk prompt scripts (w : World) :
  io w = [] ->
  gateOk config (executeUnifiedAnalysis now prompt config scripts w).2.
Proof.
  intros Hio. unfold executeUnifiedAnalysis.
  set (w0 := set_taskBuffer ∅ (set_realtimeWrittenTasks [] w)).
  assert (H0 : gateOk config w0).
  { intros t _. cbn. by rewrite Hio. }
  pose proof (executeAnalysis_listener (onContentUpdate now config) (gateOk config)
                (fun c l H => detectAndWriteCompletedTasks_gateOk now config c l H)
                prompt system_prompt (Some unifiedConfig)
                {| pending := scripts; trace := []; listener := w0 |} H0) as H1.
  destruct (executeAnalysis (onContentUpdate now config) prompt system_prompt
              (Some unifiedConfig) _) as [r eng'].
  cbn [snd] in H1. destruct r as [result_text|e]; cbn [snd]; [|done].
  by apply detectAndWriteCompletedTasks_gateOk.
Qed.

End UnifiedFacts.

(* ===================================================================== *)
(** ** parseTaskOutputs and validateAndPackageResults                      *)
(* ===================================================================== *)

Section ParseFacts.

Variable extractStructuredData : jsstring -> StructuredData.
Variable now : jsstring.
Variable dumpIndex : KnowledgeGenerationResult -> AnalysisConfig -> jsstring.
Variable buildUnifiedPrompt : AnalysisConfig -> jsstring + JsError.
Variable config : AnalysisConfig.

Lemma realtimeOutput_taskId (task : AnalysisTask) (w : World) :
  taskId (realtimeOutput extractStructuredData config task w).1 = id task.
Proof.
  unfold realtimeOutput. destruct (fs_readFile _ w) as [[c|e] w1]; done.
Qed.

Lemma find_declared (x : jsstring) :
  x ∈ map id ANALYSIS_TASKS ->
  exists task, find (fun t => bool_decide (id t = x)) ANALYSIS_TASKS = Some task
               /\ id task = x /\ task ∈ ANALYSIS_TASKS.
Proof.
  intros Hx. destruct (find _ ANALYSIS_TASKS) as [task|] eqn:E.
  - apply find_some in E as [Hin Hid]. exists task.
    split; [done|]. split; [by apply bool_decide_eq_true in Hid|].
    by apply list_elem_of_In.
  - exfalso. apply list_elem_of_fmap in Hx as (t & -> & Ht).
    apply list_elem_of_In in Ht.
    pose proof (find_none _ _ E t Ht) as Hf. cbn in Hf.
    by apply bool_decide_eq_false in Hf.
Qed.

(** The first loop yields one output per id of the written-set, in the
    order of the set. *)
Lemma realtimeOutputs_ids (ids : list jsstring) (w : World) :
  (forall x, x ∈ ids -> x ∈ map id ANALYSIS_TASKS) ->
  map taskId (realtimeOutputs extractStructuredData config ids w).1 = ids.
Proof.
  revert w. induction ids as [|x ids IH]; intros w Hsub; [done|].
  cbn [realtimeOutputs].
  destruct (find_declared x) as (task & -> & Hid & _); [apply Hsub; left|].
  pose proof (realtimeOutput_taskId task w) as Ho.
  destruct (realtimeOutput extractStructuredData config task w) as [o w1]. cbn [fst] in Ho.
  specialize (IH w1). destruct (realtimeOutputs _ config ids w1) as [os w2].
  cbn [fst map] in *. rewrite Ho, Hid, IH; [done|]. intros y Hy. apply Hsub. by right.
Qed.

Lemma fallbackOutput_taskId analysisResult (task : AnalysisTask) (o : TaskOutput) :
  fallbackOutput extractStructuredData now analysisResult config task = Some o ->
  taskId o = id task.
Proof.
  unfold fallbackOutput.
  destruct (extractTaskContentForFallback analysisResult task) as [c|]; [|done].
  destruct (_ && _); [|done]. by intros [= <-].
Qed.

(** The second loop yields one output per recovered task, in the order of
    declaration. *)
Lemma fallbackOutputs_ids analysisResult (tasks : list AnalysisTask) :
  map taskId (omap (fallbackOutput extractStructuredData now analysisResult config) tasks)
  = map id (recovered extractStructuredData now config analysisResult tasks).
Proof.
  unfold recovered. induction tasks as [|t ts IH]; [done|].
  cbn [omap list_omap]. rewrite filter_cons.
  destruct (fallbackOutput _ _ _ _ t) as [o|] eqn:E.
  - rewrite decide_True by eauto. cbn [map].
    rewrite (fallbackOutput_taskId _ _ _ E). f_equal. exact IH.
  - rewrite decide_False by (by intros [? ?]). exact IH.
Qed.

Lemma sublist_map_id (l k : list AnalysisTask) :
  l `sublist_of` k -> map id l `sublist_of` map id k.
Proof. induction 1; cbn [map]; by constructor. Qed.

Lemma recovered_remaining_ids analysisResult (w : World) :
  map id (recovered extractStructuredData now config analysisResult (remainingTasks w)) `sublist_of` map id ANALYSIS_TASKS
  /\ forall x, x ∈ map id (recovered extractStructuredData now config analysisResult (remainingTasks w)) ->
       x ∉ realtimeWrittenTasks w.
Proof.
  unfold recovered, remainingTasks. split.
  - apply sublist_map_id. etrans; apply sublist_filter.
  - intros x Hx. apply list_elem_of_fmap in Hx as (t & -> & Ht).
    apply list_elem_of_filter in Ht as [_ Ht].
    apply list_elem_of_filter in Ht as [Hf _].
    apply negb_true_iff in Hf. by apply has_false.
Qed.

(** The outputs name the written-set first, then the remaining tasks the
    fallback recovered: declared tasks, each at most once. *)
Lemma parseTaskOutputs_ids analysisResult (w : World) :
  writtenSetOk w ->
  let outs := (parseTaskOutputs extractStructuredData now analysisResult config w).1 in
  map taskId outs
    = realtimeWrittenTasks w ++ map id (recovered extractStructuredData now config analysisResult (remainingTasks w))
  /\ NoDup (map taskId outs)
  /\ (forall x, x ∈ map taskId outs -> x ∈ map id ANALYSIS_TASKS).
Proof.
  intros [Hnd Hsub]. unfold parseTaskOutputs.
  pose proof (realtimeOutputs_ids (realtimeWrittenTasks w) w Hsub) as Hw.
  destruct (realtimeOutputs _ config (realtimeWrittenTasks w) w) as [written w1].
  cbn [fst] in *. rewrite map_app, Hw, fallbackOutputs_ids.
  destruct (recovered_remaining_ids analysisResult w) as [Hr1 Hr2].
  split; [done|]. split.
  - apply NoDup_app. split; [done|]. split.
    + intros x Hx Hx'. by eapply Hr2.
    + eapply sublist_NoDup; [apply declared_ids_NoDup|exact Hr1].
  - intros x [Hx|Hx]%elem_of_app; [auto|].
    eapply sublist_subseteq; [exact Hr1|done].
Qed.

(** Reading files and writing them leaves the written-set alone. *)
Lemma realtimeOutputs_written (ids : list jsstring) (w : World) :
  realtimeWrittenTasks (realtimeOutputs extractStructuredData config ids w).2
  = realtimeWrittenTasks w.
Proof.
  revert w. induction ids as [|x ids IH]; intros w; [done|].
  cbn [realtimeOutputs]. destruct (find _ ANALYSIS_TASKS) as [task|]; [|apply IH].
  destruct (realtimeOutput extractStructuredData config task w) as [o w1] eqn:E.
  specialize (IH w1). destruct (realtimeOutputs _ config ids w1) as [os w2].
  cbn [snd] in *. rewrite IH. unfold realtimeOutput, fs_readFile in E.
  destruct (pop w) as [[] w0] eqn:Ep; [destruct (files w0 !! _)|];
    inversion E; inversion Ep; subst; done.
Qed.

Lemma fs_writeFile_written path content (w : World) :
  realtimeWrittenTasks (fs_writeFile path content w).2 = realtimeWrittenTasks w.
Proof. unfold fs_writeFile. by destruct (pop w) as [[] w1] eqn:E; inversion E. Qed.

Lemma writeResults_written (rs : list AnalysisResult) (w : World) :
  realtimeWrittenTasks (writeResults config rs w).2 = realtimeWrittenTasks w.
Proof.
  revert w. induction rs as [|r rs IH]; intros w; [done|].
  cbn [writeResults]. destruct (status r); [|apply IH..].
  destruct (truthyVal _); [apply IH|].
  assert (Hw : realtimeWrittenTasks (writeTaskOutput r config w).2
               = realtimeWrittenTasks w).
  { unfold writeTaskOutput. destruct (find _ ANALYSIS_TASKS) as [task|]; [|done].
    destruct (fs_mkdir w) as [[] w1] eqn:E; inversion E; subst; [|done].
    by rewrite fs_writeFile_written. }
  destruct (writeTaskOutput r config w) as [[] w1]; cbn [snd] in *; [|done].
  by rewrite IH.
Qed.

Lemma updateKnowledgeBase_written (k : KnowledgeGenerationResult) (w : World) :
  realtimeWrittenTasks (updateKnowledgeBase dumpIndex k config w).2
  = realtimeWrittenTasks w.
Proof.
  unfold updateKnowledgeBase, writeYamlFile.
  destruct (fs_mkdir (ensureDirectoryStructure w)) as [ok w2] eqn:E.
  assert (H2 : realtimeWrittenTasks w2 = realtimeWrittenTasks w).
  { unfold fs_mkdir, pop in E. by inversion E. }
  destruct ok; [|done].
  match goal with |- context [fs_writeFile ?p ?c w2] =>
    pose proof (fs_writeFile_written p c w2) as H3;
    destruct (fs_writeFile p c w2) as [ok3 w3] end.
  cbn [snd] in H3. destruct ok3; cbn [snd]; [rewrite writeResults_written|]; congruence.
Qed.

Lemma validateAndPackageResults_names (taskOutputs : list TaskOutput) :
  map agentName (results (validateAndPackageResults now taskOutputs config))
  = map taskId taskOutputs.
Proof. cbn. rewrite <- list_fmap_compose. done. Qed.

(** The status knows two values: 'success' as soon as one task has an
    output, 'error' when none has. *)
Lemma validateAndPackageResults_status (taskOutputs : list TaskOutput) :
  k_status (validateAndPackageResults now taskOutputs config)
  = match taskOutputs with [] => status_error | _ :: _ => status_success end.
Proof. by destruct taskOutputs. Qed.

(** A run that returns went through all five steps. *)
Lemma executeKnowledgeGeneration_returns scripts (w : World) k tr w' :
  executeKnowledgeGeneration extractStructuredData now dumpIndex buildUnifiedPrompt
    config scripts w = (inl k, tr, w') ->
  exists prompt analysisResult w1 outs w2,
    buildUnifiedPrompt config = inl prompt
    /\ executeUnifiedAnalysis now prompt config scripts w = (inl analysisResult, tr, w1)
    /\ parseTaskOutputs extractStructuredData now analysisResult config w1 = (outs, w2)
    /\ k = validateAndPackageResults now outs config
    /\ updateKnowledgeBase dumpIndex k config w2 = (true, w').
Proof.
  unfold executeKnowledgeGeneration.
  destruct (buildUnifiedPrompt config) as [prompt|e]; [|done].
  destruct (executeUnifiedAnalysis now prompt config scripts w) as [[r tr1] w1] eqn:Eu.
  destruct r as [analysisResult|e]; [|done].
  destruct (parseTaskOutputs _ now analysisResult config w1) as [outs w2] eqn:Ep.
  destruct (updateKnowledgeBase _ _ config w2) as [[] w3] eqn:E; [|done].
  intros [= <- <- <-]. by exists prompt, analysisResult, w1, outs, w2.
Qed.

(** C1, as amended. A run that returns has made one unified analysis that
    returned a text, and its results hold one entry for each task in the
    written-set of that analysis and, after them, one for each remaining
    task the fallback pass recovers from that very text, and no entry for
    any other task. So a declared task has an entry exactly when it was
    written by the scan or the strategies of the fallback find for it, in
    the returned text, a content of more than 100 characters; the agent
    names are ids of declared tasks, no id occurs twice, every entry has
    status 'success', and there are at most as many entries as declared
    tasks. *)
Theorem results_hold_resolved_tasks_once scripts (w : World) k tr w' :
  executeKnowledgeGeneration extractStructuredData now dumpIndex buildUnifiedPrompt
    config scripts w = (inl k, tr, w') ->
  exists prompt analysisResult w1,
    buildUnifiedPrompt config = inl prompt
    /\ executeUnifiedAnalysis now prompt config scripts w = (inl analysisResult, tr, w1)
    /\ realtimeWrittenTasks w' = realtimeWrittenTasks w1
    /\ map agentName (results k)
       = realtimeWrittenTasks w1
         ++ map id (recovered extractStructuredData now config analysisResult
                      (remainingTasks w1))
    /\ (forall task, task ∈ ANALYSIS_TASKS ->
          (id task ∈ map agentName (results k)
           <-> has (id task) (realtimeWrittenTasks w1) = true
               \/ exists taskContent,
                    extractTaskContentForFallback analysisResult task = Some taskContent
                    /\ (100 < length taskContent)%nat))
    /\ NoDup (map agentName (results k))
    /\ (forall a, a ∈ map agentName (results k) -> a ∈ map id ANALYSIS_TASKS)
    /\ Forall (fun r => status r = status_success) (results k)
    /\ (length (results k) <= length ANALYSIS_TASKS)%nat.
Proof.
  intros Hrun.
  destruct (executeKnowledgeGeneration_returns scripts w k tr w' Hrun)
    as (prompt & analysisResult & w1 & outs & w2 & Hb & Hu & Hp & -> & Hk).
  pose proof (executeUnifiedAnalysis_writtenSetOk now config prompt scripts w) as Hw1.
  rewrite Hu in Hw1. cbn [snd] in Hw1.
  pose proof (parseTaskOutputs_ids analysisResult w1 Hw1) as Hids.
  rewrite Hp in Hids. cbn [fst] in Hids. destruct Hids as (Heq & Hnd & Hsub).
  assert (Hsame : realtimeWrittenTasks w' = realtimeWrittenTasks w1).
  { pose proof (updateKnowledgeBase_written (validateAndPackageResults now outs config) w2)
      as H2. rewrite Hk in H2. cbn [snd] in H2. rewrite H2.
    pose proof (realtimeOutputs_written (realtimeWrittenTasks w1) w1) as H1.
    unfold parseTaskOutputs in Hp.
    destruct (realtimeOutputs _ config (realtimeWrittenTasks w1) w1) as [written w1'].
    by inversion Hp; subst. }
  exists prompt, analysisResult, w1.
  rewrite validateAndPackageResults_names.
  split; [done|]. split; [done|]. split; [done|]. split; [done|].
  split; [|split; [done|split; [done|split]]].
  - intros task Htask. rewrite Heq, elem_of_app. split.
    + intros [Hin|Hin]; [left; by apply has_true|].
      apply list_elem_of_fmap in Hin as (t & Hid & Ht).
      unfold recovered in Ht. apply list_elem_of_filter in Ht as [Hsome Ht].
      assert (t ∈ ANALYSIS_TASKS) as Ht'.
      { unfold remainingTasks in Ht. by apply list_elem_of_filter in Ht as [_ ?]. }
      rewrite <- (declared_id_inj task t Htask Ht' Hid) in Hsome.
      right. unfold fallbackOutput in Hsome.
      destruct (extractTaskContentForFallback analysisResult task) as [c|];
        [|by destruct Hsome].
      exists c. split; [done|].
      destruct (truthy c); [|by destruct Hsome]. cbn [andb] in Hsome.
      destruct (Nat.ltb_spec 100 (length c)); [done|by destruct Hsome].
    + intros [Hhas|(c & Hc & Hlen)]; [left; by apply has_true|].
      destruct (has (id task) (realtimeWrittenTasks w1)) eqn:Hhas;
        [left; by apply has_true|].
      right. apply list_elem_of_fmap. exists task. split; [done|].
      unfold recovered. apply list_elem_of_filter. split.
      * unfold fallbackOutput. rewrite Hc.
        replace (truthy c) with true by (by destruct c; [cbn in Hlen; lia|]).
        apply Nat.ltb_lt in Hlen. rewrite Hlen. cbn [andb]. by eexists.
      * unfold remainingTasks. apply list_elem_of_filter. by rewrite Hhas.
  - cbn. apply Forall_fmap, Forall_true. done.
  - rewrite <- (length_map agentName), validateAndPackageResults_names.
    rewrite <- (length_map id ANALYSIS_TASKS).
    apply submseteq_length, NoDup_submseteq; done.
Qed.

End ParseFacts.

(* ===================================================================== *)
(** ** The final pass: updateKnowledgeBase                                 *)
(* ===================================================================== *)

Section FinalPass.

Variable extractStructuredData : jsstring -> StructuredData.
Variable now : jsstring.
Variable dumpIndex : KnowledgeGenerationResult -> AnalysisConfig -> jsstring.
Variable buildUnifiedPrompt : AnalysisConfig -> jsstring + JsError.
Variable config : AnalysisConfig.

Lemma fs_writeFile_io path content (w : World) :
  io (fs_writeFile path content w).2
  = io w ++ (if (fs_writeFile path content w).1 then [Wrote path content] else []).
Proof.
  destruct w as [rtw tb fs events tp]. destruct tp as [|[] tp]; cbn;
    by rewrite ?app_nil_r.
Qed.

Lemma realtimeOutputs_io (ids : list jsstring) (w : World) :
  io (realtimeOutputs extractStructuredData config ids w).2 = io w.
Proof.
  revert w. induction ids as [|x ids IH]; intros w; [done|].
  cbn [realtimeOutputs]. destruct (find _ ANALYSIS_TASKS) as [task|]; [|apply IH].
  destruct (realtimeOutput extractStructuredData config task w) as [o w1] eqn:E.
  specialize (IH w1). destruct (realtimeOutputs _ config ids w1) as [os w2].
  cbn [snd] in *. rewrite IH. unfold realtimeOutput, fs_readFile in E.
  destruct (pop w) as [[] w0] eqn:Ep; [destruct (files w0 !! _)|];
    inversion E; inversion Ep; subst; done.
Qed.

(** The writes of the loop over the results: a file gains at most one
    write per result that targets it. *)
Lemma writeResults_writes (path : jsstring) (rs : list AnalysisResult) (w : World) :
  (writesTo path (io (writeResults config rs w).2)
   <= writesTo path (io w) + count (targets config path) rs)%nat.
Proof.
  revert w. induction rs as [|r rs IH]; intros w; [cbn; lia|].
  cbn [writeResults count]. unfold targets at 1.
  destruct (status r);
    [|etrans; [apply IH|lia]..].
  destruct (truthyVal (prop (metadata (output r)) "realtimeWritten"));
    [etrans; [apply IH|cbn; lia]|].
  cbn [negb andb]. unfold writeTaskOutput.
  destruct (find _ ANALYSIS_TASKS) as [task|]; [|etrans; [apply IH|lia]].
  destruct (fs_mkdir w) as [[] w1] eqn:Em; unfold fs_mkdir, pop in Em;
    inversion Em; subst w1; clear Em.
  2: { cbn. unfold writesTo. lia. }
  match goal with |- context [fs_writeFile ?p ?c ?w0] =>
    pose proof (fs_writeFile_io p c w0) as Hio;
    destruct (fs_writeFile p c w0) as [[] w2] end; cbn [fst snd] in Hio.
  - etrans; [apply IH|]. rewrite Hio. unfold writesTo. rewrite count_app.
    cbn [count isWriteTo io]. lia.
  - cbn [snd]. rewrite Hio, app_nil_r. cbn [io]. lia.
Qed.

Lemma count_at_most_one {A : Type} (p : A -> bool) (f : A -> jsstring) (a : jsstring)
    (l : list A) :
  NoDup (map f l) -> (forall x, x ∈ l -> p x = true -> f x = a) ->
  (count p l <= 1)%nat.
Proof.
  induction l as [|x l IH]; cbn [map count]; [lia|].
  intros [Hx Hnd]%NoDup_cons Hp.
  destruct (p x) eqn:E.
  - assert (Hzero : count p l = 0%nat).
    { clear IH. induction l as [|y l IHl]; [done|]. cbn [count].
      destruct (p y) eqn:Ey.
      - exfalso. apply Hx. rewrite (Hp x) by (done || left).
        rewrite <- (Hp y) by (done || (right; left)). cbn. left.
      - cbn. apply IHl.
        + intros Hin. apply Hx. cbn. by right.
        + by apply NoDup_cons in Hnd as [_ ?].
        + intros z Hz. apply Hp. apply elem_of_cons in Hz as [->|Hz]; [left|].
          right; right; done. }
    lia.
  - cbn. apply IH; [done|]. intros y Hy. apply Hp. by right.
Qed.

Lemma count_none {A : Type} (p : A -> bool) (l : list A) :
  (forall x, x ∈ l -> p x = false) -> count p l = 0%nat.
Proof.
  induction l as [|x l IH]; [done|]. intros H. cbn [count].
  rewrite (H x) by left. cbn. apply IH. intros y Hy. apply H. by right.
Qed.

(** A result that targets the file of a declared task names that task. *)
Lemma targets_names (task : AnalysisTask) (r : AnalysisResult) :
  task ∈ ANALYSIS_TASKS ->
  targets config (filePathOf config task) r = true -> agentName r = id task.
Proof.
  intros Htask [_ H]%andb_true_iff.
  destruct (find _ ANALYSIS_TASKS) as [t|] eqn:E; [|done].
  apply find_some in E as [Hin Hid]. apply bool_decide_eq_true in Hid.
  apply eqs_true in H. apply list_elem_of_In in Hin.
  by rewrite <- (filePathOf_inj config t task Hin Htask H).
Qed.

(** The index file is not the file of a declared task. *)
Lemma index_is_no_task_file (task : AnalysisTask) (content : jsstring) :
  task ∈ ANALYSIS_TASKS ->
  isWriteTo (filePathOf config task)
    (Wrote (path_join (outputPath config) (str ".repomind") (str "knowledge.yaml"))
       content) = false.
Proof.
  intros Htask. cbn [isWriteTo]. apply bool_decide_eq_false. unfold filePathOf.
  rewrite (path_join_repomind _ (str "knowledge.yaml")) by apply list_elem_of_here.
  rewrite path_join_repomind by (by apply declared_file_of_task).
  intros H. repeat apply app_inv_head in H. revert H. unfold ANALYSIS_TASKS in Htask.
  repeat (apply elem_of_cons in Htask as [->|Htask]); try (by apply elem_of_nil in Htask);
    vm_compute; discriminate.
Qed.

(** What [updateKnowledgeBase] adds to the writes of a task's file. *)
Lemma updateKnowledgeBase_writes (k : KnowledgeGenerationResult) (task : AnalysisTask)
    (w : World) :
  task ∈ ANALYSIS_TASKS ->
  (writesTo (filePathOf config task) (io (updateKnowledgeBase dumpIndex k config w).2)
   <= writesTo (filePathOf config task) (io w)
      + count (targets config (filePathOf config task)) (results k))%nat.
Proof.
  intros Htask. unfold updateKnowledgeBase, writeYamlFile.
  destruct (fs_mkdir (ensureDirectoryStructure w)) as [ok w2] eqn:E.
  assert (H2 : io w2 = io w).
  { unfold fs_mkdir, pop in E. by inversion E. }
  destruct ok; [|cbn [snd]; rewrite H2; lia].
  match goal with |- context [fs_writeFile ?p ?c w2] =>
    pose proof (fs_writeFile_io p c w2) as H3;
    pose proof (index_is_no_task_file task c Htask) as Hidx;
    destruct (fs_writeFile p c w2) as [ok3 w3] end.
  cbn [fst snd] in H3.
  assert (H4 : writesTo (filePathOf config task) (io w3)
               = writesTo (filePathOf config task) (io w)).
  { rewrite H3, H2. unfold writesTo. rewrite count_app.
    destruct ok3; cbn [count]; rewrite ?Hidx; lia. }
  destruct ok3; cbn [snd]; [|rewrite H4; lia].
  etrans; [apply writeResults_writes|]. rewrite H4. done.
Qed.

(** The outputs for the written-set say [realtimeWritten] as long as the
    metadata extracted from the documents do not carry that key. *)
Lemma realtimeOutputs_flag (ids : list jsstring) (w : World) :
  (forall doc, sd_metadata (extractStructuredData doc) !! "realtimeWritten" = None) ->
  Forall (fun o => truthyVal (prop (metadata o) "realtimeWritten") = true)
    (realtimeOutputs extractStructuredData config ids w).1.
Proof.
  intros Hex. revert w. induction ids as [|x ids IH]; intros w; [by constructor|].
  cbn [realtimeOutputs]. destruct (find _ ANALYSIS_TASKS) as [task|]; [|apply IH].
  destruct (realtimeOutput extractStructuredData config task w) as [o w1] eqn:E.
  specialize (IH w1). destruct (realtimeOutputs _ config ids w1) as [os w2].
  cbn [fst] in *. constructor; [|done].
  unfold realtimeOutput in E. destruct (fs_readFile _ w) as [[c|e] w0];
    inversion E; subst; cbn [metadata]; unfold prop, spread.
  - rewrite lookup_union_r by apply Hex. by simplify_map_eq.
  - by simplify_map_eq.
Qed.

(** Without such a key in the extracted metadata, a session writes the
    file of every declared task at most once, whatever the engine does,
    whichever file operations fail, and however the session ends. *)
Lemma session_writes_each_file_at_most_once scripts (w : World) (task : AnalysisTask) :
  io w = [] ->
  (forall doc, sd_metadata (extractStructuredData doc) !! "realtimeWritten" = None) ->
  task ∈ ANALYSIS_TASKS ->
  (writesTo (filePathOf config task)
     (io (executeKnowledgeGeneration extractStructuredData now dumpIndex
            buildUnifiedPrompt config scripts w).2) <= 1)%nat.
Proof.
  intros Hio Hex Htask. unfold executeKnowledgeGeneration.
  destruct (buildUnifiedPrompt config) as [prompt|e]; [|cbn [snd]; rewrite Hio; cbn; lia].
  pose proof (executeUnifiedAnalysis_gateOk now config prompt scripts w Hio task Htask)
    as Hgate.
  pose proof (executeUnifiedAnalysis_writtenSetOk now config prompt scripts w) as Hset.
  destruct (executeUnifiedAnalysis now prompt config scripts w) as [[r tr] w1].
  cbn [snd] in Hgate, Hset.
  destruct r as [analysisResult|e];
    [|cbn [snd]; rewrite Hgate; destruct (has _ _); lia].
  pose proof (parseTaskOutputs_ids extractStructuredData now config analysisResult w1 Hset)
    as (Hids & Hnd & _).
  assert (Hparse : exists written w2,
    parseTaskOutputs extractStructuredData now analysisResult config w1
    = (written ++ omap (fallbackOutput extractStructuredData now analysisResult config)
                    (remainingTasks w1), w2)
    /\ io w2 = io w1
    /\ Forall (fun o => truthyVal (prop (metadata o) "realtimeWritten") = true) written).
  { unfold parseTaskOutputs.
    pose proof (realtimeOutputs_io (realtimeWrittenTasks w1) w1) as H1.
    pose proof (realtimeOutputs_flag (realtimeWrittenTasks w1) w1 Hex) as H2.
    destruct (realtimeOutputs _ config (realtimeWrittenTasks w1) w1) as [written w2].
    by exists written, w2. }
  destruct Hparse as (written & w2 & Hp & Hio2 & Hflag).
  rewrite Hp in Hids, Hnd |- *. cbn [fst] in Hids, Hnd.
  set (outs := written ++ omap (fallbackOutput extractStructuredData now analysisResult
                                   config) (remainingTasks w1)) in *.
  set (k := validateAndPackageResults now outs config).
  assert (Hcount : (writesTo (filePathOf config task) (io w2)
                    + count (targets config (filePathOf config task)) (results k) <= 1)%nat).
  { rewrite Hio2, Hgate.
    assert (Hone : (count (targets config (filePathOf config task)) (results k) <= 1)%nat).
    { apply (count_at_most_one _ agentName (id task)).
      - subst k. by rewrite validateAndPackageResults_names.
      - intros r _. by apply targets_names. }
    destruct (has (id task) (realtimeWrittenTasks w1)) eqn:Hhas; [|lia].
    rewrite count_none; [lia|].
    intros r Hr. destruct (targets config (filePathOf config task) r) eqn:Ht; [|done].
    exfalso. pose proof (targets_names task r Htask Ht) as Hname.
    apply andb_true_iff in Ht as [Hfl _]. apply negb_true_iff in Hfl.
    subst k. cbn [results validateAndPackageResults] in Hr.
    apply list_elem_of_fmap in Hr as (o & -> & Ho). cbn in Hname, Hfl.
    subst outs. apply elem_of_app in Ho as [Ho|Ho].
    + rewrite Forall_forall in Hflag. rewrite (Hflag o Ho) in Hfl. done.
    + apply has_true in Hhas.
      destruct (recovered_remaining_ids extractStructuredData now config analysisResult w1)
        as [_ Hfresh].
      apply (Hfresh (id task)); [|done].
      rewrite <- fallbackOutputs_ids, <- Hname. by apply list_elem_of_fmap_2. }
  pose proof (updateKnowledgeBase_writes k task w2 Htask) as Hupd.
  destruct (updateKnowledgeBase dumpIndex k config w2) as [[] w3]; cbn [snd] in *; lia.
Qed.

End FinalPass.

(* ===================================================================== *)
(** ** The acceptance threshold of the live scan                           *)
(* ===================================================================== *)

(** C5, as amended. For a task not yet written whose start and end markers
    are both in the buffer, in this order, with trimmed content [c] between
    them: the content is handed to [writeTaskImmediately] if and only if
    [c] is longer than 100; the task enters the written-set if and only if,
    in addition, the write succeeds; and a content of length 100 or less
    leaves the written-set, the files and the record of writes as they
    were, so that a later scan finds the task still open. *)
Theorem segment_resolved_iff_longer_than_100 (now : jsstring) (config : AnalysisConfig)
    (content : jsstring) (w : World) (task : AnalysisTask) (c : jsstring) :
  has (id task) (realtimeWrittenTasks w) = false ->
  between content (startMarker task) (endMarker task) = Some c ->
  let w' := detectTask now content config w task in
  (Handed (id task) c ∈ drop (length (io w)) (io w') <-> (100 < length c)%nat)
  /\ (has (id task) (realtimeWrittenTasks w') = true
      <-> (100 < length c)%nat /\ writeSucceeds w = true)
  /\ ((length c <= 100)%nat ->
      realtimeWrittenTasks w' = realtimeWrittenTasks w
      /\ io w' = io w /\ files w' = files w).
Proof.
  intros Hnot Hbetween w'. subst w'.
  destruct (detectTask_cases now config content w task Hnot)
    as (opened & Hrtw & Hio & Hfiles & Htape & Hcase).
  rewrite Hbetween in Hcase.
  assert (Hws : writeSucceeds opened = writeSucceeds w)
    by (unfold writeSucceeds; by rewrite Htape).
  destruct (100 <? length c)%nat eqn:Hlen.
  - apply Nat.ltb_lt in Hlen.
    destruct (writeTaskImmediately_spec now config task c opened)
      as (Hok & Hr & _ & Hi & _).
    cbv zeta in Hcase. rewrite Hcase, Hok, Hws.
    split; [|split; [|lia]].
    + split; [done|]. intros _.
      destruct (writeSucceeds w); cbn [io set_taskBuffer set_realtimeWrittenTasks];
        rewrite Hi, Hio, drop_app_length; rewrite Hws; left.
    + destruct (writeSucceeds w) eqn:Hsucc;
        cbn [realtimeWrittenTasks set_taskBuffer set_realtimeWrittenTasks];
        rewrite Hr, Hrtw.
      * rewrite has_add, (proj2 (eqs_true _ _) eq_refl), orb_true_r. done.
      * rewrite Hnot. split; [done|]. by intros [_ ?].
  - apply Nat.ltb_ge in Hlen. rewrite Hcase, Hrtw, Hio, Hfiles.
    split; [|split; [|done]].
    + rewrite drop_all. split; [by intros ?%elem_of_nil|lia].
    + rewrite Hnot. split; [done|lia].
Qed.

(* ===================================================================== *)
(** ** The order of the fallback strategies                                *)
(* ===================================================================== *)

Lemma hit_Some (r : option jsstring) (c : jsstring) :
  r = Some c -> (hit r = true <-> c <> []).
Proof. intros ->. destruct c; cbn; split; done. Qed.

Lemma firstSome_hit {A : Type} (f : A -> option jsstring) (l : list A) (c : jsstring) :
  (forall x y, f x = Some y -> truthy y = true) ->
  firstSome f l = Some c -> truthy c = true.
Proof.
  intros Hf. induction l as [|x l IH]; [done|]. cbn.
  destruct (f x) as [y|] eqn:E; [|done]. intros [= <-]. eauto.
Qed.

(** The fuzzy strategy only ever returns a text longer than 100. *)
Lemma tryFuzzyMatching_long (analysisResult : jsstring) (task : AnalysisTask) (c : jsstring) :
  tryFuzzyMatching analysisResult task = Some c -> (100 < length c)%nat.
Proof.
  unfold tryFuzzyMatching. generalize (patterns task). intros ps.
  induction ps as [|p ps IH]; [done|]. cbn [firstSome].
  destruct (p analysisResult) as [group|]; [|done].
  destruct (truthy group && (100 <? length (trim group))%nat) eqn:E; [|done].
  intros [= <-]. apply andb_true_iff in E as [_ E]. by apply Nat.ltb_lt.
Qed.

(** A marker that is not in the text makes [between] fail, so a text
    without the exact start marker fails strategy 1 and a text without any
    variant start marker fails strategy 2. *)
Lemma indexOf_from_absent (i : Z) (s needle : jsstring) :
  includes s needle = false -> indexOf_from i s needle = (-1)%Z.
Proof.
  revert i. induction s as [|ch s IH]; intros i; cbn.
  - destruct (startsWith needle []); [done|done].
  - destruct (startsWith needle (ch :: s)); [done|]. cbn. apply IH.
Qed.

Lemma indexOf_from_found (i : Z) (s needle : jsstring) :
  includes s needle = true -> (i <= indexOf_from i s needle)%Z.
Proof.
  revert i. induction s as [|ch s IH]; intros i; cbn.
  - rewrite orb_false_r. intros ->. lia.
  - destruct (startsWith needle (ch :: s)); [lia|]. cbn. intros H.
    specialize (IH (i + 1)%Z H). lia.
Qed.

(** [includes] and [indexOf] agree, as they do in JavaScript. *)
Lemma includes_indexOf (s needle : jsstring) :
  includes s needle = negb (indexOf s needle =? -1)%Z.
Proof.
  unfold indexOf. destruct (includes s needle) eqn:E.
  - pose proof (indexOf_from_found 0 s needle E). symmetry.
    apply negb_true_iff, Z.eqb_neq. lia.
  - by rewrite (indexOf_from_absent 0 s needle E).
Qed.

Lemma between_absent (analysisResult startMarker endMarker : jsstring) :
  includes analysisResult startMarker = false ->
  between analysisResult startMarker endMarker = None.
Proof.
  intros H. unfold between, indexOf. by rewrite (indexOf_from_absent 0 _ _ H).
Qed.

Lemma firstSome_none {A B : Type} (f : A -> option B) (l : list A) :
  (forall x, x ∈ l -> f x = None) -> firstSome f l = None.
Proof.
  induction l as [|x l IH]; intros H; [done|]. cbn [firstSome].
  rewrite (H x) by left. apply IH. intros y Hy. apply H. by right.
Qed.

(** The first loop of [parseTaskOutputs] only makes outputs for ids of the
    written-set. *)
Lemma realtimeOutputs_within extractStructuredData config (ids : list jsstring)
    (w : World) (o : TaskOutput) :
  o ∈ (realtimeOutputs extractStructuredData config ids w).1 -> taskId o ∈ ids.
Proof.
  revert w. induction ids as [|x ids IH]; intros w; [by intros ?%elem_of_nil|].
  cbn [realtimeOutputs].
  destruct (find _ ANALYSIS_TASKS) as [task|] eqn:E.
  - apply find_some in E as [_ Hid]. apply bool_decide_eq_true in Hid.
    pose proof (realtimeOutput_taskId extractStructuredData config task w) as Ho.
    destruct (realtimeOutput extractStructuredData config task w) as [o1 w1].
    specialize (IH w1).
    destruct (realtimeOutputs extractStructuredData config ids w1) as [os w2].
    cbn [fst] in *. intros [->|Hin]%elem_of_cons.
    + rewrite Ho, Hid. by left.
    + right. by apply IH.
  - intros Hin. right. by apply (IH w).
Qed.

(** C8, as amended. For a task that was not written while the stream was
    open:
    - the fallback extraction returns the result of the first strategy, in
      the order exact markers, marker variants, heading match, whose result
      passes the test [if (result)] of the code, that is one that found a
      non-empty text; a marker match with nothing between the markers is
      passed over, and the heading match decides only when the two marker
      strategies have not passed;
    - [parseTaskOutputs] returns an output for the task exactly when that
      text is longer than 100 characters, and the output is the formatted
      text with the task's id, name and file;
    - so a text without the exact start marker and without any variant
      start marker, in which the heading match finds a content, makes the
      two marker strategies return nothing and the task gets the output of
      the heading's content;
    - a task for which no strategy passes has no output at all: it is left
      out of the list, which is returned all the same with the outputs of
      the other tasks. *)
Theorem fallback_first_hit_wins (extractStructuredData : jsstring -> StructuredData)
    (now : jsstring) (config : AnalysisConfig) (analysisResult : jsstring)
    (w : World) (task : AnalysisTask) :
  task ∈ remainingTasks w ->
  let outs := (parseTaskOutputs extractStructuredData now analysisResult config w).1 in
  let output taskContent :=
    {| taskId := id task;
       document := formatDocument now taskContent task (basename (repoPath config));
       metadata :=
         spread {[ "taskName" := JStr (name task);
                   "outputFile" := JStr (outputFile task);
                   "fallbackParsed" := JBool true ]}
                (sd_metadata (extractStructuredData taskContent));
       references := sd_references (extractStructuredData taskContent) |} in
  (forall c,
     extractTaskContentForFallback analysisResult task = Some c <->
     (tryStandardFormat analysisResult task = Some c /\ c <> [])
     \/ (hit (tryStandardFormat analysisResult task) = false
         /\ tryVariantFormats analysisResult task = Some c /\ c <> [])
     \/ (hit (tryStandardFormat analysisResult task) = false
         /\ hit (tryVariantFormats analysisResult task) = false
         /\ tryFuzzyMatching analysisResult task = Some c))
  /\ (forall o,
        o ∈ outs /\ taskId o = id task <->
        exists c, extractTaskContentForFallback analysisResult task = Some c
                  /\ (100 < length c)%nat /\ o = output c)
  /\ (includes analysisResult (startMarker task) = false ->
      (forall v, v ∈ variants task -> includes analysisResult v.1 = false) ->
      forall c, tryFuzzyMatching analysisResult task = Some c ->
        tryStandardFormat analysisResult task = None
        /\ tryVariantFormats analysisResult task = None
        /\ output c ∈ outs)
  /\ (extractTaskContentForFallback analysisResult task = None ->
      (id task ∉ map taskId outs)
      /\ forall other o,
           other ∈ remainingTasks w ->
           fallbackOutput extractStructuredData now analysisResult config other = Some o ->
           o ∈ outs).
Proof.
  intros Hrem outs output.
  assert (Horder : forall c,
     extractTaskContentForFallback analysisResult task = Some c <->
     (tryStandardFormat analysisResult task = Some c /\ c <> [])
     \/ (hit (tryStandardFormat analysisResult task) = false
         /\ tryVariantFormats analysisResult task = Some c /\ c <> [])
     \/ (hit (tryStandardFormat analysisResult task) = false
         /\ hit (tryVariantFormats analysisResult task) = false
         /\ tryFuzzyMatching analysisResult task = Some c)).
  { intros c. unfold extractTaskContentForFallback.
    destruct (tryFuzzyMatching analysisResult task) as [f|] eqn:Ef;
      [pose proof (tryFuzzyMatching_long _ _ _ Ef) as Hl;
       assert (Hf : hit (Some f) = true) by exact (truthy_long f 100 Hl);
       rewrite Hf|];
      destruct (tryStandardFormat analysisResult task) as [[|s0 s]|];
      destruct (tryVariantFormats analysisResult task) as [[|v0 v]|];
      cbn [hit truthy];
      (split;
       [intros ?; simplify_eq; auto 7
       |intros [[? ?]|[(? & ? & ?)|(? & ? & ?)]]; simplify_eq; done]). }
  assert (Hdeclared : forall t, t ∈ remainingTasks w ->
            t ∈ ANALYSIS_TASKS /\ id t ∉ realtimeWrittenTasks w).
  { intros t Ht. unfold remainingTasks in Ht.
    apply list_elem_of_filter in Ht as [Hf Ht]. split; [done|].
    apply negb_true_iff in Hf. by apply has_false. }
  assert (Hown : forall o,
            fallbackOutput extractStructuredData now analysisResult config task = Some o <->
            exists c, extractTaskContentForFallback analysisResult task = Some c
                      /\ (100 < length c)%nat /\ o = output c).
  { intros o. unfold fallbackOutput.
    destruct (extractTaskContentForFallback analysisResult task) as [c|]; cycle 1.
    { split; [done|]. by intros (c & ? & _). }
    destruct (Nat.ltb_spec 100 (length c)) as [Hlen|Hlen].
    - rewrite (truthy_long c 100 Hlen). cbn [andb]. split.
      + intros [= <-]. by exists c.
      + intros (c' & [= <-] & _ & ->). done.
    - rewrite andb_false_r. split; [done|]. intros (c' & [= <-] & ? & _). lia. }
  assert (Hout : forall o,
        o ∈ outs /\ taskId o = id task <->
        fallbackOutput extractStructuredData now analysisResult config task = Some o).
  { intros o. subst outs. unfold parseTaskOutputs.
    pose proof (realtimeOutputs_within extractStructuredData config
                  (realtimeWrittenTasks w) w o) as Hwithin.
    destruct (realtimeOutputs extractStructuredData config (realtimeWrittenTasks w) w)
      as [written w1]. cbn [fst] in *. split.
    - intros [[Hin|Hin]%elem_of_app Hid].
      + exfalso. apply Hwithin in Hin. rewrite Hid in Hin.
        by apply (proj2 (Hdeclared task Hrem)).
      + apply list_elem_of_omap in Hin as (t & Ht & Hfo).
        pose proof (fallbackOutput_taskId _ _ _ _ _ _ Hfo) as Hid'.
        rewrite Hid in Hid'.
        rewrite (declared_id_inj task t (proj1 (Hdeclared task Hrem))
                   (proj1 (Hdeclared t Ht)) Hid'). exact Hfo.
    - intros Hfo. split; [|by eapply fallbackOutput_taskId].
      apply elem_of_app. right. apply list_elem_of_omap. by exists task. }
  split; [exact Horder|]. split; [intros o; by rewrite Hout|]. split.
  - intros Hstd Hvar c Hfuzzy.
    assert (H1 : tryStandardFormat analysisResult task = None)
      by (by apply between_absent).
    assert (H2 : tryVariantFormats analysisResult task = None).
    { apply firstSome_none. intros v Hv. apply between_absent. by apply Hvar. }
    split; [done|]. split; [done|].
    apply (proj2 (Hout (output c))), Hown. exists c.
    split; [|split; [by eapply tryFuzzyMatching_long|done]].
    apply Horder. right; right. by rewrite H1, H2.
  - intros Hnone.
    assert (Hfo : fallbackOutput extractStructuredData now analysisResult config task = None)
      by (unfold fallbackOutput; by rewrite Hnone).
    split.
    + intros (o & Hid & Hin)%list_elem_of_fmap.
      assert (Hsome : fallbackOutput extractStructuredData now analysisResult config task
                      = Some o) by (by apply Hout).
      by rewrite Hfo in Hsome.
    + intros other o Hother Ho. subst outs. unfold parseTaskOutputs.
      destruct (realtimeOutputs extractStructuredData config (realtimeWrittenTasks w) w)
        as [written w1]. cbn [fst].
      apply elem_of_app. right. apply list_elem_of_omap. by exists other.
Qed.

(* ===================================================================== *)
(** ** Confidence                                                          *)
(* ===================================================================== *)

Lemma startsWith_app (needle s t : jsstring) :
  startsWith needle s = true -> startsWith needle (s ++ t) = true.
Proof.
  revert s. induction needle as [|n needle IH]; intros [|c s]; cbn; try done.
  intros [-> H]%andb_true_iff. by rewrite IH.
Qed.

Lemma includes_app_l (s t needle : jsstring) :
  includes s needle = true -> includes (s ++ t) needle = true.
Proof.
  induction s as [|c s IH]; cbn.
  - rewrite orb_false_r. intros H. destruct needle; [|done].
    by destruct t.
  - intros [H|H]%orb_true_iff.
    + apply (startsWith_app _ _ t) in H. cbn [app] in H. by rewrite H.
    + rewrite IH by done. apply orb_true_r.
Qed.

Lemma includes_app_r (s t needle : jsstring) :
  includes t needle = true -> includes (s ++ t) needle = true.
Proof.
  intros H. induction s as [|c s IH]; [done|]. cbn. rewrite IH. apply orb_true_r.
Qed.

(** Text inserted into a document creates no occurrence of a needle it
    shares no character with. *)
Lemma startsWith_insert (needle x ann y : jsstring) :
  avoids ann needle = true ->
  startsWith needle (x ++ ann ++ y) = true -> startsWith needle (x ++ y) = true.
Proof.
  revert x. induction needle as [|n needle IH]; intros x Hav; [by destruct (x ++ y)|].
  assert (Hav' : avoids ann needle = true).
  { unfold avoids in *. rewrite forallb_forall in *. intros c Hc.
    specialize (Hav c Hc). cbn in Hav. apply negb_true_iff in Hav.
    apply orb_false_iff in Hav as [_ Hav]. by rewrite Hav. }
  destruct x as [|c x]; cbn [app].
  - destruct ann as [|a ann]; [done|]. cbn.
    intros [Hna _]%andb_true_iff. apply N.eqb_eq in Hna. subst a.
    cbn in Hav. by rewrite N.eqb_refl in Hav.
  - cbn. intros [-> H]%andb_true_iff. cbn. by apply IH.
Qed.

Lemma includes_nil (s : jsstring) : includes s [] = true.
Proof. by destruct s. Qed.

Lemma includes_insert (needle x ann y : jsstring) :
  avoids ann needle = true ->
  includes (x ++ ann ++ y) needle = true -> includes (x ++ y) needle = true.
Proof.
  destruct needle as [|n needle]; [intros; apply includes_nil|].
  intros Hav. induction x as [|c x IH]; cbn [app].
  - induction ann as [|a ann IHa]; [done|].
    assert (Hav' : avoids ann (n :: needle) = true).
    { cbn in Hav. by apply andb_true_iff in Hav as [_ ?]. }
    cbn [app includes]. intros [H|H]%orb_true_iff; [|by apply IHa].
    exfalso. cbn in H.
    apply andb_true_iff in H as [Hna _]. apply N.eqb_eq in Hna. subst a.
    cbn in Hav. by rewrite N.eqb_refl in Hav.
  - cbn [includes]. intros [H|H]%orb_true_iff.
    + apply (startsWith_insert (n :: needle) (c :: x) ann y Hav) in H.
      cbn [app] in H. by rewrite H.
    + rewrite IH by done. apply orb_true_r.
Qed.

(** Every fixed annotation carries the marker '[注意：', is at most 23
    characters long, and shares no character with the structure needles. *)
Lemma annotations_facts (ann : jsstring) :
  ann ∈ annotations ->
  includes ann needle_note = true
  /\ (length ann <= 23)%nat
  /\ Forall (fun needle => avoids ann needle = true) structureNeedles.
Proof.
  unfold annotations. intros H.
  repeat (apply elem_of_cons in H as [->|H]); try (by apply elem_of_nil in H);
    (split; [vm_compute; reflexivity|]); (split; [vm_compute; lia|]);
    repeat constructor.
Qed.

Lemma confidence_bounds (output : TaskOutput) :
  (0 <= calculateTaskConfidence output)%Q /\ (calculateTaskConfidence output <= 1)%Q.
Proof.
  unfold calculateTaskConfidence.
  set (l := (inject_Z (Z.of_nat (length (document output))) / 2000)%Q).
  assert (Hl : (0 <= l)%Q).
  { subst l. apply Qle_shift_div_l; [reflexivity|].
    rewrite Qmult_0_l. change 0%Q with (inject_Z 0). rewrite <- Zle_Qle. lia. }
  assert (Hm : (0 <= Qmin l 1)%Q /\ (Qmin l 1 <= 1)%Q).
  { split; [apply Q.min_glb; [done|discriminate]|apply Q.le_min_r]. }
  destruct Hm as [Hm0 Hm1]. generalize dependent (Qmin l 1). intros m Hm0 Hm1.
  split.
  - apply Q.min_glb; [|discriminate].
    repeat match goal with |- context [if ?c then _ else _] => destruct c end; lra.
  - apply Q.le_min_r.
Qed.

(** The length term of a document with an annotation of at most 23
    characters inserted, damped by 0.7, is at most the length term of the
    document itself, once the document has more than 100 characters. *)
Lemma damped_length_term (n a : nat) :
  (100 < n)%nat -> (a <= 23)%nat ->
  (Qmin (inject_Z (Z.of_nat (n + a)) / 2000) 1 * (7 # 10)
   <= Qmin (inject_Z (Z.of_nat n) / 2000) 1)%Q.
Proof.
  intros Hn Ha.
  assert (Hn' : (100 < inject_Z (Z.of_nat n))%Q).
  { change 100%Q with (inject_Z 100). rewrite <- Zlt_Qlt. lia. }
  assert (Hsum : (inject_Z (Z.of_nat (n + a)) <= inject_Z (Z.of_nat n) + 23)%Q).
  { change 23%Q with (inject_Z 23). rewrite <- inject_Z_plus, <- Zle_Qle. lia. }
  generalize dependent (inject_Z (Z.of_nat (n + a))). intros qa Hsum.
  generalize dependent (inject_Z (Z.of_nat n)). intros qn Hn' Hsum.
  destruct (Q.min_spec (qa / 2000) 1) as [[H1 ->]|[H1 ->]];
    destruct (Q.min_spec (qn / 2000) 1) as [[H2 ->]|[H2 ->]];
    unfold Qdiv in *; change (/ 2000)%Q with (1 # 2000)%Q in *; lra.
Qed.

(** One bonus step keeps the damped score of the annotated document at
    most the score of the document. *)
Lemma bonus_step (b' b : bool) (c' c q : Q) :
  (b' = true -> b = true) -> (0 <= q)%Q -> (c' * (7 # 10) <= c)%Q ->
  ((if b' then c' + q else c') * (7 # 10) <= (if b then c + q else c))%Q.
Proof. intros Hb Hq Hc. destruct b'; [rewrite Hb by done|destruct b]; lra. Qed.

(** C9, as amended. For a document of more than 100 characters that
    carries neither '[注意：' nor '分析因', inserting one of the fixed
    annotations anywhere in it (appending it, in particular) does not raise
    the confidence; and every confidence lies between 0 and 1. *)
Theorem annotated_confidence_at_most_live (x y ann : jsstring) (refs : list jsstring) :
  ann ∈ annotations ->
  (100 < length (x ++ y))%nat ->
  includes (x ++ y) needle_note = false ->
  includes (x ++ y) needle_because = false ->
  (calculateTaskConfidence (outputOf (x ++ ann ++ y) refs)
   <= calculateTaskConfidence (outputOf (x ++ y) refs))%Q
  /\ (forall output,
        (0 <= calculateTaskConfidence output)%Q
        /\ (calculateTaskConfidence output <= 1)%Q).
Proof.
  intros Hann Hlen Hn1 Hn2. split; [|apply confidence_bounds].
  destruct (annotations_facts ann Hann) as (Hnote & Ha & Hav).
  assert (Hpen : includes (x ++ ann ++ y) needle_note = true).
  { apply includes_app_r, includes_app_l, Hnote. }
  assert (Hins : Forall (fun needle =>
            includes (x ++ ann ++ y) needle = true -> includes (x ++ y) needle = true)
            structureNeedles).
  { eapply Forall_impl; [exact Hav|]. intros needle Hneedle.
    by apply includes_insert. }
  unfold structureNeedles in Hins.
  apply Forall_cons in Hins as [H1 Hins]. apply Forall_cons in Hins as [H2 Hins].
  apply Forall_cons in Hins as [H3 Hins]. apply Forall_cons in Hins as [H4 Hins].
  apply Forall_cons in Hins as [H5 _].
  unfold calculateTaskConfidence. cbn [document references outputOf].
  rewrite Hpen, Hn1, Hn2. cbn [orb].
  assert (Hl : length (x ++ ann ++ y) = (length (x ++ y) + length ann)%nat).
  { rewrite !length_app. lia. }
  rewrite Hl.
  pose proof (damped_length_term (length (x ++ y)) (length ann) Hlen Ha) as Hd.
  apply Q.min_glb; [|apply Q.le_min_r].
  eapply Qle_trans; [apply Q.le_min_l|].
  apply bonus_step; [done|lra|].
  apply bonus_step;
    [intros [? ?]%andb_true_iff; apply andb_true_iff; auto|lra|].
  apply bonus_step; [done|lra|].
  apply bonus_step;
    [intros [? ?]%andb_true_iff; apply andb_true_iff; auto|lra|].
  generalize dependent (Qmin (inject_Z (Z.of_nat (length (x ++ y) + length ann)) / 2000) 1).
  intros m' Hd.
  generalize dependent (Qmin (inject_Z (Z.of_nat (length (x ++ y))) / 2000) 1).
  intros m Hd. lra.
Qed.

(* ===================================================================== *)
(** ** The statements at concrete inputs                                   *)
(* ===================================================================== *)

Import Inputs.

(** C1 as stated fails: with one task resolved of the four declared, the
    results hold one entry, not four; the three unresolved tasks have
    none. *)
Lemma unresolved_tasks_have_no_entry :
  match oneOfFour with
  | (inl k, _, _) =>
      map agentName (results k) = [str "overview"]
      /\ length (results k) <> length ANALYSIS_TASKS
  | _ => False
  end.
Proof. vm_compute. split; [reflexivity|discriminate]. Qed.

(** The amended C1 at a session whose text holds a complete segment for
    [systemArchitecture] and, without markers, the heading of [overview]:
    the first is written by the scan, the second recovered from the
    returned text, and the other two tasks have no entry. *)
Lemma results_hold_resolved_tasks_once_witness :
  match executeKnowledgeGeneration noStructuredData clock noIndex promptOk config
          [answer segmentThenHeading] fresh with
  | (inl k, tr, w') =>
      map agentName (results k) = [str "systemArchitecture"; str "overview"]
      /\ exists prompt analysisResult w1,
           promptOk config = inl prompt
           /\ executeUnifiedAnalysis clock prompt config [answer segmentThenHeading] fresh
              = (inl analysisResult, tr, w1)
           /\ realtimeWrittenTasks w' = realtimeWrittenTasks w1
           /\ map agentName (results k)
              = realtimeWrittenTasks w1
                ++ map id (recovered noStructuredData clock config analysisResult
                             (remainingTasks w1))
           /\ (forall task, task ∈ ANALYSIS_TASKS ->
                 (id task ∈ map agentName (results k)
                  <-> has (id task) (realtimeWrittenTasks w1) = true
                      \/ exists taskContent,
                           extractTaskContentForFallback analysisResult task
                           = Some taskContent
                           /\ (100 < length taskContent)%nat))
           /\ NoDup (map agentName (results k))
           /\ (forall a, a ∈ map agentName (results k) -> a ∈ map id ANALYSIS_TASKS)
           /\ Forall (fun r => status r = status_success) (results k)
           /\ (length (results k) <= length ANALYSIS_TASKS)%nat
  | _ => False
  end.
Proof.
  assert (Hreturns :
    match executeKnowledgeGeneration noStructuredData clock noIndex promptOk config
            [answer segmentThenHeading] fresh with
    | (inl k, _, _) =>
        map agentName (results k) = [str "systemArchitecture"; str "overview"]
    | _ => False
    end) by (vm_compute; reflexivity).
  remember (executeKnowledgeGeneration noStructuredData clock noIndex promptOk config
              [answer segmentThenHeading] fresh) as run eqn:E.
  symmetry in E. destruct run as [[[k|e] tr] w'].
  - split; [exact Hreturns|].
    exact (results_hold_resolved_tasks_once noStructuredData clock noIndex promptOk
             config [answer segmentThenHeading] fresh k tr w' E).
  - exact Hreturns.
Defined.

(** C2 at the failing input: one task resolved of four, and the status is
    'success'. *)
Theorem one_resolved_of_four_reports_success :
  match oneOfFour with
  | (inl k, _, _) =>
      totalTasks (k_metadata k) = 4%nat
      /\ successfulTasks (k_metadata k) = 1%nat
      /\ k_status k = status_success
  | _ => False
  end.
Proof. vm_compute. repeat split. Qed.

(** C3 as stated fails: 60 buffered characters are at least 50, partial
    messages are on, the call is cancelled, and [runQuery] throws. *)
Lemma sixty_buffered_characters_are_lost :
  (50 <= length (buffered (messages (stream 60 (str "cancelled")))))%nat
  /\ includePartialMessages partialOptions = true
  /\ (runQuery noListener (stream 60 (str "cancelled")) partialOptions tt).1
     = inr (Error msg_cancelled).
Proof. vm_compute. split; [lia|]. split; reflexivity. Qed.

(** C5 as stated fails: reaching the length is not enough to be gated as
    written. A segment of 140 characters is handed to persistence, the
    write of its file is refused, and the task does not enter the
    written-set; the next scan of the same buffer finds it open and writes
    it. *)
Lemma long_segment_stays_open_when_write_fails :
  between (segment (str "overview") 140) (startMarker overviewTask) (endMarker overviewTask)
    = Some (chars 140)
  /\ (100 <= length (chars 140))%nat
  /\ io (detectAndWriteCompletedTasks clock (segment (str "overview") 140) config
           refusedWrite)
     = [Handed (str "overview") (chars 140)]
  /\ realtimeWrittenTasks
       (detectAndWriteCompletedTasks clock (segment (str "overview") 140) config
          refusedWrite) = []
  /\ realtimeWrittenTasks
       (detectAndWriteCompletedTasks clock (segment (str "overview") 140) config
          (detectAndWriteCompletedTasks clock (segment (str "overview") 140) config
             refusedWrite)) = [str "overview"].
Proof. vm_compute. split; [reflexivity|]. split; [lia|]. repeat split. Qed.

(** The boundary of C5: a segment whose trimmed content has exactly 100
    characters is not handed to persistence. *)
Lemma segment_of_100_stays_open :
  between (segment (str "overview") 100) (startMarker overviewTask) (endMarker overviewTask)
    = Some (chars 100)
  /\ length (chars 100) = 100%nat
  /\ realtimeWrittenTasks
       (detectAndWriteCompletedTasks clock (segment (str "overview") 100) config fresh) = []
  /\ io (detectAndWriteCompletedTasks clock (segment (str "overview") 100) config fresh) = [].
Proof. vm_compute. repeat split. Qed.

(** C6 as stated fails: after a turn limit the degraded call keeps the
    timeout of the failed call; it is not scaled. *)
Lemma turn_limit_keeps_timeout :
  match trace (turnLimitThenShort 200).2 with
  | [Queried NormalQuery _ _ c0 (inr e); Queried DegradedQuery _ _ c1 _] =>
      isLimitError (err_message e) = true
      /\ m_fallbackToSimplerPrompt c0 = true
      /\ m_timeout c1 = m_timeout c0
  | _ => False
  end.
Proof. vm_compute. repeat split. Qed.

(** C7 as stated fails: the degraded call yields 60 characters, fewer than
    100, no call of the run yields 100, and the run returns that text with
    the note of a simplified analysis instead of throwing. *)
Lemma short_degraded_result_is_returned :
  (turnLimitThenShort 60).1 = inl (chars 60 ++ note_simplified)
  /\ forallb (fun ev => match ev with
                        | Queried _ _ _ _ (inl r) => (length r <? 100)%nat
                        | _ => true
                        end) (trace (turnLimitThenShort 60).2) = true.
Proof. vm_compute. split; reflexivity. Qed.

(** C8 as stated fails, in two ways. In the first text the exact markers
    of [overview] have nothing between them and the heading of [overview]
    follows with 140 characters: the first strategy matches, its empty
    result is passed over, the variant with two equals signs matches
    inside the exact markers and its four characters are returned; the
    task gets no output although the heading match has 140 characters for
    it. In the second text only the heading is there: [overview] resolves,
    and the three tasks that no strategy matches are not marked missing,
    the outputs and the results of the session hold no entry for them. *)
Lemma blank_exact_match_is_passed_over :
  tryStandardFormat (blankThenHeading 140) overviewTask = Some []
  /\ tryVariantFormats (blankThenHeading 140) overviewTask
     = Some (str "=" ++ [10; 10]%N ++ str "=")
  /\ tryFuzzyMatching (blankThenHeading 140) overviewTask = Some (chars 140)
  /\ extractTaskContentForFallback (blankThenHeading 140) overviewTask
     = Some (str "=" ++ [10; 10]%N ++ str "=")
  /\ (parseTaskOutputs noStructuredData clock (blankThenHeading 140) config fresh).1 = []
  /\ map (extractTaskContentForFallback (headingOnly 140)) ANALYSIS_TASKS
     = [Some (chars 140); None; None; None]
  /\ map taskId (parseTaskOutputs noStructuredData clock (headingOnly 140) config fresh).1
     = [str "overview"]
  /\ match executeKnowledgeGeneration noStructuredData clock noIndex promptOk config
             [answer (headingOnly 140)] fresh with
     | (inl k, _, _) => map agentName (results k) = [str "overview"]
     | _ => False
     end.
Proof. vm_compute. repeat split. Qed.

(** C9 as stated fails, in two ways: on a short document the annotation
    adds more to the length term than the damping takes away, and on a
    document that already carries '分析因' both scores are damped and the
    longer, annotated document scores higher. *)
Lemma annotation_can_raise_confidence :
  (calculateTaskConfidence (outputOf [] [])
   < calculateTaskConfidence (outputOf ([] ++ note_simplified) []))%Q
  /\ (100 < length (chars 150 ++ needle_because))%nat
  /\ (calculateTaskConfidence (outputOf (chars 150 ++ needle_because) [])
      < calculateTaskConfidence (outputOf ((chars 150 ++ needle_because) ++ note_simplified) []))%Q.
Proof. vm_compute. split; [reflexivity|]. split; [lia|reflexivity]. Qed.

(** The amended C3 at a cancellation with 300 buffered characters: the
    buffered text comes back with the note of a cancelled analysis. *)
Lemma runQuery_salvage_witness :
  (runQuery noListener (stream 300 (str "cancelled")) partialOptions tt).1
  = inl (buffered (messages (stream 300 (str "cancelled")))
         ++ annotation (terminal (stream 300 (str "cancelled")))).
Proof.
  apply (runQuery_salvage noListener (stream 300 (str "cancelled")) partialOptions tt).
  - vm_compute. lia.
  - vm_compute. reflexivity.
  - vm_compute. reflexivity.
Defined.

(** The amended C5 at a segment of 140 characters in a fresh session. *)
Lemma segment_resolved_iff_longer_than_100_witness :
  let w' := detectTask clock (segment (str "overview") 140) config fresh overviewTask in
  (Handed (id overviewTask) (chars 140) ∈ drop (length (io fresh)) (io w')
   <-> (100 < length (chars 140))%nat)
  /\ (has (id overviewTask) (realtimeWrittenTasks w') = true
      <-> (100 < length (chars 140))%nat /\ writeSucceeds fresh = true)
  /\ ((length (chars 140) <= 100)%nat ->
      realtimeWrittenTasks w' = realtimeWrittenTasks fresh
      /\ io w' = io fresh /\ files w' = files fresh).
Proof.
  apply (segment_resolved_iff_longer_than_100 clock config
           (segment (str "overview") 140) fresh overviewTask (chars 140)).
  - vm_compute. reflexivity.
  - vm_compute. reflexivity.
Defined.

(** The amended C6 at a run with the default configuration whose first
    call ends by a turn limit after 60 streamed characters and whose
    degraded call ends the same way: the degraded call, then the one
    salvage call, then the wait before the second attempt. *)
Lemma limit_failure_degrades_at_once_witness :
  exists outcome mid tl,
    trace (attempts noListener (str "PROMPT") (str "system") (mergeConfig None)
             3 1 (engine [stream 60 (str "error_max_turns");
                          stream 60 (str "error_max_turns")])).2 =
      trace (performQuery noListener NormalQuery (str "PROMPT") (str "system")
               (mergeConfig None)
               (engine [stream 60 (str "error_max_turns");
                        stream 60 (str "error_max_turns")])).2
      ++ Queried DegradedQuery (createSimplifiedPrompt (str "PROMPT"))
           (queryOptions (str "system")
              (simplifiedConfig (mergeConfig None) msg_max_turns) false)
           (simplifiedConfig (mergeConfig None) msg_max_turns)
           outcome :: mid ++ tl
    /\ match outcome with
       | inl _ => mid = []
       | inr _ =>
           exists salvaged,
             mid = [Queried SalvageQuery (str "PROMPT")
                      (queryOptions (str "system") (partialConfig (mergeConfig None)) true)
                      (partialConfig (mergeConfig None)) salvaged]
       end
    /\ (tl = [] \/ exists ms tl', tl = Delayed ms :: tl').
Proof.
  destruct (limit_failure_degrades_at_once noListener (str "PROMPT") (str "system")
              (mergeConfig None) 2 1
              (engine [stream 60 (str "error_max_turns");
                       stream 60 (str "error_max_turns")]))
    as (outcome & mid & tl & H1 & H2 & H3 & _).
  - vm_compute. reflexivity.
  - vm_compute. reflexivity.
  - vm_compute. reflexivity.
  - lia.
  - exists outcome, mid, tl. split; [exact H1|]. split; [|exact H3].
    destruct outcome; exact H2.
Defined.

(** The amended C7 at a run whose degraded call yields 40 characters:
    three attempts, then the failure. *)
Lemma exhausted_attempts_fail_witness :
  exists msg,
    (executeAnalysis noListener (str "PROMPT") (str "system") (Some strictConfig)
       (engine [stream 60 (str "error_max_turns"); answer (chars 40)])).1
    = inr (Error (msg_analysis_failed ++ msg)).
Proof.
  destruct (exhausted_attempts_fail noListener (str "PROMPT") (str "system")
              (Some strictConfig)
              (engine [stream 60 (str "error_max_turns"); answer (chars 40)]))
    as (msg & H & _).
  - vm_compute. lia.
  - vm_compute. reflexivity.
  - exists msg. exact H.
Defined.

(** The amended C9 at a document of 150 characters with the note of a
    simplified analysis appended. *)
Lemma annotated_confidence_at_most_live_witness :
  (calculateTaskConfidence (outputOf (chars 150 ++ note_simplified ++ []) [])
   <= calculateTaskConfidence (outputOf (chars 150 ++ []) []))%Q.
Proof.
  apply (annotated_confidence_at_most_live (chars 150) [] note_simplified []).
  - left.
  - vm_compute. lia.
  - vm_compute. reflexivity.
  - vm_compute. reflexivity.
Defined.

(** The amended C8 at a text without markers and with a heading for
    [overview], in a session that has written nothing: the two marker
    strategies return nothing and the outputs hold the formatted content
    of the heading. *)
Lemma fallback_first_hit_wins_witness :
  tryStandardFormat (headingOnly 150) overviewTask = None
  /\ tryVariantFormats (headingOnly 150) overviewTask = None
  /\ {| taskId := id overviewTask;
        document := formatDocument clock (chars 150) overviewTask
                      (basename (repoPath config));
        metadata :=
          spread {[ "taskName" := JStr (name overviewTask);
                    "outputFile" := JStr (outputFile overviewTask);
                    "fallbackParsed" := JBool true ]}
                 (sd_metadata (noStructuredData (chars 150)));
        references := sd_references (noStructuredData (chars 150)) |}
     ∈ (parseTaskOutputs noStructuredData clock (headingOnly 150) config fresh).1.
Proof.
  assert (Hrem : overviewTask ∈ remainingTasks fresh) by (vm_compute; left).
  destruct (fallback_first_hit_wins noStructuredData clock config (headingOnly 150)
              fresh overviewTask Hrem) as (_ & _ & Hheading & _).
  apply Hheading.
  - vm_compute. reflexivity.
  - intros v Hv. unfold variants in Hv.
    repeat (apply elem_of_cons in Hv as [->|Hv]; [vm_compute; reflexivity|]).
    by apply elem_of_nil in Hv.
  - vm_compute. reflexivity.
Defined.

(** C4 at the failing input. The segment of [overview] carries a json
    block whose metadata say [realtimeWritten: false]. The live scan
    writes the file and puts the task into the written-set; the output
    built from the file takes its metadata from the block, which override
    the flag; and [updateKnowledgeBase] writes the file a second time. This
    holds whatever the extractor returns for any other document. *)
Theorem live_written_file_is_written_again (other : jsstring -> StructuredData) :
  match jsonSession other with
  | (inl k, _, w') =>
      realtimeWrittenTasks w' = [str "overview"]
      /\ map agentName (results k) = [str "overview"]
      /\ writesTo (filePathOf config overviewTask) (io w') = 2%nat
  | _ => False
  end.
Proof. vm_compute. repeat split. Qed.

(** C10. Whatever the task outputs are, and so however many tasks were
    resolved or written, the generated files are the output files of all
    four declared tasks. *)
Theorem generatedFiles_are_all_declared_files (now : jsstring)
    (taskOutputs : list TaskOutput) (config : AnalysisConfig) :
  generatedFiles (validateAndPackageResults now taskOutputs config)
  = map outputFile ANALYSIS_TASKS
  /\ map outputFile ANALYSIS_TASKS
     = [str "docs/overview.md"; str "docs/system-architecture.md";
        str "docs/api-reference.md"; str "docs/business-workflows.md"].
Proof. split; reflexivity. Qed.

(** The same for a whole run, down to the run in which no task resolves:
    its result has no entry and names four generated files. *)
Lemma no_task_resolved_four_files_reported :
  match executeKnowledgeGeneration noStructuredData clock noIndex promptOk config
          [answer (chars 140)] fresh with
  | (inl k, _, w') =>
      results k = [] /\ length (generatedFiles k) = 4%nat
      /\ forall task, task ∈ ANALYSIS_TASKS -> files w' !! filePathOf config task = None
  | _ => False
  end.
Proof.
  vm_compute. split; [reflexivity|]. split; [reflexivity|].
  intros task Htask.
  repeat (apply elem_of_cons in Htask as [->|Htask]); try reflexivity.
  by apply elem_of_nil in Htask.
Qed.


(* ===================================================================== *)
(** ** Further properties of runQuery                                      *)
(* ===================================================================== *)

Section RunQueryOutcome.

Context {L : Type} (onContentUpdate : jsstring -> L -> L).

(** X1. The outcome of one call depends on the messages only through the text
    buffered before the first result message and the way the call ends.
    A success message gives its result text as it is, whatever was
    buffered. Any other end gives the buffered text with the annotation of
    that end when more than 200 characters were buffered, partial messages
    are on and the end is one the code salvages, and otherwise the
    exception of that end: the fixed message of the result subtype, the
    exception of the stream, or 'no valid response'. *)
Theorem runQuery_outcome (script : Script) (options : QueryOptions) (cb : L) :
  let t := terminal script in
  let text := buffered (messages script) in
  let unfinished :=
    if (200 <? length text)%nat && includePartialMessages options && salvageable options t
    then inl (text ++ annotation t)
    else inr (failure t) in
  (runQuery onContentUpdate script options cb).1 =
    match t with
    | EndResult subtype result_text =>
        if eqs subtype (str "success") then inl result_text else unfinished
    | _ => unfinished
    end.
Proof.
  cbv zeta. unfold runQuery.
  assert (Hq0 : lastValidInv initialQueryState) by done.
  pose proof (consume_spec onContentUpdate options (messages script) initialQueryState cb Hq0)
    as Hc.
  destruct (consume onContentUpdate options (messages script) initialQueryState cb)
    as [[flow q] cb'].
  destruct Hc as (Hinv & Hpc & Hflow). simpl in Hpc.
  assert (Hlv : lastValidContent q =
                if (200 <? length (buffered (messages script)))%nat
                then buffered (messages script) else []).
  { by rewrite Hinv, Hpc. }
  assert (Ht : truthy (lastValidContent q) = (200 <? length (buffered (messages script)))%nat).
  { rewrite Hlv. destruct (200 <? _)%nat eqn:E; [|done].
    apply Nat.ltb_lt in E. by eapply truthy_long. }
  unfold terminal in *. subst flow.
  destruct (firstResult (messages script)) as [[subtype result_text]|].
  - unfold onResult, salvageable, annotation, failure. rewrite Ht.
    destruct (eqs subtype (str "success")) eqn:E0; [done|]. cbn [negb andb].
    destruct (200 <? length (buffered (messages script)))%nat eqn:E200;
      rewrite Hlv; cbn [andb];
      destruct (includePartialMessages options); cbn [andb]; rewrite ?andb_false_r;
      destruct (eqs subtype (str "error_max_turns")) eqn:E1; cbn [negb orb];
      try (destruct (isFallbackQuery options)); cbn [andb]; try done;
      destruct (eqs subtype (str "error_during_execution")) eqn:E2; try done;
      destruct (eqs subtype (str "cancelled")) eqn:E3; done.
  - destruct (thrown script) as [e|]; cbn [salvageable annotation failure];
      rewrite Ht, Hlv;
      destruct (200 <? length (buffered (messages script)))%nat;
      destruct (includePartialMessages options);
      try destruct (eqs (err_name e) (str "AbortError")); done.
Qed.

Lemma consume_calls (options : QueryOptions) (msgs : list Message) :
  forall (q : QueryState) (cb : L),
    (consume onContentUpdate options msgs q cb).2 =
      foldl (fun l p => onContentUpdate p l) cb
        (cumulative (partialContent q) (deltas msgs)).
Proof.
  induction msgs as [|m msgs IH]; intros q cb; [done|].
  destruct m as [event| |]; cbn [consume]; [|done|by rewrite IH].
  destruct (onStreamEvent onContentUpdate event q cb) as [q1 cb1] eqn:E.
  rewrite IH. unfold onStreamEvent in E.
  destruct event as [[[| |]|]| |[t|]| |]; inversion E; subst; done.
Qed.

(** X2. The progress callback [onContentUpdate] is called once for each text
    delta that comes before the first result message, in order, each time
    with the whole text received so far; it is called for nothing else,
    and never after the result message. *)
Theorem runQuery_content_updates (script : Script) (options : QueryOptions) (cb : L) :
  (runQuery onContentUpdate script options cb).2 =
    foldl (fun l partialContent => onContentUpdate partialContent l) cb
      (cumulative [] (deltas (messages script))).
Proof.
  unfold runQuery.
  pose proof (consume_calls options (messages script) initialQueryState cb) as Hc.
  destruct (consume onContentUpdate options (messages script) initialQueryState cb)
    as [[flow q] cb'].
  cbn [snd] in Hc. subst cb'.
  destruct flow as [|v|e]; [destruct (thrown script)|..];
    repeat match goal with |- context [if ?c then _ else _] => destruct c end; done.
Qed.

End RunQueryOutcome.


(* ===================================================================== *)
(** ** Further properties of executeAnalysis                               *)
(* ===================================================================== *)

Section LadderShape.

Context {L : Type} (onContentUpdate : jsstring -> L -> L).
Variables (prompt systemPrompt : jsstring) (mergedConfig : MergedConfig).

Lemma long_enough (r : jsstring) (n : nat) :
  truthy r && (n <? length r)%nat = (n <? length r)%nat.
Proof.
  destruct (n <? length r)%nat eqn:E; [|by rewrite andb_false_r].
  apply Nat.ltb_lt in E. by rewrite (truthy_long r n).
Qed.

Lemma salvage_ladder (eng : Engine L) :
  exists outcome,
    trace (salvage onContentUpdate prompt systemPrompt mergedConfig eng).2 =
      trace eng ++ [salvageCall prompt systemPrompt mergedConfig outcome]
    /\ (salvage onContentUpdate prompt systemPrompt mergedConfig eng).1 =
         match outcome with
         | inl r => if (50 <? length r)%nat then Some (r ++ note_partial) else None
         | inr _ => None
         end.
Proof.
  unfold salvage, performPartialQuery, salvageCall.
  pose proof (call_trace onContentUpdate SalvageQuery prompt
                (queryOptions systemPrompt (partialConfig mergedConfig) true)
                (partialConfig mergedConfig) eng) as Ht.
  destruct (call onContentUpdate SalvageQuery prompt _ _ eng) as [r eng']. cbn [fst snd] in Ht.
  exists r. destruct r as [r|e]; [|done].
  rewrite long_enough. by destruct (50 <? length r)%nat.
Qed.

Lemma degrade_ladder (errorMessage : jsstring) (eng : Engine L) :
  exists mid,
    trace (degrade onContentUpdate prompt systemPrompt mergedConfig errorMessage eng).2 =
      trace eng ++ mid
    /\ degradation prompt systemPrompt mergedConfig errorMessage mid
         (degrade onContentUpdate prompt systemPrompt mergedConfig errorMessage eng).1.
Proof.
  unfold degrade, performQuery.
  pose proof (call_trace onContentUpdate DegradedQuery (createSimplifiedPrompt prompt)
                (queryOptions systemPrompt (simplifiedConfig mergedConfig errorMessage) false)
                (simplifiedConfig mergedConfig errorMessage) eng) as Ht.
  destruct (call onContentUpdate DegradedQuery _ _ _ eng) as [r eng1]. cbn [fst snd] in Ht.
  destruct r as [r|e].
  - rewrite long_enough. eexists.
    destruct (50 <? length r)%nat eqn:E; cbn [fst snd]; (split; [exact Ht|]).
    + apply degraded_enough. by apply Nat.ltb_lt.
    + apply degraded_short. by apply Nat.ltb_ge.
  - destruct (m_enablePartialResults mergedConfig) eqn:Hp.
    + destruct (salvage_ladder eng1) as (o & Hs & Hv).
      destruct (salvage onContentUpdate prompt systemPrompt mergedConfig eng1)
        as [returned eng2]. cbn [fst snd] in *.
      eexists. split; [rewrite Hs, Ht, <- app_assoc; reflexivity|]. subst returned.
      destruct o as [r|e']; [destruct (50 <? length r)%nat eqn:E|].
      * apply salvaged_enough; [done|by apply Nat.ltb_lt].
      * apply salvaged_short; [done|by apply Nat.ltb_ge].
      * by apply salvage_throws.
    + eexists. split; [exact Ht|]. by apply degraded_throws.
Qed.

(** Every run from attempt [attempt] on has the shape of the ladder. *)
Lemma attempts_ladder :
  forall (remaining attempt : nat) (eng : Engine L),
    (1 <= attempt)%nat -> (1 <= remaining)%nat ->
    (attempt + remaining = S (m_retryAttempts mergedConfig))%nat ->
    exists new,
      trace (attempts onContentUpdate prompt systemPrompt mergedConfig
               remaining attempt eng).2 = trace eng ++ new
      /\ ladder prompt systemPrompt mergedConfig attempt new
           (attempts onContentUpdate prompt systemPrompt mergedConfig
              remaining attempt eng).1.
Proof.
  induction remaining as [|remaining IH]; intros attempt eng Hatt Hrem Hsum; [lia|].
  cbn [attempts]. unfold performQuery.
  pose proof (call_trace onContentUpdate NormalQuery prompt
                (queryOptions systemPrompt mergedConfig false) mergedConfig eng) as Ht.
  destruct (call onContentUpdate NormalQuery prompt _ mergedConfig eng) as [r eng1].
  cbn [fst snd] in Ht. fold (normalCall prompt systemPrompt mergedConfig r) in Ht.
  pose proof (normal_enough prompt (queryOptions systemPrompt mergedConfig false)
                mergedConfig r) as Hen.
  fold (normalCall prompt systemPrompt mergedConfig r) in Hen.
  assert (Htried :
    match r with
    | inl result_text =>
        if truthy result_text && (100 <? length result_text)%nat
        then inl result_text else inr (Error msg_insufficient)
    | inr err => inr err
    end =
    if enough (normalCall prompt systemPrompt mergedConfig r)
    then match r with inl v => inl v | inr e => inr e end
    else inr (match r with inl _ => Error msg_insufficient | inr e => e end)).
  { rewrite Hen. destruct r as [v|e]; [|done]. by destruct (truthy v && _). }
  rewrite Htried. clear Htried.
  destruct (enough (normalCall prompt systemPrompt mergedConfig r)) eqn:Hpass.
  { destruct r as [v|e]; [|done].
    exists [normalCall prompt systemPrompt mergedConfig (inl v)]. split; [exact Ht|].
    apply ladder_passes. symmetry in Hen. rewrite long_enough in Hen.
    by apply Nat.ltb_lt. }
  assert (Hmsg : err_message (match r with inl _ => Error msg_insufficient | inr e => e end)
                 = errorOf r) by by destruct r.
  rewrite Hmsg. apply Nat.leb_le in Hatt as Hatt'. rewrite Hatt', andb_true_r.
  assert (Hd : exists mid,
    trace (if isLimitError (errorOf r) && m_fallbackToSimplerPrompt mergedConfig
           then degrade onContentUpdate prompt systemPrompt mergedConfig (errorOf r) eng1
           else (None, eng1)).2 = trace eng1 ++ mid
    /\ afterFailure prompt systemPrompt mergedConfig r mid
         (if isLimitError (errorOf r) && m_fallbackToSimplerPrompt mergedConfig
          then degrade onContentUpdate prompt systemPrompt mergedConfig (errorOf r) eng1
          else (None, eng1)).1).
  { unfold afterFailure.
    destruct (isLimitError (errorOf r) && m_fallbackToSimplerPrompt mergedConfig).
    - apply degrade_ladder.
    - exists []. cbn. by rewrite app_nil_r. }
  destruct (if isLimitError (errorOf r) && m_fallbackToSimplerPrompt mergedConfig
            then degrade onContentUpdate prompt systemPrompt mergedConfig (errorOf r) eng1
            else (None, eng1)) as [returned eng2].
  destruct Hd as (mid & Hmid & Hafter). cbn [fst snd] in Hmid, Hafter.
  destruct returned as [value|].
  { exists (normalCall prompt systemPrompt mergedConfig r :: mid). cbn [fst snd]. split.
    - rewrite Hmid, Ht, <- app_assoc. reflexivity.
    - by apply ladder_recovers. }
  destruct (attempt =? m_retryAttempts mergedConfig)%nat eqn:Hlast.
  { apply Nat.eqb_eq in Hlast.
    exists (normalCall prompt systemPrompt mergedConfig r :: mid). cbn [fst snd]. split.
    - rewrite Hmid, Ht, <- app_assoc. reflexivity.
    - by apply ladder_gives_up. }
  apply Nat.eqb_neq in Hlast.
  match goal with |- context [attempts _ _ _ _ _ _ ?e3] =>
    destruct (IH (S attempt) e3) as (rest & Hrest & Hlad); [lia|lia|lia|] end.
  exists (normalCall prompt systemPrompt mergedConfig r :: mid
          ++ Delayed (m_retryDelay mergedConfig * inject_Z (Z.of_nat attempt)) :: rest).
  split.
  - rewrite Hrest. cbn [trace]. rewrite Hmid, Ht, <- !app_assoc. reflexivity.
  - by apply ladder_retries.
Qed.

End LadderShape.

Section LadderRun.

Context {L : Type} (onContentUpdate : jsstring -> L -> L).

(** A run of [executeAnalysis] with no attempt allowed ends at once; any
    other run has the shape of the ladder from attempt 1 on. *)
Lemma executeAnalysis_ladder prompt systemPrompt config (eng : Engine L) :
  let run := executeAnalysis onContentUpdate prompt systemPrompt config eng in
  (m_retryAttempts (mergeConfig config) = 0%nat
   /\ run = (inr (Error msg_exec_failed), eng) /\ added eng run.2 = [])
  \/ ((1 <= m_retryAttempts (mergeConfig config))%nat
      /\ ladder prompt systemPrompt (mergeConfig config) 1 (added eng run.2) run.1).
Proof.
  cbv zeta. unfold executeAnalysis, added.
  destruct (m_retryAttempts (mergeConfig config)) as [|n] eqn:HN.
  - left. cbn [attempts snd]. rewrite drop_all. done.
  - right. split; [lia|].
    destruct (attempts_ladder onContentUpdate prompt systemPrompt (mergeConfig config)
                (S n) 1 eng) as (new & Hnew & Hlad); [lia|lia|lia|].
    rewrite Hnew, drop_app_length. done.
Qed.

End LadderRun.


Section LadderProperties.

Variables (prompt systemPrompt : jsstring) (mergedConfig : MergedConfig).

(** The degradation block: one degraded call, at most one salvage call,
    no normal attempt and no delay; its calls are well formed and in
    order; a value is returned exactly when its last call passes. *)
Lemma degradation_facts (errorMessage : jsstring) (mid : list TraceEvent)
    (returned : option jsstring) :
  degradation prompt systemPrompt mergedConfig errorMessage mid returned ->
  count isNormal mid = 0%nat /\ count isDegraded mid = 1%nat
  /\ (count isSalvage mid <= 1)%nat /\ delaysOf mid = []
  /\ Forall (madeBy prompt systemPrompt mergedConfig) mid
  /\ (exists o rest, mid = degradedCall prompt systemPrompt mergedConfig errorMessage o :: rest)
  /\ ordered mid = true
  /\ match returned with
     | Some v =>
         exists pre ev, mid = pre ++ [ev] /\ Forall (fun e => enough e = false) pre
                        /\ enough ev = true /\ v = returnedFor ev
     | None =>
         Forall (fun e => enough e = false) mid
         /\ forall ms, ordered (mid ++ [Delayed ms]) = true
     end.
Proof.
  destruct 1 as [r Hr|r Hr|e Hp|e r Hp Hr|e r Hp Hr|e e' Hp];
    (split; [reflexivity|]); (split; [reflexivity|]);
    (split; [cbn [count isSalvage degradedCall salvageCall]; lia|]);
    (split; [reflexivity|]);
    (split;
     [repeat (constructor;
              [first [right; left; eexists _, _; reflexivity
                     |right; right; left; eexists; reflexivity]|]);
      constructor|]);
    (split; [eexists _, _; reflexivity|]); (split; [reflexivity|]).
  - exists [], (degradedCall prompt systemPrompt mergedConfig errorMessage (inl r)).
    repeat split; [constructor|]. cbn [enough degradedCall]. by apply Nat.ltb_lt.
  - apply Nat.ltb_ge in Hr. split; [repeat constructor; done|].
    intros ms. cbn [app ordered follows degradedCall enough]. by rewrite Hr.
  - split; [by repeat constructor|]. done.
  - exists [degradedCall prompt systemPrompt mergedConfig errorMessage (inr e)],
      (salvageCall prompt systemPrompt mergedConfig (inl r)).
    repeat split; [by repeat constructor|]. cbn [enough salvageCall]. by apply Nat.ltb_lt.
  - apply Nat.ltb_ge in Hr. split; [repeat constructor; done|].
    intros ms. cbn [app ordered follows degradedCall salvageCall enough]. by rewrite Hr.
  - split; [by repeat constructor|]. done.
Qed.

Lemma afterFailure_facts (outcome : jsstring + JsError) (mid : list TraceEvent)
    (returned : option jsstring) :
  enough (normalCall prompt systemPrompt mergedConfig outcome) = false ->
  afterFailure prompt systemPrompt mergedConfig outcome mid returned ->
  count isNormal mid = 0%nat /\ (count isDegraded mid <= 1)%nat
  /\ (count isSalvage mid <= count isDegraded mid)%nat /\ delaysOf mid = []
  /\ Forall (madeBy prompt systemPrompt mergedConfig) mid
  /\ ordered (normalCall prompt systemPrompt mergedConfig outcome :: mid) = true
  /\ match returned with
     | Some v =>
         exists pre ev, mid = pre ++ [ev] /\ Forall (fun e => enough e = false) pre
                        /\ enough ev = true /\ v = returnedFor ev
     | None =>
         Forall (fun e => enough e = false) mid
         /\ forall ms,
              ordered (normalCall prompt systemPrompt mergedConfig outcome
                       :: mid ++ [Delayed ms]) = true
     end.
Proof.
  intros Hfail. unfold afterFailure.
  destruct (isLimitError (errorOf outcome)) eqn:Hl; cbn [andb];
    [destruct (m_fallbackToSimplerPrompt mergedConfig)|].
  - intros (H1 & H2 & H3 & H4 & H5 & (o & rest & ->) & H6 & H7)%degradation_facts.
    rewrite H1, H2, H4.
    assert (Hhead : forall tl,
      ordered (normalCall prompt systemPrompt mergedConfig outcome
               :: degradedCall prompt systemPrompt mergedConfig (errorOf outcome) o :: tl)
      = ordered (degradedCall prompt systemPrompt mergedConfig (errorOf outcome) o :: tl)).
    { intros tl. cbn [ordered].
      replace (follows (normalCall prompt systemPrompt mergedConfig outcome)
                 (degradedCall prompt systemPrompt mergedConfig (errorOf outcome) o))
        with (negb (enough (normalCall prompt systemPrompt mergedConfig outcome))
              && isLimitError (errorOf outcome)) by reflexivity.
      by rewrite Hfail, Hl. }
    repeat split; try done; try lia.
    + by rewrite Hhead.
    + destruct returned; [done|]. destruct H7 as [H7 H8]. split; [done|].
      intros ms. cbn [app]. rewrite Hhead. apply H8.
  - intros [-> ->]. repeat split; try done; [cbn [count]; lia|].
    intros ms. cbn [app ordered].
    replace (follows (normalCall prompt systemPrompt mergedConfig outcome) (Delayed ms))
      with (negb (enough (normalCall prompt systemPrompt mergedConfig outcome)))
      by reflexivity.
    by rewrite Hfail.
  - intros [-> ->]. repeat split; try done; [cbn [count]; lia|].
    intros ms. cbn [app ordered].
    replace (follows (normalCall prompt systemPrompt mergedConfig outcome) (Delayed ms))
      with (negb (enough (normalCall prompt systemPrompt mergedConfig outcome)))
      by reflexivity.
    by rewrite Hfail.
Qed.

Lemma count_app_bool {A : Type} (p : A -> bool) (a b : list A) :
  count p (a ++ b) = (count p a + count p b)%nat.
Proof. induction a as [|x a IH]; cbn; [done|]. rewrite IH. lia. Qed.

Lemma delaysOf_app (a b : list TraceEvent) : delaysOf (a ++ b) = delaysOf a ++ delaysOf b.
Proof. unfold delaysOf. apply omap_app. Qed.

Lemma ordered_app (a b : list TraceEvent) (x y : TraceEvent) :
  ordered (a ++ [x]) = true -> follows x y = true -> ordered (y :: b) = true ->
  ordered (a ++ x :: y :: b) = true.
Proof.
  intros Ha Hxy Hb. induction a as [|z a IH].
  - cbn [app ordered]. rewrite Hxy. exact Hb.
  - destruct a as [|z' a].
    + cbn [app ordered] in *. apply andb_true_iff in Ha as [Hz _].
      rewrite Hz, Hxy. exact Hb.
    + cbn [app ordered] in Ha |- *. apply andb_true_iff in Ha as [Hz Ha].
      rewrite Hz. cbn [andb]. apply IH. exact Ha.
Qed.

(** What a run from attempt [attempt] on adds to the trace. *)
Lemma ladder_facts (attempt : nat) (new : list TraceEvent) (res : jsstring + JsError) :
  ladder prompt systemPrompt mergedConfig attempt new res ->
  (attempt <= m_retryAttempts mergedConfig)%nat ->
  (1 <= count isNormal new)%nat
  /\ (attempt + count isNormal new <= S (m_retryAttempts mergedConfig))%nat
  /\ (count isDegraded new <= count isNormal new)%nat
  /\ (count isSalvage new <= count isDegraded new)%nat
  /\ delaysOf new =
       map (fun k => (m_retryDelay mergedConfig * inject_Z (Z.of_nat k))%Q)
         (seq attempt (count isNormal new - 1))
  /\ Forall (madeBy prompt systemPrompt mergedConfig) new
  /\ (exists o rest, new = normalCall prompt systemPrompt mergedConfig o :: rest)
  /\ ordered new = true
  /\ match res with
     | inl v =>
         exists pre ev, new = pre ++ [ev] /\ Forall (fun e => enough e = false) pre
                        /\ enough ev = true /\ v = returnedFor ev
     | inr e => Forall (fun e => enough e = false) new
     end.
Proof.
  induction 1 as [attempt r Hr|attempt outcome mid v Hfail Hafter
                 |attempt outcome mid Hfail Hafter Hlast
                 |attempt outcome mid rest res Hfail Hafter Hmore Hlad IH]; intros Hle.
  - repeat split; try (cbn; lia); try done.
    + constructor; [left; eauto|done].
    + by eexists _, _.
    + exists [], (normalCall prompt systemPrompt mergedConfig (inl r)).
      repeat split; [constructor|]. cbn [enough normalCall]. by apply Nat.ltb_lt.
  - apply afterFailure_facts in Hafter as (H1 & H2 & H3 & H4 & H5 & H6 & H7); [|done].
    rewrite (delaysOf_app [normalCall prompt systemPrompt mergedConfig outcome] mid
             : delaysOf (normalCall prompt systemPrompt mergedConfig outcome :: mid) = _).
    cbn [count isNormal isDegraded isSalvage normalCall]. rewrite H1, H4.
    cbn [Nat.add Nat.sub seq map].
    repeat split; try lia; try done.
    + constructor; [left; eauto|done].
    + by eexists _, _.
    + destruct H7 as (pre & ev & -> & Hpre & Hev & ->).
      exists (normalCall prompt systemPrompt mergedConfig outcome :: pre), ev.
      repeat split; try done. by constructor.
  - apply afterFailure_facts in Hafter as (H1 & H2 & H3 & H4 & H5 & H6 & H7 & _); [|done].
    rewrite (delaysOf_app [normalCall prompt systemPrompt mergedConfig outcome] mid
             : delaysOf (normalCall prompt systemPrompt mergedConfig outcome :: mid) = _).
    cbn [count isNormal isDegraded isSalvage normalCall]. rewrite H1, H4.
    cbn [Nat.add Nat.sub seq map].
    repeat split; try lia; try done.
    + constructor; [left; eauto|done].
    + by eexists _, _.
    + by constructor.
  - apply afterFailure_facts in Hafter as (H1 & H2 & H3 & H4 & H5 & H6 & H7 & H8); [|done].
    destruct IH as (I1 & I2 & I3 & I4 & I5 & I6 & (o' & rest' & ->) & I8 & I9); [lia|].
    set (delay := Delayed (m_retryDelay mergedConfig * inject_Z (Z.of_nat attempt))).
    set (next := normalCall prompt systemPrompt mergedConfig o' :: rest') in *.
    assert (Hcount : forall p,
      count p (normalCall prompt systemPrompt mergedConfig outcome :: mid ++ delay :: next)
      = (count p [normalCall prompt systemPrompt mergedConfig outcome] + count p mid
         + count p [delay] + count p next)%nat).
    { intros p. 
      change (normalCall prompt systemPrompt mergedConfig outcome :: mid ++ delay :: next)
        with ([normalCall prompt systemPrompt mergedConfig outcome]
              ++ mid ++ [delay] ++ next).
      rewrite !count_app_bool. lia. }
    rewrite !Hcount, H1.
    cbn [count isNormal isDegraded isSalvage normalCall delay Nat.add].
    split; [lia|]. split; [lia|]. split; [lia|]. split; [lia|]. split.
    { change (normalCall prompt systemPrompt mergedConfig outcome :: mid ++ delay :: next)
        with ([normalCall prompt systemPrompt mergedConfig outcome]
              ++ mid ++ [delay] ++ next).
      rewrite !delaysOf_app, H4, I5.
      cbn [delaysOf omap list_omap app normalCall delay].
      destruct (count isNormal next) as [|n] eqn:En; [lia|].
      replace (S (S n) - 1)%nat with (S (S n - 1)) by lia.
      cbn [seq map]. reflexivity. }
    split.
    { constructor; [left; eauto|].
      apply Forall_app. split; [done|]. constructor; [|done].
      right. right. right. eauto. }
    split; [by eexists _, _|]. split.
    { change (normalCall prompt systemPrompt mergedConfig outcome :: mid ++ delay :: next)
        with ((normalCall prompt systemPrompt mergedConfig outcome :: mid)
              ++ delay :: normalCall prompt systemPrompt mergedConfig o' :: rest').
      apply ordered_app; [apply (H8 _)|done|exact I8]. }
    destruct res as [v|e].
    + destruct I9 as (pre & ev & Hnext & Hpre & Hev & ->).
      exists (normalCall prompt systemPrompt mergedConfig outcome :: mid ++ delay :: pre), ev.
      repeat split; try done.
      * cbn [app]. rewrite Hnext. by rewrite <- !app_assoc.
      * constructor; [done|]. apply Forall_app. split; [done|]. by constructor.
    + constructor; [done|]. apply Forall_app. split; [done|]. by constructor.
Qed.

Lemma ladder_error (attempt : nat) (new : list TraceEvent) (e : JsError) :
  ladder prompt systemPrompt mergedConfig attempt new (inr e) ->
  exists msg, e = Error (msg_analysis_failed ++ msg).
Proof.
  remember (inr e) as res eqn:Hres. induction 1; try done.
  - inversion Hres. eauto.
  - auto.
Qed.

Lemma madeBy_wellFormed (ev : TraceEvent) :
  madeBy prompt systemPrompt mergedConfig ev ->
  wellFormedCall prompt systemPrompt mergedConfig ev.
Proof. intros [[o ->]|[(m & o & ->)|[[o ->]|[ms ->]]]]; cbn; repeat split; done. Qed.

Lemma count_queries (tr : list TraceEvent) :
  count isQuery tr = (count isNormal tr + count isDegraded tr + count isSalvage tr)%nat.
Proof.
  induction tr as [|[[| |] ? ? ? ?|] tr IH]; cbn [count isQuery isNormal isDegraded isSalvage];
    lia.
Qed.

End LadderProperties.


Section LadderTheorems.

Context {L : Type} (onContentUpdate : jsstring -> L -> L).
Variables (prompt systemPrompt : jsstring) (config : option SDKConfig) (eng : Engine L).

(** X3. The budget of a run: at most [retryAttempts] normal attempts, at most
    one degraded call for each normal attempt and at most one salvage call
    for each degraded call, hence never more than three times
    [retryAttempts] calls of the engine. *)
Theorem executeAnalysis_call_budget :
  let run := executeAnalysis onContentUpdate prompt systemPrompt config eng in
  let new := added eng run.2 in
  (count isNormal new <= m_retryAttempts (mergeConfig config))%nat
  /\ (count isDegraded new <= count isNormal new)%nat
  /\ (count isSalvage new <= count isDegraded new)%nat
  /\ (count isQuery new <= 3 * m_retryAttempts (mergeConfig config))%nat.
Proof.
  cbv zeta. rewrite count_queries.
  destruct (executeAnalysis_ladder onContentUpdate prompt systemPrompt config eng)
    as [(_ & _ & ->)|[HN Hlad]]; [cbn [count]; lia|].
  apply ladder_facts in Hlad as (H1 & H2 & H3 & H4 & _); [|done]. lia.
Qed.

(** X4. The back-off of a run: it waits between two normal attempts and
    nowhere else, and the wait after the failed attempt number [k] is
    [retryDelay * k]: the delays grow linearly. *)
Theorem executeAnalysis_backoff :
  let run := executeAnalysis onContentUpdate prompt systemPrompt config eng in
  let new := added eng run.2 in
  delaysOf new =
    map (fun k => (m_retryDelay (mergeConfig config) * inject_Z (Z.of_nat k))%Q)
      (seq 1 (count isNormal new - 1)).
Proof.
  cbv zeta.
  destruct (executeAnalysis_ladder onContentUpdate prompt systemPrompt config eng)
    as [(_ & _ & ->)|[HN Hlad]]; [done|].
  by apply ladder_facts in Hlad as (_ & _ & _ & _ & H5 & _).
Qed.

(** X5. The order of the calls of a run. A run with an attempt starts with a
    normal attempt. A degraded call comes only directly after a normal
    attempt that failed with a limit-class message; a salvage call only
    directly after a degraded call that threw; a delay only directly after
    a call that did not pass its content test; a further normal attempt
    only directly after a delay. A result of at most 100 characters, an
    execution error, a cancellation and a stream without response are not
    limit-class failures: they are never followed by a degraded call. *)
Theorem executeAnalysis_order :
  let run := executeAnalysis onContentUpdate prompt systemPrompt config eng in
  let new := added eng run.2 in
  ordered new = true
  /\ match new with
     | [] => m_retryAttempts (mergeConfig config) = 0%nat
     | first :: _ => isNormal first = true
     end
  /\ (forall r, isLimitError (errorOf (inl r)) = false)
  /\ Forall (fun msg => isLimitError msg = false)
       [msg_execution; msg_cancelled; msg_no_response].
Proof.
  cbv zeta. split; [|split; [|split]].
  - destruct (executeAnalysis_ladder onContentUpdate prompt systemPrompt config eng)
      as [(_ & _ & ->)|[HN Hlad]]; [done|].
    by apply ladder_facts in Hlad as (_ & _ & _ & _ & _ & _ & _ & H8 & _).
  - destruct (executeAnalysis_ladder onContentUpdate prompt systemPrompt config eng)
      as [(H0 & _ & ->)|[HN Hlad]]; [done|].
    by apply ladder_facts in Hlad as (_ & _ & _ & _ & _ & _ & (o & rest & ->) & _).
  - intros r. vm_compute. reflexivity.
  - repeat constructor; vm_compute; reflexivity.
Qed.

(** X6. What the engine is called with. Every call of a run disallows the
    write and web tools, sets no turn limit and passes the caller's system
    prompt. A normal attempt has the caller's prompt and configuration; the
    degraded call has the simplified prompt, partial messages off and a
    configuration of one attempt without further degradation; the salvage
    call has the caller's prompt again, partial messages on, and is the
    only call marked as a fallback query. *)
Theorem executeAnalysis_calls_well_formed :
  let run := executeAnalysis onContentUpdate prompt systemPrompt config eng in
  Forall (wellFormedCall prompt systemPrompt (mergeConfig config)) (added eng run.2).
Proof.
  cbv zeta.
  destruct (executeAnalysis_ladder onContentUpdate prompt systemPrompt config eng)
    as [(_ & _ & ->)|[HN Hlad]]; [constructor|].
  apply ladder_facts in Hlad as (_ & _ & _ & _ & _ & H6 & _); [|done].
  eapply Forall_impl; [exact H6|]. apply madeBy_wellFormed.
Qed.

(** X7. How a run ends. It returns exactly when a call passes its content
    test (more than 100 characters for a normal attempt, more than 50 for
    the degraded and the salvage call): that call is the last one made, no
    earlier call passed, and the value returned is its result, as it is
    for a normal attempt and with the note of a simplified or of a partial
    result appended otherwise. It throws only when no call passed, and
    then 'Claude分析失败: ' with a message, or '分析执行失败' when the
    configuration allows no attempt at all. *)
Theorem executeAnalysis_result :
  let run := executeAnalysis onContentUpdate prompt systemPrompt config eng in
  let new := added eng run.2 in
  match run.1 with
  | inl v =>
      exists earlier last,
        new = earlier ++ [last]
        /\ Forall (fun ev => enough ev = false) earlier
        /\ enough last = true
        /\ v = returnedFor last
  | inr e =>
      Forall (fun ev => enough ev = false) new
      /\ if (m_retryAttempts (mergeConfig config) =? 0)%nat
         then e = Error msg_exec_failed /\ new = []
         else exists msg, e = Error (msg_analysis_failed ++ msg)
  end.
Proof.
  cbv zeta.
  destruct (executeAnalysis_ladder onContentUpdate prompt systemPrompt config eng)
    as [(H0 & -> & Hnew)|[HN Hlad]].
  - cbn [fst snd] in *. rewrite Hnew, H0. done.
  - pose proof Hlad as Hlad'. apply ladder_facts in Hlad as (_ & _ & _ & _ & _ & _ & _ & _ & H9);
      [|done].
    destruct (executeAnalysis onContentUpdate prompt systemPrompt config eng).1 as [v|e];
      [done|].
    split; [done|].
    destruct (m_retryAttempts (mergeConfig config)) as [|n]; [lia|].
    cbn [Nat.eqb]. by eapply ladder_error.
Qed.

End LadderTheorems.


(* ===================================================================== *)
(** ** The calls of a session                                              *)
(* ===================================================================== *)

Section SessionCalls.

Variable now : jsstring.
Variable config : AnalysisConfig.

Lemma executeUnifiedAnalysis_trace prompt scripts (w : World) :
  let eng := {| pending := scripts; trace := [];
                listener := set_taskBuffer ∅ (set_realtimeWrittenTasks [] w) |} in
  (executeUnifiedAnalysis now prompt config scripts w).1.2
  = added eng (executeAnalysis (onContentUpdate now config) prompt system_prompt
                 (Some unifiedConfig) eng).2.
Proof.
  cbv zeta. unfold executeUnifiedAnalysis, added. cbn [trace length drop].
  by destruct (executeAnalysis _ _ _ _ _) as [[?|?] ?].
Qed.

(** X8. The time a call of a session may take. The attempts of a session run
    with a timeout of two hours. No call of a session runs with more: the
    salvage call has the same two hours, and the degraded call after a
    failure of the timeout class, for which the code computes one and a
    half times the timeout capped at 900000 ms, runs with those 15
    minutes, an eighth of the time of the attempt that timed out; after a
    turn limit it keeps the two hours. *)
Theorem session_call_timeouts prompt scripts (w : World) :
  Forall (fun ev =>
            match ev with
            | Queried kind _ _ callConfig _ =>
                m_timeout callConfig = 7200000%Q
                \/ kind = DegradedQuery /\ m_timeout callConfig = 900000%Q
            | Delayed _ => True
            end)
    (executeUnifiedAnalysis now prompt config scripts w).1.2
  /\ forall errorMessage,
       m_timeout (simplifiedConfig (mergeConfig (Some unifiedConfig)) errorMessage)
       = if isTimeoutError errorMessage then 900000%Q else 7200000%Q.
Proof.
  assert (Hdeg : forall errorMessage,
    m_timeout (simplifiedConfig (mergeConfig (Some unifiedConfig)) errorMessage)
    = if isTimeoutError errorMessage then 900000%Q else 7200000%Q).
  { intros m. cbn [simplifiedConfig m_timeout]. by destruct (isTimeoutError m). }
  split; [|exact Hdeg].
  rewrite executeUnifiedAnalysis_trace.
  match goal with |- context [executeAnalysis ?cb ?p ?s ?c ?e] =>
    destruct (executeAnalysis_ladder cb p s c e) as [(_ & _ & ->)|[HN Hlad]] end;
    [constructor|].
  apply ladder_facts in Hlad as (_ & _ & _ & _ & _ & H6 & _); [|done].
  eapply Forall_impl; [exact H6|].
  intros ev [[o ->]|[(m & o & ->)|[[o ->]|[ms ->]]]]; [by left| |by left|done].
  cbn [degradedCall]. rewrite Hdeg. destruct (isTimeoutError m); [right|left]; done.
Qed.

End SessionCalls.


(* ===================================================================== *)
(** ** Further properties of the live scan                                 *)
(* ===================================================================== *)

Section Rescan.

Variable now : jsstring.
Variable config : AnalysisConfig.

Lemma writeTaskImmediately_allSucceed (task : AnalysisTask) (taskContent : jsstring)
    (w : World) :
  allSucceed w = true ->
  writeSucceeds w = true
  /\ allSucceed (writeTaskImmediately now task taskContent config w).2 = true.
Proof.
  destruct w as [rtw tb fs events tp]. unfold allSucceed, writeSucceeds. cbn [tape].
  destruct tp as [|[] [|[] [|[] [|[] [|[] tp]]]]]; cbn; try done; intros ->; done.
Qed.

(** One step of the scan when no write fails. *)
Lemma detectTask_settles (content : jsstring) (w : World) (task : AnalysisTask) :
  allSucceed w = true ->
  let w' := detectTask now content config w task in
  allSucceed w' = true
  /\ settled content w' task
  /\ (forall x, has x (realtimeWrittenTasks w) = true ->
                has x (realtimeWrittenTasks w') = true)
  /\ (forall x, x <> id task -> taskBuffer w' !! x = taskBuffer w !! x)
  /\ (settled content w task -> w' = w).
Proof.
  intros Hall. cbv zeta. unfold settled, ready.
  destruct (has (id task) (realtimeWrittenTasks w)) eqn:Hhas.
  { rewrite (detectTask_written now config content w task Hhas), Hhas.
    repeat split; try done. by destruct (between _ _ _) as [c|]; [destruct (100 <? _)%nat|];
      auto. }
  unfold detectTask, between. rewrite Hhas. cbv zeta.
  set (startIndex := indexOf content (startMarker task)).
  set (endIndex := indexOf content (endMarker task)).
  set (opened :=
    if negb (startIndex =? -1)%Z && negb (bool_decide (is_Some (taskBuffer w !! id task)))
    then set_taskBuffer (<[id task := ([], startIndex)]> (taskBuffer w)) w else w).
  assert (Hop : realtimeWrittenTasks opened = realtimeWrittenTasks w
                /\ allSucceed opened = true
                /\ (forall x, x <> id task -> taskBuffer opened !! x = taskBuffer w !! x)
                /\ ((startIndex = (-1)%Z \/ is_Some (taskBuffer w !! id task)) -> opened = w)
                /\ (startIndex = (-1)%Z \/ is_Some (taskBuffer opened !! id task))).
  { subst opened. destruct (startIndex =? -1)%Z eqn:Hs; cbn [negb andb].
    - apply Z.eqb_eq in Hs. repeat split; auto.
    - destruct (bool_decide (is_Some (taskBuffer w !! id task))) eqn:Hb; cbn [negb].
      + apply bool_decide_eq_true in Hb. repeat split; auto.
      + apply bool_decide_eq_false in Hb. apply Z.eqb_neq in Hs.
        repeat split; try done.
        * intros x Hx. cbn. by rewrite lookup_insert_ne.
        * intros [?|?]; done.
        * right. cbn. rewrite lookup_insert_eq. by eexists. }
  destruct Hop as (Hrtw & Hopall & Hbuf & Hsame & Hopen).
  destruct (negb (startIndex =? -1)%Z && negb (endIndex =? -1)%Z
            && (endIndex >? startIndex)%Z) eqn:Hcomplete.
  2: { rewrite Hrtw, Hhas. repeat split; try done; [by auto|].
       intros [?|H]; [done|]. by apply Hsame. }
  set (taskContent := trim (substring content
         (startIndex + Z.of_nat (length (startMarker task))) endIndex)).
  destruct (100 <? length taskContent)%nat eqn:Hlong.
  2: { rewrite Hrtw, Hhas. repeat split; try done; [by auto|].
       intros [?|H]; [done|]. by apply Hsame. }
  destruct (writeTaskImmediately_allSucceed task taskContent opened Hopall) as [Hok Hall'].
  destruct (writeTaskImmediately_spec now config task taskContent opened)
    as (Hr1 & Hr2 & Hr3 & _).
  destruct (writeTaskImmediately now task taskContent config opened) as [ok w2].
  cbn [fst snd] in *. rewrite Hok in Hr1. subst ok.
  cbn [realtimeWrittenTasks taskBuffer set_taskBuffer set_realtimeWrittenTasks].
  rewrite Hr2, Hrtw. repeat split.
  - exact Hall'.
  - rewrite has_add, (proj2 (eqs_true _ _) eq_refl). apply orb_true_r.
  - intros x Hx. rewrite has_add, Hx. done.
  - intros x Hx. rewrite lookup_delete_ne by done. rewrite Hr3. by apply Hbuf.
  - done.
Qed.

(** A step for another task keeps a task settled. *)
Lemma detectTask_keeps_settled (content : jsstring) (w : World) (task other : AnalysisTask) :
  allSucceed w = true -> id other <> id task ->
  settled content w task -> settled content (detectTask now content config w other) task.
Proof.
  intros Hall Hne. destruct (detectTask_settles content w other Hall)
    as (_ & _ & Hmono & Hbuf & _).
  unfold settled. destruct (ready content task); [by auto|].
  intros [H|[H|H]]; [by auto|by auto|]. right. right. rewrite Hbuf; done.
Qed.

Lemma scan_settles (content : jsstring) (tasks : list AnalysisTask) :
  NoDup (map id tasks) ->
  forall w, allSucceed w = true ->
    allSucceed (foldl (detectTask now content config) w tasks) = true
    /\ (forall x, has x (realtimeWrittenTasks w) = true ->
          has x (realtimeWrittenTasks (foldl (detectTask now content config) w tasks)) = true)
    /\ (forall task, settled content w task -> id task ∉ map id tasks ->
          settled content (foldl (detectTask now content config) w tasks) task)
    /\ Forall (settled content (foldl (detectTask now content config) w tasks)) tasks.
Proof.
  induction tasks as [|t tasks IH]; intros Hnd w Hall; [by repeat split|].
  apply NoDup_cons in Hnd as [Ht Hnd]. cbn [foldl map].
  destruct (detectTask_settles content w t Hall) as (Hall1 & Hset & Hmono & _ & _).
  destruct (IH Hnd _ Hall1) as (Hall2 & Hmono2 & Hkeep & Hrest).
  repeat split.
  - exact Hall2.
  - auto.
  - intros task Hs Hnot. apply not_elem_of_cons in Hnot as [Hne Hnot].
    apply Hkeep; [|done]. apply detectTask_keeps_settled; done.
  - constructor; [|exact Hrest]. by apply Hkeep.
Qed.

Lemma scan_settled_fixed (content : jsstring) (tasks : list AnalysisTask) (w : World) :
  allSucceed w = true -> Forall (settled content w) tasks ->
  foldl (detectTask now content config) w tasks = w.
Proof.
  intros Hall. induction 1 as [|t tasks Ht _ IH]; [done|]. cbn [foldl].
  destruct (detectTask_settles content w t Hall) as (_ & _ & _ & _ & Hfix).
  rewrite (Hfix Ht). exact IH.
Qed.

(** X9. Scanning a buffer that has not changed changes nothing, as long as no
    file operation fails: no task is handed over again, no file is written
    again, and the written-set and the record of opened tasks stay as the
    first scan left them. *)
Theorem rescan_changes_nothing (content : jsstring) (w : World) :
  allSucceed w = true ->
  detectAndWriteCompletedTasks now content config
    (detectAndWriteCompletedTasks now content config w)
  = detectAndWriteCompletedTasks now content config w.
Proof.
  intros Hall. unfold detectAndWriteCompletedTasks.
  destruct (scan_settles content ANALYSIS_TASKS declared_ids_NoDup w Hall)
    as (Hall' & _ & _ & Hset).
  by apply scan_settled_fixed.
Qed.

End Rescan.


(** Facts about [indexOf]. *)

Lemma startsWith_self (needle rest : jsstring) : startsWith needle (needle ++ rest) = true.
Proof. induction needle as [|n needle IH]; [done|]. cbn. by rewrite N.eqb_refl. Qed.

Lemma indexOf_from_eq (i : Z) (s needle : jsstring) :
  indexOf_from i s needle =
    if startsWith needle s then i
    else match s with
         | [] => (-1)%Z
         | _ :: s' => indexOf_from (i + 1)%Z s' needle
         end.
Proof. by destruct s. Qed.

Lemma indexOf_from_range (i : Z) (pre needle rest : jsstring) :
  (i <= indexOf_from i (pre ++ needle ++ rest) needle <= i + Z.of_nat (length pre))%Z.
Proof.
  revert i. induction pre as [|c pre IH]; intros i.
  - cbn [app]. rewrite indexOf_from_eq, startsWith_self. cbn [length]. lia.
  - rewrite indexOf_from_eq. cbn [app].
    destruct (startsWith needle (c :: pre ++ needle ++ rest)); [cbn [length]; lia|].
    specialize (IH (i + 1)%Z). cbn [length]. lia.
Qed.

Section StrayEndMarker.

Variable now : jsstring.
Variable config : AnalysisConfig.

(** X10. An end marker before the first start marker. When the end marker of
    a task occurs in the buffer before the first occurrence of its start
    marker, the scan does not hand the task over and the exact-marker
    strategy of the fallback finds nothing, whatever follows: a complete
    segment later in the buffer is not seen, because both look at the
    first occurrence of each marker only. *)
Theorem end_marker_first_hides_segment (pre rest : jsstring) (w : World)
    (task : AnalysisTask) :
  let content := pre ++ endMarker task ++ rest in
  (Z.of_nat (length pre) < indexOf content (startMarker task))%Z ->
  tryStandardFormat content task = None
  /\ realtimeWrittenTasks (detectTask now content config w task) = realtimeWrittenTasks w
  /\ io (detectTask now content config w task) = io w
  /\ files (detectTask now content config w task) = files w.
Proof.
  cbv zeta. intros Hstart.
  pose proof (indexOf_from_range 0 pre (endMarker task) rest) as Hend.
  fold (indexOf (pre ++ endMarker task ++ rest) (endMarker task)) in Hend.
  assert (Hnone : between (pre ++ endMarker task ++ rest) (startMarker task) (endMarker task)
                  = None).
  { unfold between.
    destruct (indexOf (pre ++ endMarker task ++ rest) (endMarker task)
              >? indexOf (pre ++ endMarker task ++ rest) (startMarker task))%Z eqn:E;
      [apply Z.gtb_lt in E; lia|].
    by rewrite andb_false_r. }
  split; [exact Hnone|].
  destruct (has (id task) (realtimeWrittenTasks w)) eqn:Hhas.
  - by rewrite (detectTask_written now config _ w task Hhas).
  - destruct (detectTask_cases now config (pre ++ endMarker task ++ rest) w task Hhas)
      as (opened & Hrtw & Hio & Hfiles & _ & Hcase).
    rewrite Hnone in Hcase. by rewrite Hcase.
Qed.

End StrayEndMarker.

Lemma short_exact_segment (extractStructuredData : jsstring -> StructuredData)
    (now analysisResult : jsstring) (config : AnalysisConfig) (task : AnalysisTask)
    (c : jsstring) :
  tryStandardFormat analysisResult task = Some c ->
  (length c <= 100)%nat ->
  truthy c = true ->
  fallbackOutput extractStructuredData now analysisResult config task = None.
Proof.
  intros Hstd Hlen Ht.
  unfold fallbackOutput, extractTaskContentForFallback. rewrite Hstd. cbn [hit].
  apply Nat.ltb_ge in Hlen. rewrite Ht. cbv beta iota. by rewrite Ht, Hlen.
Qed.

(** X11. A short exact segment shuts the fallback. When the exact markers of a
    task enclose a text of 1 to 100 characters, the fallback pass gives no
    output for the task, whatever the marker variants and the headings of
    the text would give: the first strategy that finds a non-empty text
    decides, and its text is then rejected for its length. When they
    enclose nothing but white space, the later strategies are tried. *)
Theorem short_exact_segment_shuts_fallback (extractStructuredData : jsstring -> StructuredData)
    (now analysisResult : jsstring) (config : AnalysisConfig) (task : AnalysisTask)
    (c : jsstring) :
  tryStandardFormat analysisResult task = Some c ->
  (length c <= 100)%nat ->
  if truthy c
  then fallbackOutput extractStructuredData now analysisResult config task = None
  else extractTaskContentForFallback analysisResult task =
         if hit (tryVariantFormats analysisResult task)
         then tryVariantFormats analysisResult task
         else tryFuzzyMatching analysisResult task.
Proof.
  intros Hstd Hlen.
  destruct (truthy c) eqn:Ht; [by eapply short_exact_segment|].
  unfold extractTaskContentForFallback. rewrite Hstd. cbn [hit]. rewrite Ht.
  destruct (hit (tryVariantFormats analysisResult task)); [done|].
  destruct (tryFuzzyMatching analysisResult task) as [f|] eqn:Ef; [|done].
  pose proof (tryFuzzyMatching_long _ _ _ Ef) as Hl.
  by rewrite (truthy_long f 100 Hl : hit (Some f) = true).
Qed.

Section CleanScan.

Variable now : jsstring.
Variable config : AnalysisConfig.

(** The unified analysis keeps the file system well behaved and leaves
    every declared task settled with respect to the text it returns. *)
Lemma executeUnifiedAnalysis_settled prompt scripts (w : World) result tr w' :
  allSucceed w = true ->
  executeUnifiedAnalysis now prompt config scripts w = (inl result, tr, w') ->
  allSucceed w' = true /\ Forall (settled result w') ANALYSIS_TASKS.
Proof.
  intros Hall. unfold executeUnifiedAnalysis.
  set (w0 := set_taskBuffer ∅ (set_realtimeWrittenTasks [] w)).
  assert (H0 : allSucceed w0 = true) by done.
  pose proof (executeAnalysis_listener (onContentUpdate now config)
                (fun l => allSucceed l = true)
                (fun c l H => proj1 (scan_settles now config c ANALYSIS_TASKS
                                       declared_ids_NoDup l H))
                prompt system_prompt (Some unifiedConfig)
                {| pending := scripts; trace := []; listener := w0 |} H0) as H1.
  destruct (executeAnalysis (onContentUpdate now config) prompt system_prompt
              (Some unifiedConfig) _) as [r eng'].
  cbn [snd] in H1. destruct r as [result_text|e]; [|done].
  intros [= <- <- <-].
  destruct (scan_settles now config result_text ANALYSIS_TASKS declared_ids_NoDup
              (listener eng') H1) as (Ha & _ & _ & Hs).
  done.
Qed.

(** X12. After a session without a failed file operation the exact markers
    recover nothing. For a task that is not in the written-set when the
    analysis has returned, the exact markers enclose at most 100
    characters of the returned text, if they are there at all; so a task
    the fallback pass recovers was found by a marker variant or by a
    heading, never by its exact markers. *)
Theorem exact_markers_recover_nothing_after_clean_session prompt scripts (w : World)
    result tr w' (task : AnalysisTask) :
  allSucceed w = true ->
  executeUnifiedAnalysis now prompt config scripts w = (inl result, tr, w') ->
  task ∈ ANALYSIS_TASKS ->
  has (id task) (realtimeWrittenTasks w') = false ->
  (forall c, tryStandardFormat result task = Some c -> (length c <= 100)%nat)
  /\ (forall extractStructuredData,
        is_Some (fallbackOutput extractStructuredData now result config task) ->
        hit (tryStandardFormat result task) = false).
Proof.
  intros Hall Hrun Htask Hnot.
  destruct (executeUnifiedAnalysis_settled prompt scripts w result tr w' Hall Hrun)
    as [_ Hset].
  rewrite Forall_forall in Hset. specialize (Hset task Htask).
  unfold settled, ready in Hset. fold (tryStandardFormat result task) in Hset.
  assert (Hshort : forall c, tryStandardFormat result task = Some c -> (length c <= 100)%nat).
  { intros c Hc. rewrite Hc in Hset.
    destruct (100 <? length c)%nat eqn:E; [congruence|]. by apply Nat.ltb_ge. }
  split; [exact Hshort|].
  intros extractStructuredData [o Ho].
  destruct (tryStandardFormat result task) as [c|] eqn:Hc; [|done].
  cbn [hit]. destruct (truthy c) eqn:Ht; [|done].
  pose proof (short_exact_segment extractStructuredData now result config
                task c Hc (Hshort c eq_refl) Ht) as Hnone.
  congruence.
Qed.

End CleanScan.


(* ===================================================================== *)
(** ** What is on disk                                                     *)
(* ===================================================================== *)

Section LiveFiles.

Variable now : jsstring.
Variable config : AnalysisConfig.

Lemma detectTask_liveFilesOk (content : jsstring) (w : World) (task : AnalysisTask) :
  task ∈ ANALYSIS_TASKS ->
  liveFilesOk now config w -> liveFilesOk now config (detectTask now content config w task).
Proof.
  intros Htask Hok.
  destruct (has (id task) (realtimeWrittenTasks w)) eqn:Hhas.
  { by rewrite detectTask_written. }
  destruct (detectTask_cases now config content w task Hhas)
    as (opened & Hrtw & Hio & Hfiles & Htape & Hcase).
  assert (Hsame : liveFilesOk now config opened).
  { intros t Ht. unfold onDisk. rewrite Hrtw, Hfiles. by apply Hok. }
  destruct (between content (startMarker task) (endMarker task)) as [c|];
    [destruct (100 <? length c)%nat eqn:Hlong|]; [|by rewrite Hcase..].
  cbv zeta in Hcase. rewrite Hcase. clear Hcase.
  destruct (writeTaskImmediately_spec now config task c opened)
    as (Hr1 & Hr2 & _ & _ & Hr5).
  destruct (writeTaskImmediately now task c config opened) as [ok w2].
  cbn [fst snd] in *. subst ok.
  destruct (writeSucceeds opened).
  - intros t Ht. unfold onDisk.
    cbn [realtimeWrittenTasks files set_taskBuffer set_realtimeWrittenTasks].
    rewrite Hr2, Hr5, Hrtw, has_add.
    destruct (eqs (id t) (id task)) eqn:E.
    + apply eqs_true in E. apply declared_id_inj in E; [|done..]. subst t.
      intros _. exists c. split; [by apply Nat.ltb_lt|]. by rewrite lookup_insert_eq.
    + rewrite orb_false_r. intros Hin.
      destruct (Hok t Ht Hin) as (c' & Hc' & Hd'). exists c'. split; [done|].
      rewrite lookup_insert_ne; [by rewrite Hfiles|].
      intros Hp. apply filePathOf_inj in Hp; [|done..]. subst t.
      by rewrite (proj2 (eqs_true _ _) eq_refl) in E.
  - intros t Ht. unfold onDisk. rewrite Hr2, Hr5. by apply Hsame.
Qed.

Lemma detectAndWriteCompletedTasks_liveFilesOk (content : jsstring) (w : World) :
  liveFilesOk now config w ->
  liveFilesOk now config (detectAndWriteCompletedTasks now content config w).
Proof.
  unfold detectAndWriteCompletedTasks.
  assert (Hall : Forall (fun t => t ∈ ANALYSIS_TASKS) ANALYSIS_TASKS)
    by by apply Forall_forall.
  revert w. induction Hall as [|t ts Ht _ IH]; intros w Hw; [done|].
  cbn [foldl]. apply IH. by apply detectTask_liveFilesOk.
Qed.

Lemma executeUnifiedAnalysis_liveFilesOk prompt scripts (w : World) :
  liveFilesOk now config (executeUnifiedAnalysis now prompt config scripts w).2.
Proof.
  unfold executeUnifiedAnalysis.
  set (w0 := set_taskBuffer ∅ (set_realtimeWrittenTasks [] w)).
  assert (H0 : liveFilesOk now config w0) by (by intros t _ ?).
  pose proof (executeAnalysis_listener (onContentUpdate now config) (liveFilesOk now config)
                (fun c l H => detectAndWriteCompletedTasks_liveFilesOk c l H)
                prompt system_prompt (Some unifiedConfig)
                {| pending := scripts; trace := []; listener := w0 |} H0) as H1.
  destruct (executeAnalysis (onContentUpdate now config) prompt system_prompt
              (Some unifiedConfig) _) as [r eng'].
  cbn [snd] in H1. destruct r as [result_text|e]; cbn [snd]; [|done].
  by apply detectAndWriteCompletedTasks_liveFilesOk.
Qed.


End LiveFiles.


Section OnDisk.

Variable extractStructuredData : jsstring -> StructuredData.
Variable now : jsstring.
Variable dumpIndex : KnowledgeGenerationResult -> AnalysisConfig -> jsstring.
Variable buildUnifiedPrompt : AnalysisConfig -> jsstring + JsError.
Variable config : AnalysisConfig.

Lemma pop_allSucceed (w : World) :
  allSucceed w = true ->
  (pop w).1 = true /\ allSucceed (pop w).2 = true /\ files (pop w).2 = files w.
Proof.
  destruct w as [rtw tb fs events tp]. unfold allSucceed, pop. cbn [tape files fst snd].
  destruct tp as [|[] tp]; cbn; done.
Qed.

Lemma fs_writeFile_allSucceed (path content : jsstring) (w : World) :
  allSucceed w = true ->
  (fs_writeFile path content w).1 = true
  /\ allSucceed (fs_writeFile path content w).2 = true
  /\ files (fs_writeFile path content w).2 = <[path := content]> (files w).
Proof.
  intros Hall. unfold fs_writeFile.
  destruct (pop_allSucceed w Hall) as (H1 & H2 & H3).
  destruct (pop w) as [ok w1]. cbn [fst snd] in *. subst ok.
  cbn [fst snd log set_files files]. by rewrite H3.
Qed.

Lemma fs_mkdir_then_write (path content : jsstring) (w : World) :
  allSucceed w = true ->
  let r := (let '(ok, w1) := fs_mkdir w in
            if ok then fs_writeFile path content w1 else (false, w1)) in
  r.1 = true /\ allSucceed r.2 = true /\ files r.2 = <[path := content]> (files w).
Proof.
  intros Hall. cbv zeta. unfold fs_mkdir.
  destruct (pop_allSucceed w Hall) as (H1 & H2 & H3).
  destruct (pop w) as [ok w1]. cbn [fst snd] in *. subst ok.
  destruct (fs_writeFile_allSucceed path content w1 H2) as (H4 & H5 & H6).
  by rewrite H6, H3.
Qed.

(** Reading back the files of the written-set, when no file operation
    fails: every output carries the content of its file, and the flag
    that it was written while the stream was open. *)
Lemma realtimeOutputs_read (ids : list jsstring) (w : World) :
  allSucceed w = true ->
  (forall task, task ∈ ANALYSIS_TASKS -> id task ∈ ids ->
     is_Some (files w !! filePathOf config task)) ->
  let r := realtimeOutputs extractStructuredData config ids w in
  allSucceed r.2 = true /\ files r.2 = files w
  /\ Forall (fun o => exists task, task ∈ ANALYSIS_TASKS /\ taskId o = id task
                      /\ files w !! filePathOf config task = Some (document o)) r.1.
Proof.
  cbv zeta. revert w. induction ids as [|x ids IH]; intros w Hall Hfiles; [by repeat split|].
  cbn [realtimeOutputs].
  destruct (find (fun t => bool_decide (id t = x)) ANALYSIS_TASKS) as [task|] eqn:Ef.
  2: { apply IH; [done|]. intros t Ht Hin. apply Hfiles; [done|by right]. }
  apply find_some in Ef as [Htask Hid]. apply list_elem_of_In in Htask.
  apply bool_decide_eq_true in Hid.
  destruct (Hfiles task Htask) as [content Hc]; [rewrite Hid; by left|].
  unfold realtimeOutput, fs_readFile.
  destruct (pop_allSucceed w Hall) as (H1 & H2 & H3).
  destruct (pop w) as [ok w1]. cbn [fst snd] in *. subst ok. rewrite H3, Hc.
  specialize (IH w1 H2).
  destruct (realtimeOutputs extractStructuredData config ids w1) as [os w2].
  cbn [fst snd] in *.
  destruct IH as (I1 & I2 & I3).
  { intros t Ht Hin. rewrite H3. apply Hfiles; [done|by right]. }
  rewrite I2, H3. repeat split; [done|].
  constructor; [by exists task|]. by rewrite H3 in I3.
Qed.

(** The loop over the results, when no file operation fails: a result
    without the flag is written to the file of the task it names, and
    nothing else is touched. *)
Lemma writeResults_files (rs : list AnalysisResult) (w : World) :
  allSucceed w = true ->
  NoDup (map agentName rs) ->
  Forall (fun r => status r = status_success) rs ->
  let r := writeResults config rs w in
  r.1 = true /\ allSucceed r.2 = true
  /\ (forall x task, x ∈ rs -> task ∈ ANALYSIS_TASKS -> agentName x = id task ->
        files r.2 !! filePathOf config task =
          if truthyVal (prop (metadata (output x)) "realtimeWritten")
          then files w !! filePathOf config task
          else Some (document (output x)))
  /\ (forall task, task ∈ ANALYSIS_TASKS -> id task ∉ map agentName rs ->
        files r.2 !! filePathOf config task = files w !! filePathOf config task)
  /\ (forall path, (forall task, task ∈ ANALYSIS_TASKS -> path <> filePathOf config task) ->
        files r.2 !! path = files w !! path).
Proof.
  cbv zeta. revert w. induction rs as [|x rs IH]; intros w Hall Hnd Hst.
  { repeat split; [done|]. by intros ? ? ?%elem_of_nil. }
  apply NoDup_cons in Hnd as [Hx Hnd]. apply Forall_cons in Hst as [Hsx Hst].
  cbn [writeResults map]. rewrite Hsx.
  destruct (truthyVal (prop (metadata (output x)) "realtimeWritten")) eqn:Hflag.
  - destruct (IH w Hall Hnd Hst) as (I1 & I2 & I3 & I4 & I5).
    repeat split; [done|done| | |done].
    + intros y task [->|Hy]%elem_of_cons Htask Hname.
      * rewrite Hflag. apply I4; [done|]. by rewrite <- Hname.
      * by apply I3.
    + intros task Htask [_ Hnot]%not_elem_of_cons. by apply I4.
  - unfold writeTaskOutput.
    destruct (find (fun t => bool_decide (id t = agentName x)) ANALYSIS_TASKS)
      as [mine|] eqn:Ef.
    + apply find_some in Ef as [Hmine Hid]. apply list_elem_of_In in Hmine.
      apply bool_decide_eq_true in Hid.
      destruct (fs_mkdir_then_write (filePathOf config mine) (document (output x)) w Hall)
        as (W1 & W2 & W3).
      destruct (let '(ok, w1) := fs_mkdir w in
                if ok then fs_writeFile (filePathOf config mine) (document (output x)) w1
                else (false, w1)) as [ok w1].
      cbn [fst snd] in *. subst ok.
      destruct (IH w1 W2 Hnd Hst) as (I1 & I2 & I3 & I4 & I5).
      repeat split; [done|done| | |].
      * intros y task [->|Hy]%elem_of_cons Htask Hname.
        -- rewrite Hflag. rewrite I4; [|done|by rewrite <- Hname].
           rewrite W3. assert (task = mine) as ->.
           { apply declared_id_inj; [done..|congruence]. }
           by rewrite lookup_insert_eq.
        -- rewrite (I3 y task Hy Htask Hname).
           destruct (truthyVal (prop (metadata (output y)) "realtimeWritten")); [|done].
           rewrite W3.
           rewrite lookup_insert_ne; [done|].
           intros Hp. apply filePathOf_inj in Hp; [|done..]. subst task.
           apply Hx. rewrite <- Hid, <- Hname. by apply list_elem_of_fmap_2.
      * intros task Htask [Hne Hnot]%not_elem_of_cons.
        rewrite I4 by done. rewrite W3. rewrite lookup_insert_ne; [done|].
        intros Hp. apply filePathOf_inj in Hp; [|done..]. subst task. done.
      * intros path Hpath. rewrite I5 by done. rewrite W3.
        rewrite lookup_insert_ne; [done|]. intros Hp. by apply (Hpath mine).
    + destruct (IH w Hall Hnd Hst) as (I1 & I2 & I3 & I4 & I5).
      repeat split; [done|done| | |done].
      * intros y task [->|Hy]%elem_of_cons Htask Hname; [|by apply I3].
        exfalso. pose proof (find_none _ _ Ef task) as Hf.
        rewrite bool_decide_eq_false in Hf. apply Hf; [by apply list_elem_of_In|done].
      * intros task Htask [_ Hnot]%not_elem_of_cons. by apply I4.
Qed.

Lemma indexPath_no_task_file (task : AnalysisTask) :
  task ∈ ANALYSIS_TASKS -> indexPath config <> filePathOf config task.
Proof.
  intros Htask Hp.
  pose proof (index_is_no_task_file config task [] Htask) as H.
  cbn [isWriteTo] in H. fold (indexPath config) in H. rewrite Hp in H.
  by rewrite (proj2 (eqs_true _ _) eq_refl) in H.
Qed.

Lemma updateKnowledgeBase_files (k : KnowledgeGenerationResult) (w : World) :
  allSucceed w = true ->
  NoDup (map agentName (results k)) ->
  Forall (fun r => status r = status_success) (results k) ->
  let r := updateKnowledgeBase dumpIndex k config w in
  r.1 = true
  /\ files r.2 !! indexPath config = Some (dumpIndex k config)
  /\ (forall x task, x ∈ results k -> task ∈ ANALYSIS_TASKS -> agentName x = id task ->
        files r.2 !! filePathOf config task =
          if truthyVal (prop (metadata (output x)) "realtimeWritten")
          then files w !! filePathOf config task
          else Some (document (output x))).
Proof.
  intros Hall Hnd Hst. cbv zeta. unfold updateKnowledgeBase, writeYamlFile.
  fold (indexPath config).
  assert (Hdirs : allSucceed (ensureDirectoryStructure w) = true
                  /\ files (ensureDirectoryStructure w) = files w).
  { unfold ensureDirectoryStructure, fs_mkdir.
    destruct (pop_allSucceed w Hall) as (_ & A1 & A2).
    destruct (pop_allSucceed _ A1) as (_ & B1 & B2).
    destruct (pop_allSucceed _ B1) as (_ & C1 & C2).
    split; [done|]. by rewrite C2, B2, A2. }
  destruct Hdirs as [Hd1 Hd2].
  destruct (fs_mkdir_then_write (indexPath config) (dumpIndex k config)
              (ensureDirectoryStructure w) Hd1) as (W1 & W2 & W3).
  destruct (let '(ok, w1) := fs_mkdir (ensureDirectoryStructure w) in
            if ok then fs_writeFile (indexPath config) (dumpIndex k config) w1
            else (false, w1)) as [ok w2].
  cbn [fst snd] in *. subst ok.
  destruct (writeResults_files (results k) w2 W2 Hnd Hst) as (R1 & R2 & R3 & R4 & R5).
  split; [done|]. split.
  - rewrite R5; [by rewrite W3, lookup_insert_eq|].
    intros task Htask. by apply indexPath_no_task_file.
  - intros x task Hx Htask Hname. rewrite (R3 x task Hx Htask Hname).
    destruct (truthyVal _); [|done].
    rewrite W3, lookup_insert_ne; [by rewrite Hd2|]. by apply indexPath_no_task_file.
Qed.

Lemma fallbackOutput_flag analysisResult (task : AnalysisTask) (o : TaskOutput) :
  (forall doc, sd_metadata (extractStructuredData doc) !! "realtimeWritten" = None) ->
  fallbackOutput extractStructuredData now analysisResult config task = Some o ->
  truthyVal (prop (metadata o) "realtimeWritten") = false.
Proof.
  intros Hex. unfold fallbackOutput.
  destruct (extractTaskContentForFallback analysisResult task) as [c|]; [|done].
  destruct (truthy c && (100 <? length c)%nat); [|done].
  intros [= <-]. cbn [metadata]. unfold prop, spread.
  rewrite lookup_union_r by apply Hex. by simplify_map_eq.
Qed.

(** X14. What a run reports is what is on disk. On a session in which no scan
    started by a stream has anything to write, when no file operation
    fails and the structured data extracted from a document never carry a
    [realtimeWritten] key, a run that returns leaves, for every entry of
    its results, the reported document in the file of the task the entry
    names, and the index in knowledge.yaml. *)
Theorem reported_documents_are_on_disk scripts (w : World) k tr w' :
  quiet scripts = true ->
  allSucceed w = true ->
  (forall doc, sd_metadata (extractStructuredData doc) !! "realtimeWritten" = None) ->
  executeKnowledgeGeneration extractStructuredData now dumpIndex buildUnifiedPrompt
    config scripts w = (inl k, tr, w') ->
  files w' !! indexPath config = Some (dumpIndex k config)
  /\ forall r, r ∈ results k ->
       exists task, task ∈ ANALYSIS_TASKS /\ agentName r = id task
                    /\ files w' !! filePathOf config task = Some (document (output r)).
Proof.
  intros _ Hall Hex Hrun.
  destruct (executeKnowledgeGeneration_returns extractStructuredData now dumpIndex
              buildUnifiedPrompt config scripts w k tr w' Hrun)
    as (prompt & analysisResult & w1 & outs & w2 & _ & Hu & Hp & Hk & Hupd).
  destruct (executeUnifiedAnalysis_settled now config prompt scripts w analysisResult tr w1
              Hall Hu) as [Hall1 _].
  pose proof (executeUnifiedAnalysis_liveFilesOk now config prompt scripts w) as Hlive.
  pose proof (executeUnifiedAnalysis_writtenSetOk now config prompt scripts w) as Hset.
  rewrite Hu in Hlive, Hset. cbn [snd] in Hlive, Hset.
  pose proof (parseTaskOutputs_ids extractStructuredData now config analysisResult w1 Hset)
    as (_ & Hnd & _).
  rewrite Hp in Hnd. cbn [fst] in Hnd.
  unfold parseTaskOutputs in Hp.
  pose proof (realtimeOutputs_read (realtimeWrittenTasks w1) w1 Hall1) as Hread.
  pose proof (realtimeOutputs_flag extractStructuredData config (realtimeWrittenTasks w1)
                w1 Hex) as Hflag.
  destruct (realtimeOutputs extractStructuredData config (realtimeWrittenTasks w1) w1)
    as [written w2'].
  injection Hp as <- <-. cbn [fst snd] in *.
  destruct Hread as (Hall2 & Hfiles2 & Hdocs).
  { intros task Htask Hin. apply has_true in Hin.
    destruct (Hlive task Htask Hin) as (c & _ & Hc). unfold onDisk in Hc.
    rewrite Hc. by eexists. }
  assert (Hnames : map agentName (results k) =
                   map taskId (written ++ omap (fallbackOutput extractStructuredData now
                                 analysisResult config) (remainingTasks w1))).
  { subst k. apply validateAndPackageResults_names. }
  assert (Hst : Forall (fun r => status r = status_success) (results k)).
  { subst k. cbn. apply Forall_fmap, Forall_true. done. }
  destruct (updateKnowledgeBase_files k w2' Hall2) as (_ & Hindex & Htasks);
    [by rewrite Hnames|done|].
  rewrite Hupd in Hindex, Htasks. cbn [snd] in Hindex, Htasks.
  split; [exact Hindex|].
  intros r Hr. pose proof Hr as Hr'. subst k.
  cbn [results validateAndPackageResults] in Hr.
  apply list_elem_of_fmap in Hr as (o & -> & Ho).
  apply elem_of_app in Ho as [Ho|Ho].
  - rewrite Forall_forall in Hdocs, Hflag.
    destruct (Hdocs o Ho) as (task & Htask & Hid & Hdoc). exists task.
    split; [done|]. split; [done|].
    rewrite (Htasks _ task Hr' Htask Hid). cbn [output toResult].
    rewrite (Hflag o Ho), Hfiles2. exact Hdoc.
  - apply list_elem_of_omap in Ho as (task & Hin & Hsome).
    assert (Htask : task ∈ ANALYSIS_TASKS).
    { unfold remainingTasks in Hin. by apply list_elem_of_filter in Hin as [_ ?]. }
    pose proof (fallbackOutput_taskId extractStructuredData now config analysisResult
                  task o Hsome) as Hid.
    exists task. split; [done|]. split; [done|].
    rewrite (Htasks _ task Hr' Htask Hid). cbn [output toResult].
    by rewrite (fallbackOutput_flag analysisResult task o Hex Hsome).
Qed.

End OnDisk.


Section SessionWrites.

Variable extractStructuredData : jsstring -> StructuredData.
Variable now : jsstring.
Variable dumpIndex : KnowledgeGenerationResult -> AnalysisConfig -> jsstring.
Variable buildUnifiedPrompt : AnalysisConfig -> jsstring + JsError.
Variable config : AnalysisConfig.

Lemma task_file_within (task : AnalysisTask) (content : jsstring) :
  task ∈ ANALYSIS_TASKS ->
  writesWithin config (Wrote (filePathOf config task) content)
  /\ isWriteTo (indexPath config) (Wrote (filePathOf config task) content) = false.
Proof.
  intros Htask. split.
  - exists (outputFile task). split; [|done]. right. by apply list_elem_of_fmap_2.
  - cbn [isWriteTo]. apply bool_decide_eq_false. intros Hp.
    by apply (indexPath_no_task_file config task).
Qed.

Lemma detectTask_tidy (content : jsstring) (w : World) (task : AnalysisTask) (n : nat) :
  task ∈ ANALYSIS_TASKS -> tidy config n w -> tidy config n (detectTask now content config w task).
Proof.
  intros Htask [Hw Hn].
  destruct (has (id task) (realtimeWrittenTasks w)) eqn:Hhas.
  { by rewrite detectTask_written. }
  destruct (detectTask_cases now config content w task Hhas)
    as (opened & _ & Hio & _ & _ & Hcase).
  destruct (between content (startMarker task) (endMarker task)) as [c|];
    [destruct (100 <? length c)%nat|]; [|rewrite Hcase; unfold tidy; by rewrite Hio..].
  cbv zeta in Hcase. rewrite Hcase. clear Hcase.
  destruct (writeTaskImmediately_spec now config task c opened) as (_ & _ & _ & Hr4 & _).
  destruct (task_file_within task
              (formatDocument now c task (basename (repoPath config))) Htask) as [Hin Hidx].
  assert (Hio' : tidy config n (writeTaskImmediately now task c config opened).2).
  { unfold tidy, writesTo. rewrite Hr4, Hio. rewrite count_app. split.
    - apply Forall_app. split; [done|]. constructor; [done|].
      destruct (writeSucceeds opened); by repeat constructor.
    - fold (writesTo (indexPath config) (io w)). rewrite Hn.
      destruct (writeSucceeds opened); cbn [count]; rewrite ?Hidx; cbn [isWriteTo]; lia. }
  by destruct (writeTaskImmediately now task c config opened) as [[] w2].
Qed.

Lemma detectAndWriteCompletedTasks_tidy (content : jsstring) (w : World) (n : nat) :
  tidy config n w -> tidy config n (detectAndWriteCompletedTasks now content config w).
Proof.
  unfold detectAndWriteCompletedTasks.
  assert (Hall : Forall (fun t => t ∈ ANALYSIS_TASKS) ANALYSIS_TASKS)
    by by apply Forall_forall.
  revert w. induction Hall as [|t ts Ht _ IH]; intros w Hw; [done|].
  cbn [foldl]. apply IH. by apply detectTask_tidy.
Qed.

Lemma executeUnifiedAnalysis_tidy prompt scripts (w : World) (n : nat) :
  tidy config n w -> tidy config n (executeUnifiedAnalysis now prompt config scripts w).2.
Proof.
  intros Hw. unfold executeUnifiedAnalysis.
  set (w0 := set_taskBuffer ∅ (set_realtimeWrittenTasks [] w)).
  assert (H0 : tidy config n w0) by done.
  pose proof (executeAnalysis_listener (onContentUpdate now config) (tidy config n)
                (fun c l H => detectAndWriteCompletedTasks_tidy c l n H)
                prompt system_prompt (Some unifiedConfig)
                {| pending := scripts; trace := []; listener := w0 |} H0) as H1.
  destruct (executeAnalysis (onContentUpdate now config) prompt system_prompt
              (Some unifiedConfig) _) as [r eng'].
  cbn [snd] in H1. destruct r as [result_text|e]; cbn [snd]; [|done].
  by apply detectAndWriteCompletedTasks_tidy.
Qed.

Lemma mkdir_then_write_tidy (path content : jsstring) (w : World) (n : nat) :
  writesWithin config (Wrote path content) ->
  tidy config n w ->
  let r := (let '(ok, w1) := fs_mkdir w in
            if ok then fs_writeFile path content w1 else (false, w1)) in
  tidy config (n + if r.1 && isWriteTo (indexPath config) (Wrote path content) then 1 else 0) r.2.
Proof.
  intros Hin [Hw Hn]. cbv zeta. unfold fs_mkdir.
  destruct (pop w) as [ok w1] eqn:Ep.
  assert (Hio1 : io w1 = io w) by (unfold pop in Ep; by inversion Ep).
  destruct ok.
  2: { cbn [fst snd andb]. unfold tidy. rewrite Hio1, Nat.add_0_r. done. }
  pose proof (fs_writeFile_io path content w1) as Hio.
  destruct (fs_writeFile path content w1) as [ok w2]. cbn [fst snd] in *.
  unfold tidy, writesTo. rewrite Hio, Hio1, count_app. split.
  - apply Forall_app. split; [done|]. destruct ok; by repeat constructor.
  - fold (writesTo (indexPath config) (io w)). rewrite Hn.
    destruct ok; cbn [count andb]; [|lia].
    destruct (isWriteTo (indexPath config) (Wrote path content)); lia.
Qed.

Lemma writeResults_tidy (rs : list AnalysisResult) (w : World) (n : nat) :
  tidy config n w -> tidy config n (writeResults config rs w).2.
Proof.
  revert w. induction rs as [|r rs IH]; intros w Hw; [done|].
  cbn [writeResults]. destruct (status r); [|by apply IH..].
  destruct (truthyVal (prop (metadata (output r)) "realtimeWritten")); [by apply IH|].
  unfold writeTaskOutput.
  destruct (find (fun t => bool_decide (id t = agentName r)) ANALYSIS_TASKS)
    as [task|] eqn:Ef; [|by apply IH].
  apply find_some in Ef as [Htask _]. apply list_elem_of_In in Htask.
  destruct (task_file_within task (document (output r)) Htask) as [Hin Hidx].
  pose proof (mkdir_then_write_tidy (filePathOf config task) (document (output r)) w n
                Hin Hw) as Hstep.
  cbv zeta in Hstep. rewrite Hidx, andb_false_r, Nat.add_0_r in Hstep.
  destruct (let '(ok, w1) := fs_mkdir w in
            if ok then fs_writeFile (filePathOf config task) (document (output r)) w1
            else (false, w1)) as [[] w1]; [by apply IH|done].
Qed.

Lemma updateKnowledgeBase_tidy (k : KnowledgeGenerationResult) (w : World) :
  tidy config 0 w ->
  let r := updateKnowledgeBase dumpIndex k config w in
  (tidy config 0 r.2 /\ r.1 = false) \/ tidy config 1 r.2.
Proof.
  intros Hw. cbv zeta. unfold updateKnowledgeBase, writeYamlFile.
  fold (indexPath config).
  assert (Hdirs : tidy config 0 (ensureDirectoryStructure w)).
  { unfold ensureDirectoryStructure, fs_mkdir, tidy. by destruct w as [? ? ? ? [|? [|? [|? ?]]]]. }
  assert (Hin : writesWithin config (Wrote (indexPath config) (dumpIndex k config))).
  { exists (str "knowledge.yaml"). split; [by left|done]. }
  pose proof (mkdir_then_write_tidy (indexPath config) (dumpIndex k config) _ 0 Hin Hdirs)
    as Hstep.
  cbv zeta in Hstep. cbn [isWriteTo] in Hstep.
  rewrite (proj2 (eqs_true _ _) eq_refl), andb_true_r in Hstep.
  destruct (let '(ok, w1) := fs_mkdir (ensureDirectoryStructure w) in
            if ok then fs_writeFile (indexPath config) (dumpIndex k config) w1
            else (false, w1)) as [[] w2]; cbn [fst snd] in *.
  - right. by apply writeResults_tidy.
  - left. done.
Qed.

Lemma executeKnowledgeGeneration_tidy scripts (w : World) :
  let run := executeKnowledgeGeneration extractStructuredData now dumpIndex
               buildUnifiedPrompt config scripts w in
  io w = [] ->
  Forall (writesWithin config) (io run.2)
  /\ (writesTo (indexPath config) (io run.2) <= 1)%nat
  /\ match run.1.1 with
     | inl _ => writesTo (indexPath config) (io run.2) = 1%nat
     | inr _ => True
     end.
Proof.
  cbv zeta. intros Hio. unfold executeKnowledgeGeneration.
  assert (H0 : tidy config 0 w) by (unfold tidy; rewrite Hio; done).
  destruct (buildUnifiedPrompt config) as [prompt|e];
    [|destruct H0 as [? H]; cbn [fst snd]; rewrite H; repeat split; done || lia].
  pose proof (executeUnifiedAnalysis_tidy prompt scripts w 0 H0) as H1.
  destruct (executeUnifiedAnalysis now prompt config scripts w) as [[r tr] w1].
  cbn [snd] in H1.
  destruct r as [analysisResult|e];
    [|destruct H1 as [? H]; cbn [fst snd]; rewrite H; repeat split; done || lia].
  unfold parseTaskOutputs.
  pose proof (realtimeOutputs_io extractStructuredData config (realtimeWrittenTasks w1) w1)
    as H2.
  destruct (realtimeOutputs extractStructuredData config (realtimeWrittenTasks w1) w1)
    as [written w2]. cbn [snd] in H2.
  assert (H2' : tidy config 0 w2) by (unfold tidy; by rewrite H2).
  match goal with |- context [updateKnowledgeBase dumpIndex ?k config w2] =>
    pose proof (updateKnowledgeBase_tidy k w2 H2') as H3;
    destruct (updateKnowledgeBase dumpIndex k config w2) as [ok w3] end.
  cbv zeta in H3. cbn [fst snd] in H3.
  destruct H3 as [[[H3 H4] ->]|[H3 H4]].
  - cbn [fst snd]. rewrite H4. repeat split; done || lia.
  - destruct ok; cbn [fst snd]; rewrite H4; repeat split; done || lia.
Qed.

(** X15. What a session writes. Every file a session writes is knowledge.yaml
    or the output file of a declared task, under [.repomind] of the output
    path, whatever the engine streams; knowledge.yaml is written at most
    once, and exactly once when the run returns. *)
Theorem session_writes_only_its_files scripts (w : World) :
  let run := executeKnowledgeGeneration extractStructuredData now dumpIndex
               buildUnifiedPrompt config scripts w in
  io w = [] ->
  Forall (writesWithin config) (io run.2)
  /\ (writesTo (indexPath config) (io run.2) <= 1)%nat
  /\ match run.1.1 with
     | inl _ => writesTo (indexPath config) (io run.2) = 1%nat
     | inr _ => True
     end.
Proof. apply executeKnowledgeGeneration_tidy. Qed.

End SessionWrites.


(* ===================================================================== *)
(** ** Further properties of the confidence                                *)
(* ===================================================================== *)

Lemma confidence_range (output : TaskOutput) :
  (0 <= calculateTaskConfidence output)%Q
  /\ (calculateTaskConfidence output <= 9 # 10)%Q
  /\ (includes (document output) needle_note || includes (document output) needle_because
      = true -> (calculateTaskConfidence output <= 63 # 100)%Q).
Proof.
  unfold calculateTaskConfidence.
  set (l := (inject_Z (Z.of_nat (length (document output))) / 2000)%Q).
  assert (Hl : (0 <= l)%Q).
  { subst l. apply Qle_shift_div_l; [reflexivity|].
    rewrite Qmult_0_l. change 0%Q with (inject_Z 0). rewrite <- Zle_Qle. lia. }
  assert (Hm : (0 <= Qmin l 1)%Q /\ (Qmin l 1 <= 1)%Q).
  { split; [apply Q.min_glb; [done|discriminate]|apply Q.le_min_r]. }
  destruct Hm as [Hm0 Hm1]. generalize dependent (Qmin l 1). intros m Hm0 Hm1.
  split; [|split].
  - apply Q.min_glb; [|discriminate].
    repeat match goal with |- context [if ?c then _ else _] => destruct c end; lra.
  - eapply Qle_trans; [apply Q.le_min_l|].
    repeat match goal with |- context [if ?c then _ else _] => destruct c end; lra.
  - intros ->. eapply Qle_trans; [apply Q.le_min_l|].
    repeat match goal with |- context [if ?c then _ else _] => destruct c end; lra.
Qed.

(** X16. The confidence of a task never exceeds 0.9, the sum of the length term
    and the four bonuses, so that the final [Math.min(confidence, 1)] never
    takes effect; for a document marked as partial ('[注意：' or '分析因')
    it never exceeds 0.63. *)
Theorem confidence_never_exceeds_nine_tenths (output : TaskOutput) :
  (0 <= calculateTaskConfidence output)%Q
  /\ (calculateTaskConfidence output <= 9 # 10)%Q
  /\ (includes (document output) needle_note || includes (document output) needle_because
      = true -> (calculateTaskConfidence output <= 63 # 100)%Q).
Proof. apply confidence_range. Qed.

Section Overall.

Variable now : jsstring.

Lemma sum_bounds (rs : list AnalysisResult) (acc : Q) :
  Forall (fun r => (0 <= confidence r)%Q /\ (confidence r <= 9 # 10)%Q) rs ->
  (acc <= foldl (fun sum r => sum + confidence r) acc rs)%Q
  /\ (foldl (fun sum r => sum + confidence r) acc rs
      <= acc + inject_Z (Z.of_nat (length rs)) * (9 # 10))%Q.
Proof.
  intros H. revert acc. induction H as [|r rs [H0 H1] _ IH]; intros acc.
  - cbn [foldl length]. change (inject_Z (Z.of_nat 0)) with 0%Q. split; lra.
  - cbn [foldl length]. destruct (IH (acc + confidence r)%Q) as [I0 I1].
    rewrite Nat2Z.inj_succ. unfold Z.succ. rewrite inject_Z_plus.
    change (inject_Z 1) with 1%Q. split; lra.
Qed.

(** X17. The overall confidence of a packaged result is the mean of the
    confidences of its entries, lies between 0 and 0.9, and is 0 when
    there is no entry. *)
Theorem overall_confidence_is_the_mean (taskOutputs : list TaskOutput)
    (config : AnalysisConfig) :
  let k := validateAndPackageResults now taskOutputs config in
  (overallConfidence k * inject_Z (Z.of_nat (length taskOutputs))
   == foldl (fun sum o => sum + calculateTaskConfidence o) 0 taskOutputs)%Q
  /\ (0 <= overallConfidence k)%Q /\ (overallConfidence k <= 9 # 10)%Q
  /\ (taskOutputs = [] -> overallConfidence k = 0%Q).
Proof.
  cbv zeta. cbn [overallConfidence validateAndPackageResults]. rewrite length_map.
  assert (Hsum : forall acc,
    foldl (fun sum r => sum + confidence r)%Q acc (map toResult taskOutputs)
    = foldl (fun sum o => sum + calculateTaskConfidence o)%Q acc taskOutputs).
  { induction taskOutputs as [|o os IH]; intros acc; [done|]. cbn [map foldl]. apply IH. }
  rewrite Hsum.
  assert (Hb : Forall (fun r => (0 <= confidence r)%Q /\ (confidence r <= 9 # 10)%Q)
                 (map toResult taskOutputs)).
  { apply Forall_fmap, Forall_forall. intros o _. cbn.
    destruct (confidence_range o) as (? & ? & _). done. }
  destruct (sum_bounds _ 0%Q Hb) as [S0 S1]. rewrite Hsum, length_map in *.
  destruct taskOutputs as [|o os]; [cbn; repeat split; (reflexivity || discriminate)|].
  set (n := inject_Z (Z.of_nat (length (o :: os)))) in *.
  assert (Hn : (0 < n)%Q).
  { subst n. change 0%Q with (inject_Z 0). rewrite <- Zlt_Qlt. cbn [length]. lia. }
  cbn [Nat.ltb Nat.leb length]. fold n.
  set (s := foldl (fun sum o => (sum + calculateTaskConfidence o)%Q) 0%Q (o :: os)) in *.
  repeat split.
  - field. intros H. rewrite H in Hn. by apply Qlt_irrefl in Hn.
  - apply Qle_shift_div_l; [done|]. lra.
  - apply Qle_shift_div_r; [done|]. lra.
  - discriminate.
Qed.

End Overall.

(* ===================================================================== *)
(** ** The prompt builder                                                  *)
(* ===================================================================== *)

Import Text Prompts.

Section PromptBuilder.

Variable disk : jsstring -> option jsstring.

(** A load gives what is available, and leaves available what was. *)
Lemma loadPromptFile_result filename st :
  (loadPromptFile disk filename st).1 =
  match available disk st filename with
  | Some content => inl content
  | None => inr (Error (msg_prompt_file ++ filename))
  end.
Proof.
  unfold loadPromptFile, available.
  destruct (promptCache st !! filename); [done|]. by destruct (disk filename).
Qed.

Lemma loadPromptFile_available filename other st :
  available disk (loadPromptFile disk filename st).2 other = available disk st other.
Proof.
  unfold loadPromptFile, available.
  destruct (promptCache st !! filename) eqn:Hc; [done|].
  destruct (disk filename) eqn:Hd; cbn [snd promptCache]; [|done].
  destruct (decide (other = filename)) as [->|Hne].
  - by rewrite lookup_insert_eq, Hc, Hd.
  - by rewrite lookup_insert_ne.
Qed.

Lemma loadTasks_available commonGuide config tasks index st other :
  available disk (loadTasks disk commonGuide config index tasks st).2 other
  = available disk st other.
Proof.
  revert index st. induction tasks as [|[task description] rest IH]; intros index st; [done|].
  cbn [loadTasks].
  pose proof (loadPromptFile_available (promptFile task) other st) as H1.
  destruct (loadPromptFile disk (promptFile task) st) as [r st1]. cbn [snd] in H1.
  pose proof (IH (S index) st1) as H2.
  destruct (loadTasks disk commonGuide config (S index) rest st1) as [taskPrompts st2].
  cbn [snd] in H2. destruct r; cbn [snd]; by rewrite H2.
Qed.

Lemma loadTasks_sections commonGuide config tasks index st :
  (loadTasks disk commonGuide config index tasks st).1
  = omap (fun s => s)
      (imap (fun k => sectionOf disk st commonGuide config (index + k)) tasks).
Proof.
  revert index st. induction tasks as [|[task description] rest IH]; intros index st; [done|].
  cbn [loadTasks imap omap].
  pose proof (loadPromptFile_result (promptFile task) st) as H1.
  pose proof (fun other => loadPromptFile_available (promptFile task) other st) as Ha.
  destruct (loadPromptFile disk (promptFile task) st) as [r st1]. cbn [fst snd] in H1, Ha.
  pose proof (IH (S index) st1) as H2.
  destruct (loadTasks disk commonGuide config (S index) rest st1) as [taskPrompts st2].
  cbn [fst] in H2.
  assert (Hrest : omap (fun s => s)
            (imap (fun k => sectionOf disk st1 commonGuide config (S index + k)) rest)
          = omap (fun s => s)
            (imap ((fun k => sectionOf disk st commonGuide config (index + k)) ∘ S) rest)).
  { f_equal. apply imap_ext. intros k entry _. unfold sectionOf. cbn.
    rewrite Ha. by replace (index + S k)%nat with (S (index + k)) by lia. }
  cbn [omap list_omap]. fold (@omap list _ _ _ (fun s : option jsstring => s)).
  rewrite <- Hrest, <- H2.
  unfold sectionOf at 1. cbn [fst snd]. replace (index + 0)%nat with index by lia.
  destruct (available disk st (promptFile task)); subst r; done.
Qed.

(** The closed form of a build, as a lemma to build on. *)
Lemma buildUnifiedPrompt_closed config st :
  (buildUnifiedPrompt disk config st).1 =
  match available disk st templateFile with
  | None => inr (Error (msg_prompt_file ++ templateFile))
  | Some unifiedTemplate =>
      match available disk st guideFile with
      | None => inr (Error (msg_prompt_file ++ guideFile))
      | Some commonGuide =>
          inl (fillTemplate config unifiedTemplate (taskList disk st commonGuide config))
      end
  end.
Proof.
  unfold buildUnifiedPrompt.
  pose proof (loadPromptFile_result templateFile st) as H1.
  pose proof (fun other => loadPromptFile_available templateFile other st) as Ha1.
  destruct (loadPromptFile disk templateFile st) as [r st1]. cbn [fst snd] in H1, Ha1.
  destruct (available disk st templateFile) as [unifiedTemplate|]; subst r; [|done].
  unfold buildTaskListContent.
  pose proof (loadPromptFile_result guideFile st1) as H2.
  pose proof (fun other => loadPromptFile_available guideFile other st1) as Ha2.
  destruct (loadPromptFile disk guideFile st1) as [r st2]. cbn [fst snd] in H2, Ha2.
  rewrite Ha1 in H2.
  destruct (available disk st guideFile) as [commonGuide|]; subst r; [|done].
  pose proof (loadTasks_sections commonGuide config describedTasks 0 st2) as H3.
  destruct (loadTasks disk commonGuide config 0 describedTasks st2) as [taskPrompts st3].
  cbn [fst] in H3. cbn [fst]. unfold fillTemplate, taskList. rewrite H3.
  do 4 f_equal. apply imap_ext. intros k entry _. unfold sectionOf. cbn.
  by rewrite Ha2, Ha1.
Qed.

(** X18. What a build of the unified prompt returns. It fails exactly when the
    template or, with the template there, the common guide cannot be loaded
    (from the cache, or else from the disk), with the message of
    [loadPromptFile] for that file. Otherwise it returns the template with
    its five placeholders replaced, the task list being the sections of the
    tasks whose prompt can be loaded, in declared order: a task whose
    prompt cannot be loaded is left out without an error, and the others
    keep the numbers of their declared positions. *)
Theorem buildUnifiedPrompt_outcome config st :
  (buildUnifiedPrompt disk config st).1 =
  match available disk st templateFile with
  | None => inr (Error (msg_prompt_file ++ templateFile))
  | Some unifiedTemplate =>
      match available disk st guideFile with
      | None => inr (Error (msg_prompt_file ++ guideFile))
      | Some commonGuide =>
          inl (fillTemplate config unifiedTemplate (taskList disk st commonGuide config))
      end
  end.
Proof. apply buildUnifiedPrompt_closed. Qed.

Lemma buildUnifiedPrompt_available config st other :
  available disk (buildUnifiedPrompt disk config st).2 other = available disk st other.
Proof.
  unfold buildUnifiedPrompt.
  pose proof (loadPromptFile_available templateFile other st) as H1.
  destruct (loadPromptFile disk templateFile st) as [[unifiedTemplate|e] st1];
    cbn [snd] in H1; [|done].
  unfold buildTaskListContent.
  pose proof (loadPromptFile_available guideFile other st1) as H2.
  destruct (loadPromptFile disk guideFile st1) as [[commonGuide|e] st2];
    cbn [snd] in H2; [|by rewrite <- H1].
  pose proof (loadTasks_available commonGuide config describedTasks 0 st2 other) as H3.
  destruct (loadTasks disk commonGuide config 0 describedTasks st2) as [taskPrompts st3].
  cbn [snd] in *. by rewrite H3, H2.
Qed.

Lemma loadPromptFile_cached_self filename st :
  is_Some (available disk st filename) ->
  cached (loadPromptFile disk filename st).2 filename.
Proof.
  unfold loadPromptFile, available, cached.
  destruct (promptCache st !! filename) eqn:Hc; [cbn [snd]; by rewrite Hc|].
  destruct (disk filename); [|by intros [? ?]].
  intros _. cbn [snd promptCache]. by rewrite lookup_insert_eq.
Qed.

Lemma loadPromptFile_cached_mono filename other st :
  cached st other -> cached (loadPromptFile disk filename st).2 other.
Proof.
  unfold loadPromptFile, cached.
  destruct (promptCache st !! filename) eqn:Hc; [done|].
  destruct (disk filename); cbn [snd promptCache]; [|done].
  intros H. destruct (decide (other = filename)) as [->|Hne].
  - by rewrite lookup_insert_eq.
  - by rewrite lookup_insert_ne.
Qed.

Lemma loadTasks_cached_mono commonGuide config tasks index st other :
  cached st other -> cached (loadTasks disk commonGuide config index tasks st).2 other.
Proof.
  revert index st. induction tasks as [|[task description] rest IH]; intros index st H; [done|].
  cbn [loadTasks].
  pose proof (loadPromptFile_cached_mono (promptFile task) other st H) as H1.
  destruct (loadPromptFile disk (promptFile task) st) as [r st1]. cbn [snd] in H1.
  pose proof (IH (S index) st1 H1) as H2.
  destruct (loadTasks disk commonGuide config (S index) rest st1) as [taskPrompts st2].
  by destruct r.
Qed.

Lemma loadTasks_cached_all commonGuide config tasks index st :
  (forall entry, entry ∈ tasks -> is_Some (available disk st (promptFile entry.1))) ->
  forall entry, entry ∈ tasks ->
    cached (loadTasks disk commonGuide config index tasks st).2 (promptFile entry.1).
Proof.
  revert index st. induction tasks as [|[task description] rest IH]; intros index st Hav entry Hin.
  { by apply elem_of_nil in Hin. }
  cbn [loadTasks].
  pose proof (loadPromptFile_cached_self (promptFile task) st
                (Hav (task, description) (list_elem_of_here _ _))) as H1.
  pose proof (fun other => loadPromptFile_available (promptFile task) other st) as Ha.
  destruct (loadPromptFile disk (promptFile task) st) as [r st1]. cbn [snd] in H1, Ha.
  pose proof (loadTasks_cached_mono commonGuide config rest (S index) st1
                (promptFile task) H1) as H2.
  assert (Hav1 : forall entry, entry ∈ rest ->
                   is_Some (available disk st1 (promptFile entry.1))).
  { intros e He. rewrite Ha. apply Hav. by apply list_elem_of_further. }
  pose proof (IH (S index) st1 Hav1) as H3.
  destruct (loadTasks disk commonGuide config (S index) rest st1) as [taskPrompts st2].
  cbn [snd] in H2, H3.
  apply elem_of_cons in Hin as [->|Hin]; destruct r; cbn [fst snd]; auto.
Qed.

Lemma described_file entry :
  entry ∈ describedTasks -> promptFile entry.1 ∈ promptFiles.
Proof.
  intros Hin. unfold promptFiles. do 2 apply list_elem_of_further.
  apply list_elem_of_fmap. exists entry.1. split; [done|].
  destruct entry as [task description]. by apply elem_of_zip_l in Hin.
Qed.

Lemma allAvailable_spec st filename :
  allAvailable disk st = true -> filename ∈ promptFiles ->
  is_Some (available disk st filename).
Proof.
  unfold allAvailable. rewrite forallb_forall. intros H Hin.
  apply list_elem_of_In in Hin. apply H in Hin. by apply bool_decide_eq_true in Hin.
Qed.

Lemma buildUnifiedPrompt_cached config st filename :
  allAvailable disk st = true -> filename ∈ promptFiles ->
  cached (buildUnifiedPrompt disk config st).2 filename.
Proof.
  intros Hall Hin. unfold buildUnifiedPrompt.
  pose proof (loadPromptFile_result templateFile st) as Hr1.
  pose proof (loadPromptFile_cached_self templateFile st
                (allAvailable_spec st _ Hall (list_elem_of_here _ _))) as H1.
  pose proof (fun other => loadPromptFile_available templateFile other st) as Ha1.
  destruct (allAvailable_spec st templateFile Hall (list_elem_of_here _ _)) as [t Ht].
  rewrite Ht in Hr1.
  destruct (loadPromptFile disk templateFile st) as [r st1]. cbn [fst snd] in *. subst r.
  unfold buildTaskListContent.
  assert (Hg : guideFile ∈ promptFiles) by (apply list_elem_of_further, list_elem_of_here).
  pose proof (loadPromptFile_result guideFile st1) as Hr2.
  destruct (allAvailable_spec st guideFile Hall Hg) as [g Hgv].
  rewrite Ha1, Hgv in Hr2.
  pose proof (loadPromptFile_cached_self guideFile st1) as H2.
  rewrite Ha1, Hgv in H2. specialize (H2 (mk_is_Some _ _ eq_refl)).
  pose proof (loadPromptFile_cached_mono guideFile templateFile st1 H1) as H1'.
  pose proof (fun other => loadPromptFile_available guideFile other st1) as Ha2.
  destruct (loadPromptFile disk guideFile st1) as [r st2]. cbn [fst snd] in *. subst r.
  pose proof (loadTasks_cached_mono g config describedTasks 0 st2 templateFile H1') as H1''.
  pose proof (loadTasks_cached_mono g config describedTasks 0 st2 guideFile H2) as H2''.
  pose proof (loadTasks_cached_all g config describedTasks 0 st2) as H3.
  destruct (loadTasks disk g config 0 describedTasks st2) as [taskPrompts st3].
  cbn [snd] in *.
  unfold promptFiles in Hin.
  apply elem_of_cons in Hin as [->|Hin]; [done|].
  apply elem_of_cons in Hin as [->|Hin]; [done|].
  apply list_elem_of_fmap in Hin as (task & -> & Htask).
  assert (exists description, (task, description) ∈ describedTasks) as [description Hd].
  { unfold ANALYSIS_TASKS in Htask. rewrite !elem_of_cons, elem_of_nil in Htask.
    destruct Htask as [->|[->|[->|[->|[]]]]]; eexists;
      unfold describedTasks, ANALYSIS_TASKS, DESCRIPTIONS; cbn [zip zip_with];
      [apply list_elem_of_here
      |apply list_elem_of_further, list_elem_of_here
      |do 2 apply list_elem_of_further; apply list_elem_of_here
      |do 3 apply list_elem_of_further; apply list_elem_of_here]. }
  apply (H3 (fun entry He => ltac:(rewrite Ha2, Ha1;
           exact (allAvailable_spec st _ Hall (described_file entry He))))
           (task, description) Hd).
Qed.

End PromptBuilder.

Section SecondBuild.

Variable disk disk' : jsstring -> option jsstring.

Lemma loadPromptFile_hit filename st :
  cached st filename -> (loadPromptFile disk' filename st).2 = st.
Proof. unfold loadPromptFile, cached. by intros [c ->]. Qed.

Lemma loadTasks_hit commonGuide config tasks index st :
  (forall entry, entry ∈ tasks -> cached st (promptFile entry.1)) ->
  (loadTasks disk' commonGuide config index tasks st).2 = st.
Proof.
  revert index. induction tasks as [|[task description] rest IH]; intros index H; [done|].
  cbn [loadTasks].
  pose proof (loadPromptFile_hit (promptFile task) st (H (task, description)
                (list_elem_of_here _ _))) as H1.
  destruct (loadPromptFile disk' (promptFile task) st) as [r st1]. cbn [snd] in H1. subst st1.
  pose proof (IH (S index) (fun entry He => H entry (list_elem_of_further _ _ _ He))) as H2.
  destruct (loadTasks disk' commonGuide config (S index) rest st) as [taskPrompts st2].
  cbn [snd] in H2. by destruct r.
Qed.

Lemma buildUnifiedPrompt_hit config st :
  (forall filename, filename ∈ promptFiles -> cached st filename) ->
  (buildUnifiedPrompt disk' config st).2 = st.
Proof.
  intros H. unfold buildUnifiedPrompt.
  pose proof (loadPromptFile_hit templateFile st (H _ (list_elem_of_here _ _))) as H1.
  destruct (loadPromptFile disk' templateFile st) as [[unifiedTemplate|e] st1];
    cbn [snd] in H1; subst st1; [|done].
  unfold buildTaskListContent.
  pose proof (loadPromptFile_hit guideFile st
                (H _ (list_elem_of_further _ _ _ (list_elem_of_here _ _)))) as H2.
  destruct (loadPromptFile disk' guideFile st) as [[commonGuide|e] st2];
    cbn [snd] in H2; subst st2; [|done].
  pose proof (loadTasks_hit commonGuide config describedTasks 0 st
                (fun entry He => H _ (described_file entry He))) as H3.
  destruct (loadTasks disk' commonGuide config 0 describedTasks st) as [taskPrompts st3].
  done.
Qed.

Lemma available_cached st filename :
  cached st filename -> available disk' st filename = available disk st filename.
Proof. unfold cached, available. by intros [c ->]. Qed.

(** X19. Prompt files are read once per manager. When all six prompt files can
    be loaded, a build succeeds, and a second build on the same manager
    with the same configuration returns the same prompt and leaves the
    store as it is, cache and record of reads, whatever the prompts
    directory holds by then. *)
Theorem second_build_reads_nothing config st :
  allAvailable disk st = true ->
  let first := buildUnifiedPrompt disk config st in
  (exists prompt, first.1 = inl prompt)
  /\ buildUnifiedPrompt disk' config first.2 = first.
Proof.
  intros Hall first.
  pose proof (buildUnifiedPrompt_cached disk config st) as Hc.
  pose proof (buildUnifiedPrompt_available disk config st) as Ha.
  pose proof (buildUnifiedPrompt_closed disk config st) as H1.
  fold first in Hc, Ha, H1.
  assert (Hsame : forall filename, filename ∈ promptFiles ->
            available disk' first.2 filename = available disk st filename).
  { intros f Hf. rewrite (available_cached _ _ (Hc f Hall Hf)). apply Ha. }
  destruct (allAvailable_spec disk st templateFile Hall (list_elem_of_here _ _)) as [t Ht].
  destruct (allAvailable_spec disk st guideFile Hall
              (list_elem_of_further _ _ _ (list_elem_of_here _ _))) as [g Hg].
  rewrite Ht, Hg in H1. split; [by eexists|].
  pose proof (buildUnifiedPrompt_closed disk' config first.2) as H2.
  rewrite !Hsame, Ht, Hg in H2
    by (unfold promptFiles; set_solver).
  pose proof (buildUnifiedPrompt_hit config first.2 (fun f Hf => Hc f Hall Hf)) as H3.
  destruct (buildUnifiedPrompt disk' config first.2) as [r2 st2].
  cbn [fst snd] in H2, H3. subst r2 st2.
  rewrite (surjective_pairing first). f_equal. rewrite H1. do 2 f_equal.
  unfold taskList. do 2 f_equal. apply imap_ext. intros k entry Hk.
  unfold sectionOf. cbn.
  by rewrite (Hsame _ (described_file entry (list_elem_of_lookup_2 _ _ _ Hk))).
Qed.

End SecondBuild.

(* ===================================================================== *)
(** ** Placeholders                                                        *)
(* ===================================================================== *)

Import Text Prompts.

Lemma getSubstitution_plain matched before after template :
  36%N ∉ template -> getSubstitution matched before after template = template.
Proof.
  induction template as [|c rest IH]; [done|].
  intros H. apply not_elem_of_cons in H as [Hc Hrest].
  cbn [getSubstitution].
  destruct (N.eqb_spec c 36) as [->|_]; [done|].
  by rewrite IH.
Qed.

Lemma startsWith_head o pattern c s :
  o <> c -> startsWith (o :: pattern) (c :: s) = false.
Proof. intros H. cbn. by destruct (N.eqb_spec o c). Qed.

Lemma replaceAt_plain o pattern replaceValue before s :
  o ∉ s -> replaceAt (o :: pattern) replaceValue before s 0 = s.
Proof.
  revert before. induction s as [|c rest IH]; intros before H; [done|].
  apply not_elem_of_cons in H as [Hc Hrest].
  cbn [replaceAt]. rewrite startsWith_head by done. by rewrite IH.
Qed.

Lemma replaceAt_prefix o pattern replaceValue before pre rest :
  o ∉ pre ->
  replaceAt (o :: pattern) replaceValue before (pre ++ rest) 0
  = pre ++ replaceAt (o :: pattern) replaceValue (before ++ pre) rest 0.
Proof.
  revert before. induction pre as [|c pre IH]; intros before H.
  { by rewrite app_nil_r. }
  apply not_elem_of_cons in H as [Hc Hpre].
  cbn [app replaceAt]. rewrite startsWith_head by done.
  rewrite IH by done. by rewrite <- app_assoc.
Qed.

Lemma replaceAt_skip pattern replaceValue before passed rest :
  replaceAt pattern replaceValue before (passed ++ rest) (length passed)
  = replaceAt pattern replaceValue (before ++ passed) rest 0.
Proof.
  revert before. induction passed as [|c passed IH]; intros before.
  { by rewrite app_nil_r. }
  cbn [app length replaceAt]. rewrite IH. by rewrite <- app_assoc.
Qed.

Lemma startsWith_own_prefix pattern rest : startsWith pattern (pattern ++ rest) = true.
Proof.
  induction pattern as [|c pattern IH]; [done|]. cbn. by rewrite N.eqb_refl.
Qed.

Lemma replaceAt_match o pattern replaceValue before rest :
  replaceAt (o :: pattern) replaceValue before ((o :: pattern) ++ rest) 0
  = getSubstitution (o :: pattern) before rest replaceValue
    ++ replaceAt (o :: pattern) replaceValue (before ++ o :: pattern) rest 0.
Proof.
  change ((o :: pattern) ++ rest) with (o :: (pattern ++ rest)) at 1.
  cbn [replaceAt].
  change (o :: (pattern ++ rest)) with ((o :: pattern) ++ rest).
  rewrite startsWith_own_prefix, drop_app_length.
  f_equal. cbn [length]. replace (S (length pattern) - 1)%nat with (length pattern) by lia.
  rewrite replaceAt_skip. by rewrite <- app_assoc.
Qed.

Lemma replaceAt_pass pattern replaceValue before c rest :
  startsWith pattern (c :: rest) = false ->
  replaceAt pattern replaceValue before (c :: rest) 0
  = c :: replaceAt pattern replaceValue (before ++ [c]) rest 0.
Proof. intros H. cbn [replaceAt]. by rewrite H. Qed.

(** A placeholder is left alone by the replacement of another one that
    differs from it in the first code unit after the braces. *)
Lemma replaceAt_other (a b : N) pattern replaceValue before x post :
  a <> b -> 123%N ∉ b :: x ++ post ->
  replaceAt (123 :: 123 :: a :: pattern)%N replaceValue before
            ((123 :: 123 :: b :: x)%N ++ post) 0
  = (123 :: 123 :: b :: x)%N ++ post.
Proof.
  intros Hab H. pose proof H as H'. apply not_elem_of_cons in H' as [Hb _].
  change ((123 :: 123 :: b :: x)%N ++ post) with (123 :: 123 :: b :: x ++ post)%N.
  rewrite replaceAt_pass.
  2:{ cbn [startsWith]. rewrite !N.eqb_refl. apply N.eqb_neq in Hab. by rewrite Hab. }
  f_equal. rewrite replaceAt_pass.
  2:{ cbn [startsWith]. rewrite N.eqb_refl. apply N.eqb_neq in Hb. by rewrite Hb. }
  f_equal. by apply replaceAt_plain.
Qed.

Lemma replaceAll_other (a b : N) pattern replaceValue pre x post :
  a <> b -> 123%N ∉ pre -> 123%N ∉ b :: x ++ post ->
  replaceAll (123 :: 123 :: a :: pattern)%N replaceValue
             (pre ++ (123 :: 123 :: b :: x)%N ++ post)
  = pre ++ (123 :: 123 :: b :: x)%N ++ post.
Proof.
  intros Hab Hpre H. unfold replaceAll.
  rewrite replaceAt_prefix by done. f_equal. by apply replaceAt_other.
Qed.

Lemma replaceAll_single o pattern replaceValue pre post :
  o ∉ pre -> o ∉ post ->
  replaceAll (o :: pattern) replaceValue (pre ++ (o :: pattern) ++ post)
  = pre ++ getSubstitution (o :: pattern) pre post replaceValue ++ post.
Proof.
  intros Hpre Hpost. unfold replaceAll.
  rewrite replaceAt_prefix by done. f_equal.
  rewrite replaceAt_match. f_equal. by apply replaceAt_plain.
Qed.

(** X20. What combinePrompts puts in place of the output path. In a task prompt
    whose only braces are those of one [{{OUTPUT_PATH}}] placeholder, the
    placeholder is replaced by the expansion of the output path as a
    replacement text of [String.prototype.replace]: the path itself when
    it holds no dollar sign, and otherwise the path with [$$], [$&], [$`]
    and [$'] expanded. The guide and the separator come before; the rest
    of the prompt is unchanged. *)
Theorem combinePrompts_fills_output_path commonGuide pre post config :
  123%N ∉ pre -> 123%N ∉ post ->
  combinePrompts commonGuide (pre ++ str "{{OUTPUT_PATH}}" ++ post) config
  = commonGuide ++ prompt_separator ++ pre
    ++ getSubstitution (str "{{OUTPUT_PATH}}") pre post (outputPath config) ++ post
  /\ (36%N ∉ outputPath config ->
      combinePrompts commonGuide (pre ++ str "{{OUTPUT_PATH}}" ++ post) config
      = commonGuide ++ prompt_separator ++ pre ++ outputPath config ++ post).
Proof.
  intros Hpre Hpost.
  assert (Hrest : 123%N ∉ (79 :: str "UTPUT_PATH}}" ++ post)%N).
  { change (79 :: str "UTPUT_PATH}}" ++ post)%N with (str "OUTPUT_PATH}}" ++ post).
    rewrite not_elem_of_app. split; [|done].
    apply (bool_decide_eq_true_1 (123%N ∉ str "OUTPUT_PATH}}")). by vm_compute. }
  assert (Hgen : combinePrompts commonGuide (pre ++ str "{{OUTPUT_PATH}}" ++ post) config
    = commonGuide ++ prompt_separator ++ pre
      ++ getSubstitution (str "{{OUTPUT_PATH}}") pre post (outputPath config) ++ post).
  { unfold combinePrompts. do 2 f_equal.
    change (str "{{OUTPUT_PATH}}") with (123 :: 123 :: 79 :: str "UTPUT_PATH}}")%N at 2.
    change (str "{{REPO_PATH}}") with (123 :: 123 :: 82 :: str "EPO_PATH}}")%N.
    change (str "{{ANALYSIS_DEPTH}}") with (123 :: 123 :: 65 :: str "NALYSIS_DEPTH}}")%N.
    change (str "{{INCLUDE_TESTS}}") with (123 :: 123 :: 73 :: str "NCLUDE_TESTS}}")%N.
    change (str "{{INCLUDE_DOCS}}") with (123 :: 123 :: 73 :: str "NCLUDE_DOCS}}")%N.
    rewrite !replaceAll_other by done.
    change (123 :: 123 :: 79 :: str "UTPUT_PATH}}")%N with (str "{{OUTPUT_PATH}}").
    change (str "{{OUTPUT_PATH}}") with (123 :: str "{OUTPUT_PATH}}")%N.
    by apply replaceAll_single. }
  split; [exact Hgen|].
  intros Hdollar. rewrite Hgen. by rewrite getSubstitution_plain.
Qed.

(* ===================================================================== *)
(** ** Structured data and the result check                                *)
(* ===================================================================== *)

Import Text Validation.

Lemma startsWith_fence_head language c s :
  c <> 96%N -> startsWith (fenceOpen language) (c :: s) = false.
Proof.
  intros H. unfold fenceOpen.
  change (str "```" ++ language ++ [10%N]) with (96 :: (str "``" ++ language ++ [10]))%N.
  cbn [startsWith]. apply N.eqb_neq in H. rewrite N.eqb_sym in H. by rewrite H.
Qed.

Lemma startsWith_close_inside c body post :
  96%N ∉ body -> startsWith fenceClose (c :: body ++ fenceClose ++ post) = false.
Proof.
  intros H. unfold fenceClose.
  change ([10%N] ++ str "```") with (10 :: 96 :: str "``")%N.
  destruct body as [|d body'].
  - cbn [app startsWith]. change (10 =? 96)%N with false.
    by rewrite andb_false_l, andb_false_r.
  - apply not_elem_of_cons in H as [Hd _]. cbn [app startsWith].
    apply N.eqb_neq in Hd. rewrite Hd. by rewrite andb_false_l, andb_false_r.
Qed.

Lemma startsWith_self_app x rest : startsWith x (x ++ rest) = true.
Proof. induction x as [|c x IH]; [done|]. cbn. by rewrite N.eqb_refl. Qed.

Lemma lazyUntil_here closing s : startsWith closing s = true -> lazyUntil closing s = Some [].
Proof. intros H. destruct s; cbn [lazyUntil]; by rewrite H. Qed.

Lemma fenceMatch_here language s body :
  startsWith (fenceOpen language) s = true ->
  lazyUntil fenceClose (drop (length (fenceOpen language)) s) = Some body ->
  fenceMatch language s = Some body.
Proof. intros H1 H2. destruct s; cbn [fenceMatch]; by rewrite H1, H2. Qed.

Lemma lazyUntil_body body post :
  96%N ∉ body -> lazyUntil fenceClose (body ++ fenceClose ++ post) = Some body.
Proof.
  induction body as [|c body IH]; intros H.
  - rewrite app_nil_l. apply lazyUntil_here, startsWith_self_app.
  - pose proof H as H'. apply not_elem_of_cons in H' as [_ Hb].
    cbn [app lazyUntil]. rewrite startsWith_close_inside by done.
    by rewrite IH.
Qed.

Lemma fenceMatch_fenced language pre body post :
  96%N ∉ pre -> 96%N ∉ body ->
  fenceMatch language (pre ++ fenceOpen language ++ body ++ fenceClose ++ post)
  = Some body.
Proof.
  intros Hpre Hbody. induction pre as [|c pre IH].
  - rewrite app_nil_l. apply fenceMatch_here; [apply startsWith_self_app|].
    rewrite drop_app_length. by apply lazyUntil_body.
  - apply not_elem_of_cons in Hpre as [Hc Hpre].
    cbn [app fenceMatch]. rewrite startsWith_fence_head by done. by apply IH.
Qed.

(** X21. The fenced yaml block decides. When the content holds a fenced yaml
    block after a text without a backtick and the body of the block holds
    no backtick, the result is read from [yaml.load] of that body alone:
    its three fields, or the defaults when [yaml.load] throws, whatever
    follows the block (a well-formed json block included) and whatever
    [JSON.parse] would do. *)
Theorem yaml_block_is_parsed_alone yamlLoad jsonParse pre body post :
  96%N ∉ pre -> 96%N ∉ body ->
  extractStructuredData yamlLoad jsonParse
    (pre ++ fenceOpen (str "yaml") ++ body ++ fenceClose ++ post)
  = match yamlLoad body with
    | inl parsed => fromYaml parsed
    | inr _ => defaults
    end.
Proof.
  intros Hpre Hbody. unfold extractStructuredData.
  by rewrite fenceMatch_fenced.
Qed.

Lemma orElse_truthy a b : truthyValue b = true -> truthyValue (orElse a b) = true.
Proof. intros H. unfold orElse. by destruct (truthyValue a) eqn:E. Qed.

(** X22. No field is ever missing. Whatever the content and whatever the
    parsers return or throw, the three fields [extractStructuredData]
    returns are truthy: never [undefined], [null], [false], 0, [NaN] or
    the empty string. *)
Theorem extracted_fields_are_never_missing yamlLoad jsonParse content :
  let data := extractStructuredData yamlLoad jsonParse content in
  truthyValue (e_techStack data) = true
  /\ truthyValue (e_references data) = true
  /\ truthyValue (e_metadata data) = true.
Proof.
  cbv zeta. unfold extractStructuredData.
  destruct (fenceMatch (str "yaml") content) as [body|].
  - destruct (yamlLoad body) as [parsed|e]; [|done].
    unfold fromYaml. cbn [e_techStack e_references e_metadata].
    repeat split; by apply orElse_truthy.
  - destruct (fenceMatch (str "json") content) as [body|]; [|done].
    destruct (jsonParse body) as [parsed|e]; [|done].
    unfold fromJson.
    destruct (get parsed (str "techStack")) as [t|]; [|done].
    destruct (get parsed (str "references")) as [r|]; [|done].
    destruct (get parsed (str "metadata")) as [m|]; [|done].
    cbn. repeat split; by apply orElse_truthy.
Qed.

(** *** validateResult *)

Lemma matchLiteral_spec word s :
  is_Some (matchLiteral word s)
  <-> exists w post, s = w ++ post /\ map canonicalize w = map canonicalize word.
Proof.
  revert s. induction word as [|p word IH]; intros s.
  - cbn. split; [intros _; by exists [], s|by eexists].
  - destruct s as [|c s]; cbn [matchLiteral].
    + split; [by intros [? ?]|]. intros (w & post & H & Hw).
      destruct w; [discriminate Hw|discriminate H].
    + destruct (N.eqb_spec (canonicalize p) (canonicalize c)) as [E|E].
      * rewrite IH. split.
        -- intros (w & post & -> & Hw). exists (c :: w), post. split; [done|].
           cbn. by rewrite Hw, E.
        -- intros (w & post & H & Hw). destruct w as [|x w]; [discriminate Hw|].
           injection H as -> ->. injection Hw as _ Hw. by exists w, post.
      * split; [by intros [? ?]|]. intros (w & post & H & Hw).
        destruct w as [|x w]; [discriminate Hw|].
        injection H as -> _. injection Hw as Hx _. by rewrite Hx in E.
Qed.

Lemma test_spec word s : test word s = true <-> mentions word s.
Proof.
  unfold mentions. induction s as [|c s IH].
  - cbn [test]. destruct (matchLiteral word []) eqn:E.
    + split; [intros _|done].
      destruct (proj1 (matchLiteral_spec word []) (mk_is_Some _ _ E)) as (w & post & H & Hw).
      by exists [], w, post.
    + split; [done|]. intros (pre & w & post & H & Hw).
      destruct pre; [|discriminate H]. cbn in H.
      assert (is_Some (matchLiteral word [])) as [? Hs]
        by (apply matchLiteral_spec; by exists w, post).
      by rewrite Hs in E.
  - cbn [test]. destruct (matchLiteral word (c :: s)) eqn:E.
    + split; [intros _|done].
      destruct (proj1 (matchLiteral_spec word (c :: s)) (mk_is_Some _ _ E))
        as (w & post & H & Hw).
      by exists [], w, post.
    + rewrite IH. split.
      * intros (pre & w & post & -> & Hw). by exists (c :: pre), w, post.
      * intros (pre & w & post & H & Hw). destruct pre as [|x pre].
        -- cbn in H.
           assert (is_Some (matchLiteral word (c :: s))) as [? Hs]
             by (apply matchLiteral_spec; by exists w, post).
           by rewrite Hs in E.
        -- injection H as -> ->. by exists pre, w, post.
Qed.

(** X23. When a result passes the check. [validateResult] accepts a result
    exactly when it is not empty, its trimmed length is at least
    [minLength] (500 when left out) and it mentions none of the ten words
    of the three patterns, a mention being an occurrence anywhere in the
    text, inside a longer word too, in any letter case. *)
Theorem validateResult_passes_iff result minLength :
  validateResult result minLength = true
  <-> result <> []
      /\ (default 500 minLength <= Z.of_nat (length (trim result)))%Z
      /\ forall pattern word,
           pattern ∈ errorPatterns -> word ∈ pattern -> ~ mentions word result.
Proof.
  unfold validateResult.
  destruct result as [|c result'] eqn:Eres.
  { cbn [truthy negb orb]. split; [done|]. by intros [? _]. }
  rewrite <- Eres. replace (truthy result) with true by (by subst).
  cbn [negb orb].
  destruct (Z.ltb_spec (Z.of_nat (length (trim result))) (default 500%Z minLength))
    as [Hlt|Hge].
  { split; [done|]. intros (_ & H & _). lia. }
  rewrite negb_true_iff.
  split.
  - intros H. split; [by subst|]. split; [done|].
    intros pattern word Hp Hw Hm. apply test_spec in Hm.
    assert (existsb (fun pattern => existsb (fun word => test word result) pattern)
              errorPatterns = true); [|congruence].
    apply existsb_exists. exists pattern. split; [by apply list_elem_of_In|].
    apply existsb_exists. exists word. split; [by apply list_elem_of_In|done].
  - intros (_ & _ & H).
    destruct (existsb _ errorPatterns) eqn:E; [|done].
    apply existsb_exists in E as (pattern & Hp & E).
    apply existsb_exists in E as (word & Hw & E).
    apply list_elem_of_In in Hp, Hw.
    exfalso. apply (H pattern word); [done|done|by apply test_spec].
Qed.

(* ===================================================================== *)
(** ** The timestamp and the index                                         *)
(* ===================================================================== *)

Import Text Timestamp Index.

Lemma digits_inj d1 d2 : digits d1 = digits d2 -> d1 = d2.
Proof.
  revert d2. induction d1; intros d2 H; destruct d2; cbn in H;
    try discriminate H; try reflexivity;
    injection H as H; f_equal; by apply IHd1.
Qed.

Lemma digits_no_sign d d' : digits d <> 45%N :: d'.
Proof. destruct d; cbn; congruence. Qed.

Lemma numberToString_inj a b : numberToString a = numberToString b -> a = b.
Proof.
  unfold numberToString. intros H.
  rewrite <- (DecimalZ.of_to a), <- (DecimalZ.of_to b).
  destruct (Z.to_int a) as [da|da], (Z.to_int b) as [db|db].
  - by rewrite (digits_inj _ _ H).
  - by apply digits_no_sign in H.
  - symmetry in H. by apply digits_no_sign in H.
  - injection H as H. by rewrite (digits_inj _ _ H).
Qed.

(** The padded fields, by table: each has its width and gives back its
    number. *)
Lemma padded_table (width : nat) (bound : nat) :
  forallb (fun n =>
    (length (padStart width 48 (numberToString (Z.of_nat n))) =? width)%nat
    && (foldl (fun acc c => acc * 10 + Z.of_N c - 48)%Z 0%Z
          (padStart width 48 (numberToString (Z.of_nat n))) =? Z.of_nat n)%Z)
    (seq 0 bound) = true ->
  forall n, (0 <= n < Z.of_nat bound)%Z ->
    length (padStart width 48 (numberToString n)) = width
    /\ foldl (fun acc c => acc * 10 + Z.of_N c - 48)%Z 0%Z
         (padStart width 48 (numberToString n)) = n.
Proof.
  intros Htable n Hn. rewrite forallb_forall in Htable.
  assert (Hin : In (Z.to_nat n) (seq 0 bound)) by (apply in_seq; lia).
  apply Htable in Hin. rewrite Z2Nat.id in Hin by lia.
  apply andb_true_iff in Hin as [H1 H2].
  split; [by apply Nat.eqb_eq|by apply Z.eqb_eq].
Qed.

Lemma pad2 n : (0 <= n < 100)%Z ->
  length (padStart 2 48 (numberToString n)) = 2%nat
  /\ foldl (fun acc c => acc * 10 + Z.of_N c - 48)%Z 0%Z
       (padStart 2 48 (numberToString n)) = n.
Proof. apply (padded_table 2 100). by vm_compute. Qed.

Lemma pad3 n : (0 <= n < 1000)%Z ->
  length (padStart 3 48 (numberToString n)) = 3%nat
  /\ foldl (fun acc c => acc * 10 + Z.of_N c - 48)%Z 0%Z
       (padStart 3 48 (numberToString n)) = n.
Proof. apply (padded_table 3 1000). by vm_compute. Qed.

Lemma pad2_width n : (0 <= n < 100)%Z ->
  length (padStart 2 48 (numberToString n)) = 2%nat.
Proof. intros H. apply (pad2 n H). Qed.

Lemma pad3_width n : (0 <= n < 1000)%Z ->
  length (padStart 3 48 (numberToString n)) = 3%nat.
Proof. intros H. apply (pad3 n H). Qed.

Lemma pad2_inj a b : (0 <= a < 100)%Z -> (0 <= b < 100)%Z ->
  padStart 2 48 (numberToString a) = padStart 2 48 (numberToString b) -> a = b.
Proof.
  intros Ha Hb H. destruct (pad2 a Ha) as [_ <-], (pad2 b Hb) as [_ <-]. by rewrite H.
Qed.

Lemma pad3_inj a b : (0 <= a < 1000)%Z -> (0 <= b < 1000)%Z ->
  padStart 3 48 (numberToString a) = padStart 3 48 (numberToString b) -> a = b.
Proof.
  intros Ha Hb H. destruct (pad3 a Ha) as [_ <-], (pad3 b Hb) as [_ <-]. by rewrite H.
Qed.

Lemma year_width n : (1000 <= n <= 9999)%Z -> length (numberToString n) = 4%nat.
Proof.
  intros Hn.
  assert (Htable : forallb (fun k =>
            (length (numberToString (Z.of_nat k + 1000)) =? 4)%nat) (seq 0 (Z.to_nat 9000)) = true)
    by (by vm_compute).
  rewrite forallb_forall in Htable. specialize (Htable (Z.to_nat (n - 1000))).
  rewrite Z2Nat.id in Htable by lia. replace (n - 1000 + 1000)%Z with n in Htable by lia.
  apply Nat.eqb_eq, Htable, in_seq. lia.
Qed.

Lemma formatTimestamp_inj d1 d2 :
  inRange d1 -> inRange d2 -> formatTimestamp d1 = formatTimestamp d2 -> d1 = d2.
Proof.
  intros (Hmo1 & Hda1 & Hho1 & Hmi1 & Hse1 & Hms1) (Hmo2 & Hda2 & Hho2 & Hmi2 & Hse2 & Hms2).
  unfold formatTimestamp. cbv zeta. intros H.
  apply app_inv_head in H.
  apply app_inj_2 in H as [Hy H].
  2:{ rewrite !length_app.
      rewrite !pad2_width, !pad3_width by lia. done. }
  apply numberToString_inj in Hy.
  apply app_inv_head in H.
  apply app_inj_1 in H as [Hmo H]; [|by rewrite !pad2_width by lia].
  apply pad2_inj in Hmo; [|lia|lia].
  apply app_inv_head in H.
  apply app_inj_1 in H as [Hda H]; [|by rewrite !pad2_width by lia].
  apply pad2_inj in Hda; [|lia|lia].
  apply app_inv_head in H.
  apply app_inj_1 in H as [Hho H]; [|by rewrite !pad2_width by lia].
  apply pad2_inj in Hho; [|lia|lia].
  apply app_inv_head in H.
  apply app_inj_1 in H as [Hmi H]; [|by rewrite !pad2_width by lia].
  apply pad2_inj in Hmi; [|lia|lia].
  apply app_inv_head in H.
  apply app_inj_1 in H as [Hse H]; [|by rewrite !pad2_width by lia].
  apply pad2_inj in Hse; [|lia|lia].
  apply app_inv_head in H.
  apply app_inj_1 in H as [Hms _]; [|by rewrite !pad3_width by lia].
  apply pad3_inj in Hms; [|lia|lia].
  destruct d1, d2. cbn in *. f_equal; lia.
Qed.

(** X24. The timestamp tells dates apart. Two different dates whose fields are
    in range have different timestamps, and the timestamp of a date with
    a year of four digits has 26 characters. *)
Theorem formatTimestamp_tells_dates_apart d1 d2 :
  inRange d1 -> inRange d2 -> d1 <> d2 ->
  formatTimestamp d1 <> formatTimestamp d2
  /\ ((1000 <= getFullYear d1 <= 9999)%Z -> length (formatTimestamp d1) = 26%nat).
Proof.
  intros H1 H2 Hne. split.
  - intros H. by apply Hne, formatTimestamp_inj.
  - intros Hy. destruct H1 as (Hmo1 & Hda1 & Hho1 & Hmi1 & Hse1 & Hms1).
    unfold formatTimestamp. cbv zeta. rewrite !length_app.
    rewrite year_width by done.
    rewrite !pad2_width, !pad3_width by lia. done.
Qed.

(** *** The index *)

(** X25. The task counts of the index. In the index built from a packaged
    result, [qualityMetrics.successfulTasks] and
    [qualityMetrics.totalTasks] are both the number of results, so the
    ratio of the two is always n/n, while [metadata.totalTasks] is 4 and
    [metadata.successfulTasks] the number of results. *)
Theorem index_counts_every_result_as_success now now' taskOutputs config :
  let generated := validateAndPackageResults now taskOutputs config in
  let index := generateKnowledgeIndex now' generated config in
  q_successfulTasks (qualityMetrics index) = length taskOutputs
  /\ q_totalTasks (qualityMetrics index) = length taskOutputs
  /\ successfulTasks (i_metadata index) = length taskOutputs
  /\ totalTasks (i_metadata index) = 4%nat.
Proof.
  cbv zeta. unfold generateKnowledgeIndex, validateAndPackageResults.
  cbn [qualityMetrics q_successfulTasks q_totalTasks i_metadata k_metadata results
       successfulTasks totalTasks].
  rewrite !length_map. repeat split; try done.
  induction taskOutputs as [|o outs IH]; [done|].
  cbn [map]. rewrite filter_cons_True by done. cbn [length]. by rewrite IH.
Qed.

(* ===================================================================== *)
(** ** The entry point                                                     *)
(* ===================================================================== *)

Import EntryPoint.

Section Entry.

Variable extractStructuredData : jsstring -> StructuredData.
Variable now : jsstring.
Variable dumpIndex : KnowledgeGenerationResult -> AnalysisConfig -> jsstring.
Variable disk : jsstring -> option jsstring.

Lemma generateKnowledgeBase_session config scripts (w : World) :
  let session := executeKnowledgeGeneration extractStructuredData now dumpIndex
                   (fun c => (Prompts.buildUnifiedPrompt disk c Prompts.newStore).1)
                   (fullConfig config) scripts (set_realtimeWrittenTasks [] w) in
  let run := generateKnowledgeBase extractStructuredData now dumpIndex disk
               config scripts w in
  run.1.2 = session.1.2
  /\ run.2 = session.2
  /\ run.1.1 = match session.1.1 with
               | inr e => inr e
               | inl generated =>
                   match results generated with
                   | [] => inr (Error (msg_generation_failed ++ str "error"))
                   | _ :: _ => inl tt
                   end
               end.
Proof.
  cbv zeta. unfold generateKnowledgeBase.
  destruct (executeKnowledgeGeneration extractStructuredData now dumpIndex _
              (fullConfig config) scripts (set_realtimeWrittenTasks [] w))
    as [[r tr] w1] eqn:Hrun.
  destruct r as [generated|e]; [|done].
  destruct (executeKnowledgeGeneration_returns _ _ _ _ _ _ _ _ _ _ Hrun)
    as (_ & _ & _ & outs & _ & _ & _ & _ & -> & _).
  cbn [fst snd validateAndPackageResults k_status results].
  by destruct outs.
Qed.

(** X26. When generateKnowledgeBase resolves. It runs one session of a new
    manager with the completed configuration, and its calls of the engine
    and its effects are those of the session. It rejects with the
    exception of the session when the session throws, and with
    '知识库生成失败: error' when the session returns no result; it resolves
    when the session returns at least one result. *)
Theorem generateKnowledgeBase_resolves_iff_some_result config scripts (w : World) :
  let session := executeKnowledgeGeneration extractStructuredData now dumpIndex
                   (fun c => (Prompts.buildUnifiedPrompt disk c Prompts.newStore).1)
                   (fullConfig config) scripts (set_realtimeWrittenTasks [] w) in
  let run := generateKnowledgeBase extractStructuredData now dumpIndex disk
               config scripts w in
  run.1.2 = session.1.2
  /\ run.2 = session.2
  /\ run.1.1 = match session.1.1 with
               | inr e => inr e
               | inl generated =>
                   match results generated with
                   | [] => inr (Error (msg_generation_failed ++ str "error"))
                   | _ :: _ => inl tt
                   end
               end.
Proof. apply generateKnowledgeBase_session. Qed.

(** X27. Where the files go without an output path. When the output path is
    left out or empty, it is the repository path, and every file the run
    writes is knowledge.yaml or the output file of a declared task under
    [.repomind] of the repository. *)
Theorem default_output_is_the_repository config scripts (w : World) :
  let run := generateKnowledgeBase extractStructuredData now dumpIndex disk
               config scripts w in
  p_outputPath config = None \/ p_outputPath config = Some [] -> io w = [] ->
  outputPath (fullConfig config) = p_repoPath config
  /\ Forall (writesWithin (fullConfig config)) (io run.2).
Proof.
  cbv zeta. intros Hout Hio. split.
  - unfold fullConfig. cbn [outputPath]. by destruct Hout as [-> | ->].
  - destruct (generateKnowledgeBase_session config scripts w) as (_ & -> & _).
    by apply executeKnowledgeGeneration_tidy.
Qed.

(** X28. The index of a run without results. When the session returns without
    any result, [generateKnowledgeBase] rejects with '知识库生成失败: error'
    only after knowledge.yaml has been written, once. *)
Theorem failed_generation_leaves_an_index config scripts (w : World) generated :
  let session := executeKnowledgeGeneration extractStructuredData now dumpIndex
                   (fun c => (Prompts.buildUnifiedPrompt disk c Prompts.newStore).1)
                   (fullConfig config) scripts (set_realtimeWrittenTasks [] w) in
  let run := generateKnowledgeBase extractStructuredData now dumpIndex disk
               config scripts w in
  io w = [] -> session.1.1 = inl generated -> results generated = [] ->
  run.1.1 = inr (Error (msg_generation_failed ++ str "error"))
  /\ writesTo (indexPath (fullConfig config)) (io run.2) = 1%nat.
Proof.
  cbv zeta. intros Hio Hs Hres.
  destruct (generateKnowledgeBase_session config scripts w) as (_ & -> & ->).
  rewrite Hs, Hres. split; [done|].
  pose proof (executeKnowledgeGeneration_tidy extractStructuredData now dumpIndex
                (fun c => (Prompts.buildUnifiedPrompt disk c Prompts.newStore).1)
                (fullConfig config) scripts (set_realtimeWrittenTasks [] w) Hio)
    as (_ & _ & H).
  by rewrite Hs in H.
Qed.

End Entry.

(* ===================================================================== *)
(** ** retry                                                               *)
(* ===================================================================== *)

Import Text Utils.

Section RetryFacts.

Context {T : Type}.
Variable fn : nat -> T + JsError.

(** The delays of a run that failed [k] times: the base delay times 1,
    2, ..., [k]. *)
Lemma waits_snoc (delayMs : Z) (k : nat) :
  map (fun i => delayMs * Z.of_nat i)%Z (seq 1 k) ++ [(delayMs * Z.of_nat (S k))%Z]
  = map (fun i => delayMs * Z.of_nat i)%Z (seq 1 (S k)).
Proof. by rewrite seq_S, map_app. Qed.

(** The loop, entered after [made] failed calls, up to the first call that
    succeeds. *)
Lemma attemptsFrom_success (remaining made k : nat) (maxRetries delayMs : Z)
    (lastError : option JsError) (v : T) :
  (made <= k)%nat -> (k < made + remaining)%nat ->
  maxRetries = Z.of_nat (made + remaining) ->
  (forall j, (j < k)%nat -> exists e, fn j = inr e) ->
  fn k = inl v ->
  attemptsFrom fn remaining (Z.of_nat made + 1) maxRetries delayMs lastError
    {| calls := made; waits := map (fun i => delayMs * Z.of_nat i)%Z (seq 1 made) |}
  = (inl v, {| calls := S k; waits := map (fun i => delayMs * Z.of_nat i)%Z (seq 1 k) |}).
Proof.
  revert made lastError. induction remaining as [|remaining IH];
    intros made lastError Hle Hlt Hmax Hfail Hok; [lia|].
  cbn [attemptsFrom calls waits].
  destruct (decide (made = k)) as [->|Hne].
  { by rewrite Hok. }
  destruct (Hfail made ltac:(lia)) as [e ->].
  replace (Z.of_nat made + 1 <? maxRetries)%Z with true by (symmetry; apply Z.ltb_lt; lia).
  replace (Z.of_nat made + 1 + 1)%Z with (Z.of_nat (S made) + 1)%Z by lia.
  replace (Z.of_nat made + 1)%Z with (Z.of_nat (S made)) by lia.
  rewrite waits_snoc. apply IH; [lia|lia|lia|done|done].
Qed.

(** The loop when every call fails. *)
Lemma attemptsFrom_failure (remaining made : nat) (maxRetries delayMs : Z)
    (lastError : option JsError) :
  maxRetries = Z.of_nat (made + remaining) ->
  (forall j, (j < made + remaining)%nat -> exists e, fn j = inr e) ->
  exists last,
    attemptsFrom fn remaining (Z.of_nat made + 1) maxRetries delayMs lastError
      {| calls := made; waits := map (fun i => delayMs * Z.of_nat i)%Z (seq 1 made) |}
    = (inr (Error (msg_all_attempts_open ++ numberToString maxRetries
                   ++ msg_all_attempts_close ++ lastMessage last)),
       {| calls := made + remaining;
          waits := map (fun i => delayMs * Z.of_nat i)%Z
                       (seq 1 (if remaining is O then made else made + remaining - 1)) |})
    /\ last = match remaining with
              | O => lastError
              | S _ => match fn (made + remaining - 1) with
                       | inr e => Some e
                       | inl _ => None
                       end
              end.
Proof.
  revert made lastError. induction remaining as [|remaining IH];
    intros made lastError Hmax Hfail.
  { exists lastError. cbn [attemptsFrom]. by rewrite Nat.add_0_r. }
  cbn [attemptsFrom calls waits].
  destruct (Hfail made ltac:(lia)) as [e He]. rewrite He.
  destruct remaining as [|remaining'].
  - replace (Z.of_nat made + 1 <? maxRetries)%Z with false
      by (symmetry; apply Z.ltb_ge; lia).
    exists (Some e). cbn [attemptsFrom].
    replace (made + 1 - 1)%nat with made by lia. rewrite He.
    replace (made + 1)%nat with (S made) by lia. done.
  - replace (Z.of_nat made + 1 <? maxRetries)%Z with true
      by (symmetry; apply Z.ltb_lt; lia).
    replace (Z.of_nat made + 1 + 1)%Z with (Z.of_nat (S made) + 1)%Z by lia.
    replace (Z.of_nat made + 1)%Z with (Z.of_nat (S made)) by lia.
    rewrite waits_snoc.
    destruct (IH (S made) (Some e)) as (last & Hrun & Hlast); [lia| |].
    { intros j Hj. apply Hfail. lia. }
    exists last. rewrite Hrun.
    replace (S made + S remaining')%nat with (made + S (S remaining'))%nat by lia.
    split; [done|].
    by replace (made + S (S remaining') - 1)%nat
         with (S made + S remaining' - 1)%nat by lia.
Qed.

(** X29. retry returns the first success. When the first [k] calls of [fn]
    fail and the next one succeeds, with [k] below [maxRetries], [retry]
    returns the value of that call after exactly [k + 1] calls, having
    waited [delayMs], twice [delayMs], ..., [k] times [delayMs] between
    them: the delays grow linearly. *)
Theorem retry_returns_first_success (maxRetries delayMs : Z) (k : nat) (v : T) :
  (Z.of_nat k < maxRetries)%Z ->
  (forall j, (j < k)%nat -> exists e, fn j = inr e) ->
  fn k = inl v ->
  retry fn (Some maxRetries) (Some delayMs)
  = (inl v, {| calls := S k; waits := map (fun i => delayMs * Z.of_nat i)%Z (seq 1 k) |}).
Proof.
  intros Hk Hfail Hok. unfold retry. cbn [default].
  apply (attemptsFrom_success (Z.to_nat maxRetries) 0 k); [lia|lia|unfold Datatypes.id; lia|done|done].
Qed.

(** X30. retry gives up. When every call fails, [retry] calls [fn] [maxRetries]
    times (not at all when [maxRetries] is below 1), waits [delayMs]
    times [i] after the failure number [i] except after the last one, and
    throws '所有 N 次尝试都失败了。最后错误: ' with the message of the last
    failure, or with '未知错误' when there was no call or that message is
    empty. *)
Theorem retry_gives_up_after_maxRetries (maxRetries delayMs : Z) :
  (forall j, (Z.of_nat j < maxRetries)%Z -> exists e, fn j = inr e) ->
  let n := Z.to_nat maxRetries in
  let last := match n with
              | O => None
              | S m => match fn m with inr e => Some e | inl _ => None end
              end in
  retry fn (Some maxRetries) (Some delayMs)
  = (inr (Error (msg_all_attempts_open ++ numberToString maxRetries
                 ++ msg_all_attempts_close ++ lastMessage last)),
     {| calls := n; waits := map (fun i => delayMs * Z.of_nat i)%Z (seq 1 (n - 1)) |}).
Proof.
  intros Hfail. cbv zeta. unfold retry. cbn [default from_option]. unfold Datatypes.id.
  destruct (Z.to_nat maxRetries) as [|m] eqn:En; [done|].
  destruct (attemptsFrom_failure (S m) 0 maxRetries delayMs None) as (l & Hrun & Hl);
    [lia|intros j Hj; apply Hfail; lia|].
  change (Z.of_nat 0 + 1)%Z with 1%Z in Hrun. cbn [seq map] in Hrun. rewrite Hrun. subst l.
  cbn [Nat.add]. replace (S m - 1)%nat with m by lia. done.
Qed.

End RetryFacts.

(* ===================================================================== *)
(** ** The further properties at concrete inputs                           *)
(* ===================================================================== *)

Import Inputs Scenarios.

(** A second scan of a completed segment. *)
Lemma rescan_changes_nothing_witness :
  detectAndWriteCompletedTasks clock (segment (str "overview") 140) config
    (detectAndWriteCompletedTasks clock (segment (str "overview") 140) config fresh)
  = detectAndWriteCompletedTasks clock (segment (str "overview") 140) config fresh.
Proof.
  exact (rescan_changes_nothing clock config (segment (str "overview") 140) fresh eq_refl).
Defined.

(** An end marker before the start marker. *)
Lemma end_marker_first_hides_segment_witness :
  tryStandardFormat ([] ++ endMarker overviewTask ++ afterEnd) overviewTask = None
  /\ realtimeWrittenTasks
       (detectTask clock ([] ++ endMarker overviewTask ++ afterEnd) config fresh overviewTask)
     = realtimeWrittenTasks fresh
  /\ io (detectTask clock ([] ++ endMarker overviewTask ++ afterEnd) config fresh overviewTask)
     = io fresh
  /\ files (detectTask clock ([] ++ endMarker overviewTask ++ afterEnd) config fresh overviewTask)
     = files fresh.
Proof.
  apply (end_marker_first_hides_segment clock config [] afterEnd fresh overviewTask).
  vm_compute. reflexivity.
Defined.

(** A segment of 60 characters between exact markers. *)
Lemma short_exact_segment_shuts_fallback_witness :
  if truthy (chars 60)
  then fallbackOutput noStructuredData clock (segment (str "overview") 60) config
         overviewTask = None
  else extractTaskContentForFallback (segment (str "overview") 60) overviewTask =
         if hit (tryVariantFormats (segment (str "overview") 60) overviewTask)
         then tryVariantFormats (segment (str "overview") 60) overviewTask
         else tryFuzzyMatching (segment (str "overview") 60) overviewTask.
Proof.
  apply (short_exact_segment_shuts_fallback noStructuredData clock
           (segment (str "overview") 60) config overviewTask (chars 60)).
  - vm_compute. reflexivity.
  - vm_compute. lia.
Defined.

(** A session that streams a segment of 60 characters. *)
Lemma exact_markers_recover_nothing_after_clean_session_witness :
  match executeUnifiedAnalysis clock (str "PROMPT") config
          [answer (segment (str "overview") 60)] fresh with
  | (inl text, _, _) =>
      (forall c, tryStandardFormat text overviewTask = Some c -> (length c <= 100)%nat)
      /\ (forall extractStructuredData,
            is_Some (fallbackOutput extractStructuredData clock text config overviewTask) ->
            hit (tryStandardFormat text overviewTask) = false)
  | _ => False
  end.
Proof.
  assert (Hreturns :
    match executeUnifiedAnalysis clock (str "PROMPT") config
            [answer (segment (str "overview") 60)] fresh with
    | (inl _, _, w') => has (id overviewTask) (realtimeWrittenTasks w') = false
    | _ => False
    end) by (vm_compute; reflexivity).
  remember (executeUnifiedAnalysis clock (str "PROMPT") config
              [answer (segment (str "overview") 60)] fresh) as run eqn:E.
  symmetry in E. destruct run as [[[text|e] tr] w'].
  - exact (exact_markers_recover_nothing_after_clean_session clock config (str "PROMPT")
             [answer (segment (str "overview") 60)] fresh text tr w' overviewTask
             eq_refl E (list_elem_of_here _ _) Hreturns).
  - exact Hreturns.
Defined.


(** The files of a session whose one call returns, without streaming it,
    a text with a complete segment for [overview]: the scan of the
    returned text writes the file. *)
Lemma reported_documents_are_on_disk_witness :
  match executeKnowledgeGeneration noStructuredData clock noIndex promptOk config
          [resultOnly (segment (str "overview") 140)] fresh with
  | (inl k, _, w') =>
      map agentName (results k) = [str "overview"]
      /\ files w' !! indexPath config = Some (noIndex k config)
      /\ forall r, r ∈ results k ->
           exists task, task ∈ ANALYSIS_TASKS /\ agentName r = id task
                        /\ files w' !! filePathOf config task = Some (document (output r))
  | _ => False
  end.
Proof.
  assert (Hreturns :
    match executeKnowledgeGeneration noStructuredData clock noIndex promptOk config
            [resultOnly (segment (str "overview") 140)] fresh with
    | (inl k, _, _) => map agentName (results k) = [str "overview"]
    | _ => False
    end) by (vm_compute; reflexivity).
  remember (executeKnowledgeGeneration noStructuredData clock noIndex promptOk config
              [resultOnly (segment (str "overview") 140)] fresh) as run eqn:E.
  symmetry in E. destruct run as [[[k|e] tr] w'].
  - split; [exact Hreturns|].
    exact (reported_documents_are_on_disk noStructuredData clock noIndex promptOk config
             [resultOnly (segment (str "overview") 140)] fresh k tr w' eq_refl eq_refl
             (fun _ => lookup_empty _) E).
  - exact Hreturns.
Defined.

(** The writes of the session with one task resolved of four, for a
    repository given with separators at the end. *)
Lemma session_writes_only_its_files_witness :
  Forall (writesWithin slashConfig)
    (io (executeKnowledgeGeneration noStructuredData clock noIndex promptOk slashConfig
           [answer (segment (str "overview") 140)] fresh).2)
  /\ (writesTo (indexPath slashConfig)
        (io (executeKnowledgeGeneration noStructuredData clock noIndex promptOk slashConfig
               [answer (segment (str "overview") 140)] fresh).2) <= 1)%nat
  /\ match (executeKnowledgeGeneration noStructuredData clock noIndex promptOk slashConfig
              [answer (segment (str "overview") 140)] fresh).1.1 with
     | inl _ =>
         writesTo (indexPath slashConfig)
           (io (executeKnowledgeGeneration noStructuredData clock noIndex promptOk
                  slashConfig [answer (segment (str "overview") 140)] fresh).2) = 1%nat
     | inr _ => True
     end.
Proof.
  exact (session_writes_only_its_files noStructuredData clock noIndex promptOk slashConfig
           [answer (segment (str "overview") 140)] fresh eq_refl).
Defined.

(** The confidence of a short document marked as partial. *)
Lemma confidence_never_exceeds_nine_tenths_witness :
  (calculateTaskConfidence (outputOf (chars 10 ++ note_partial) []) <= 63 # 100)%Q.
Proof.
  apply (confidence_never_exceeds_nine_tenths (outputOf (chars 10 ++ note_partial) [])).
  vm_compute. reflexivity.
Defined.

(** A second build after the files are gone. *)
Lemma second_build_reads_nothing_witness :
  (exists prompt, (Prompts.buildUnifiedPrompt everyFile config Prompts.newStore).1 = inl prompt)
  /\ Prompts.buildUnifiedPrompt noFile config
       (Prompts.buildUnifiedPrompt everyFile config Prompts.newStore).2
     = Prompts.buildUnifiedPrompt everyFile config Prompts.newStore.
Proof.
  apply (second_build_reads_nothing everyFile noFile config Prompts.newStore).
  vm_compute. reflexivity.
Defined.

(** A prompt with the output path in it. *)
Lemma combinePrompts_fills_output_path_witness :
  Prompts.combinePrompts (str "GUIDE")
    (str "Write to " ++ str "{{OUTPUT_PATH}}" ++ str "/.repomind") config
  = str "GUIDE" ++ Prompts.prompt_separator ++ str "Write to "
    ++ Text.getSubstitution (str "{{OUTPUT_PATH}}") (str "Write to ") (str "/.repomind")
         (outputPath config)
    ++ str "/.repomind"
  /\ Prompts.combinePrompts (str "GUIDE")
       (str "Write to " ++ str "{{OUTPUT_PATH}}" ++ str "/.repomind") config
     = str "GUIDE" ++ Prompts.prompt_separator ++ str "Write to "
       ++ outputPath config ++ str "/.repomind".
Proof.
  destruct (combinePrompts_fills_output_path (str "GUIDE") (str "Write to ")
              (str "/.repomind") config) as [Hexpanded Hplain].
  - apply (bool_decide_eq_true_1 (123%N ∉ str "Write to ")). vm_compute. reflexivity.
  - apply (bool_decide_eq_true_1 (123%N ∉ str "/.repomind")). vm_compute. reflexivity.
  - split; [exact Hexpanded|]. apply Hplain.
    apply (bool_decide_eq_true_1 (36%N ∉ outputPath config)). vm_compute. reflexivity.
Defined.

(** A yaml block that does not parse, before a json block that does. *)
Lemma yaml_block_is_parsed_alone_witness :
  Validation.extractStructuredData yamlRejects jsonAccepts
    (str "Stack" ++ Validation.fenceOpen (str "yaml") ++ str "techStack: [a"
     ++ Validation.fenceClose ++ jsonBlock)
  = match yamlRejects (str "techStack: [a") with
    | inl parsed => Validation.fromYaml parsed
    | inr _ => Validation.defaults
    end.
Proof.
  apply (yaml_block_is_parsed_alone yamlRejects jsonAccepts (str "Stack")
           (str "techStack: [a") jsonBlock).
  - apply (bool_decide_eq_true_1 (96%N ∉ str "Stack")). vm_compute. reflexivity.
  - apply (bool_decide_eq_true_1 (96%N ∉ str "techStack: [a")). vm_compute. reflexivity.
Defined.

(** Two instants one millisecond apart. *)
Lemma formatTimestamp_tells_dates_apart_witness :
  Timestamp.formatTimestamp newYear <> Timestamp.formatTimestamp justAfter
  /\ length (Timestamp.formatTimestamp newYear) = 26%nat.
Proof.
  destruct (formatTimestamp_tells_dates_apart newYear justAfter) as [Hapart Hwidth].
  - vm_compute. repeat split; discriminate.
  - vm_compute. repeat split; discriminate.
  - discriminate.
  - split; [exact Hapart|]. apply Hwidth. vm_compute. split; discriminate.
Defined.

(** A run with the repository path alone. *)
Lemma default_output_is_the_repository_witness :
  outputPath (EntryPoint.fullConfig pathOnly) = EntryPoint.p_repoPath pathOnly
  /\ Forall (writesWithin (EntryPoint.fullConfig pathOnly))
       (io (EntryPoint.generateKnowledgeBase noStructuredData clock noIndex everyFile
              pathOnly [answer (segment (str "overview") 140)] fresh).2).
Proof.
  exact (default_output_is_the_repository noStructuredData clock noIndex everyFile
           pathOnly [answer (segment (str "overview") 140)] fresh
           (or_introl eq_refl) eq_refl).
Defined.

(** A run whose answer holds no task at all. *)
Lemma failed_generation_leaves_an_index_witness :
  (EntryPoint.generateKnowledgeBase noStructuredData clock noIndex everyFile
     pathOnly [answer (chars 200)] fresh).1.1
  = inr (Error (EntryPoint.msg_generation_failed ++ str "error"))
  /\ writesTo (indexPath (EntryPoint.fullConfig pathOnly))
       (io (EntryPoint.generateKnowledgeBase noStructuredData clock noIndex everyFile
              pathOnly [answer (chars 200)] fresh).2) = 1%nat.
Proof.
  remember (executeKnowledgeGeneration noStructuredData clock noIndex
              (fun c => (Prompts.buildUnifiedPrompt everyFile c Prompts.newStore).1)
              (EntryPoint.fullConfig pathOnly) [answer (chars 200)]
              (set_realtimeWrittenTasks [] fresh)) as session eqn:E.
  assert (Hnone : match session.1.1 with
                  | inl generated => results generated = []
                  | inr _ => False
                  end) by (subst session; vm_compute; reflexivity).
  destruct session as [[[generated|e] tr] w1]; [|destruct Hnone].
  apply (failed_generation_leaves_an_index noStructuredData clock noIndex everyFile
           pathOnly [answer (chars 200)] fresh generated).
  - reflexivity.
  - rewrite <- E. reflexivity.
  - exact Hnone.
Defined.

(** A function that succeeds at the third call. *)
Lemma retry_returns_first_success_witness :
  Utils.retry thirdTime (Some 3%Z) (Some 1000%Z)
  = (inl 7%Z,
     {| Utils.calls := 3;
        Utils.waits := map (fun i => 1000 * Z.of_nat i)%Z (seq 1 2) |}).
Proof.
  apply (retry_returns_first_success thirdTime 3%Z 1000%Z 2%nat 7%Z).
  - reflexivity.
  - intros j Hj. exists (Error (str "busy")).
    destruct j as [|[|j]]; [reflexivity|reflexivity|lia].
  - reflexivity.
Defined.

(** A function that never succeeds. *)
Lemma retry_gives_up_after_maxRetries_witness :
  Utils.retry never (Some 3%Z) (Some 1000%Z)
  = (inr (Error (Utils.msg_all_attempts_open ++ Text.numberToString 3
                 ++ Utils.msg_all_attempts_close
                 ++ Utils.lastMessage
                      match Z.to_nat 3 with
                      | O => None
                      | S m => match never m with inr e => Some e | inl _ => None end
                      end)),
     {| Utils.calls := Z.to_nat 3;
        Utils.waits := map (fun i => 1000 * Z.of_nat i)%Z (seq 1 (Z.to_nat 3 - 1)) |}).
Proof.
  apply (retry_gives_up_after_maxRetries never 3%Z 1000%Z).
  intros j _. exists (Error (str "busy")). reflexivity.
Defined.
